(** * Seat accounting and order lifecycle of the group-purchase API

    A shallow embedding of the Split and Order data sources
    (SplitDataSource, OrderDataSource), of the Stripe service wrapper
    and of the provider's webhook route, followed by the properties of
    the seat counters, the status transitions, the cancellation paths,
    the expiration sweep and notices, the provider's events and the
    amount computation.

    Mongo collections are finite maps and lists, the payment provider and
    the system-message stream are part of an explicit world, and every
    [async] method is a computation in a state-and-exception monad over
    that world. *)

From Stdlib Require Import ZArith String List Floats Uint63 DecimalString.
From stdpp Require Import gmap strings list.

Local Open Scope string_scope.

(** ** JavaScript values and helpers *)

(** Mongo ObjectIDs. *)
Abbreviation ObjectID := nat.

(** Dates, as milliseconds since the epoch. *)
Abbreviation DateTime := Z.

(** [String.prototype.includes]. *)
Fixpoint includes (s sub : string) : bool :=
  if String.prefix sub s then true
  else match s with
       | EmptyString => false
       | String _ rest => includes rest sub
       end.

(** [Array.prototype.includes] *)
Definition array_includes {A} `{EqDecision A} (l : list A) (x : A) : bool :=
  existsb (fun y => bool_decide (y = x)) l.

(** Decimal rendering of an integer inside a template string. *)
Definition string_of_Z (z : Z) : string :=
  DecimalString.NilZero.string_of_int (Z.to_int z).

(** [x || 0] on a number. *)
Definition or0 (x : Z) : Z := if bool_decide (x = 0%Z) then 0%Z else x.

(** [s || null] on an optional string: the empty string is falsy. *)
Definition or_null (s : option string) : option string :=
  match s with
  | Some "" => None
  | other => other
  end.

(** Thrown values: [new Error(message)] and the engine's own [TypeError]. *)
Inductive exn :=
| Error (message : string)
| TypeError (message : string).

Definition message (e : exn) : string :=
  match e with Error m | TypeError m => m end.

Inductive Result (A : Type) :=
| Ok (a : A)
| Throw (e : exn).
Arguments Ok {A} a.
Arguments Throw {A} e.

(** ** Enumerations *)

Module SplitStatus.
Inductive t := ACTIVE | FILLED | EXPIRED | CANCELLED | COMPLETE.
#[global] Instance eq_dec : EqDecision t.
Proof. solve_decision. Defined.
End SplitStatus.

Module SplitType.
Inductive t := APP | LEGACY.
#[global] Instance eq_dec : EqDecision t.
Proof. solve_decision. Defined.
End SplitType.

Module SplitRoomMessageTypes.
Inductive t :=
| CLIENT_JOINED | CLIENT_EXITED | EXPIRATION_NOTICE | SPLIT_CREATED
| SPLIT_CANCELLED | SPLIT_COMPLETED | SPLIT_RESET | SPLIT_EXTENDED.
#[global] Instance eq_dec : EqDecision t.
Proof. solve_decision. Defined.
End SplitRoomMessageTypes.

Module OrderStatusType.
Inductive t :=
| PAYMENT_PENDING | PAYMENT_FAILED | PAID | SYSTEM_CANCELED
| OWNER_CANCELED | CLIENT_CANCELED | REFUND_REQUESTED | COMPLETE
| REFUNDED | SHIPPED | RECEIVED.
#[global] Instance eq_dec : EqDecision t.
Proof. solve_decision. Defined.

(** The string each member stands for. *)
Definition value (st : t) : string :=
  match st with
  | PAYMENT_PENDING => "payment_pending"
  | PAYMENT_FAILED => "payment_failed"
  | PAID => "paid"
  | SYSTEM_CANCELED => "system_canceled"
  | OWNER_CANCELED => "owner_canceled"
  | CLIENT_CANCELED => "client_canceled"
  | REFUND_REQUESTED => "refund_requested"
  | COMPLETE => "complete"
  | REFUNDED => "refunded"
  | SHIPPED => "shipped"
  | RECEIVED => "received"
  end.
End OrderStatusType.

(** The roles the source names: [UserRole.ADMIN] (compared with the
    literal ['admin'] in [update]) and [UserRole.USER]. *)
Module UserRole.
Inductive t := ADMIN | USER.
#[global] Instance eq_dec : EqDecision t.
Proof. solve_decision. Defined.
End UserRole.

(** Conversation roles. *)
Module Role.
Inductive t := full | readonly.
#[global] Instance eq_dec : EqDecision t.
Proof. solve_decision. Defined.
End Role.

(** [StripePaymentStatusType] of services/stripe.js.  The provider's
    status is a string; the table has no key [PAYMENT_FAILED], so that
    member access yields [undefined], here [None]. *)
Module StripePaymentStatusType.
Definition REQUIRE_PAYMENT_METHOD := "requires_payment_method".
Definition REQUIRE_CONFIRMATION := "requires_confirmation".
Definition REUIRE_ACTION := "requires_action".
Definition FAILED := "payment_failed".
Definition PROCESSING := "processing".
Definition CANCELED := "canceled".
Definition SUCCESS := "succeeded".
Definition PAYMENT_FAILED : option string := None.
End StripePaymentStatusType.

(** ** Documents *)

Module Split.
Record t := mk {
  _id : ObjectID;
  user : ObjectID;
  type : SplitType.t;
  title : string;
  description : string;
  media : list string;
  numPlaces : Z;
  numSeats : Z;
  ownerSeats : Z;
  placesLeft : Z;
  price : float;
  status : SplitStatus.t;
  cancelReason : option string;
  expirationDate : option DateTime;
  conversation : option ObjectID;
}.

(** [$inc: { numSeats, placesLeft: -numSeats }] *)
Definition inc_seats (d : Z) (s : t) : t :=
  mk (_id s) (user s) (type s) (title s) (description s) (media s)
     (numPlaces s) (numSeats s + d) (ownerSeats s) (placesLeft s - d)
     (price s) (status s) (cancelReason s) (expirationDate s)
     (conversation s).

Definition with_status (st : SplitStatus.t) (s : t) : t :=
  mk (_id s) (user s) (type s) (title s) (description s) (media s)
     (numPlaces s) (numSeats s) (ownerSeats s) (placesLeft s)
     (price s) st (cancelReason s) (expirationDate s) (conversation s).

Definition with_cancelReason (r : option string) (s : t) : t :=
  mk (_id s) (user s) (type s) (title s) (description s) (media s)
     (numPlaces s) (numSeats s) (ownerSeats s) (placesLeft s)
     (price s) (status s) r (expirationDate s) (conversation s).

Definition with_conversation (c : option ObjectID) (s : t) : t :=
  mk (_id s) (user s) (type s) (title s) (description s) (media s)
     (numPlaces s) (numSeats s) (ownerSeats s) (placesLeft s)
     (price s) (status s) (cancelReason s) (expirationDate s) c.

Definition with_numSeats (n : Z) (s : t) : t :=
  mk (_id s) (user s) (type s) (title s) (description s) (media s)
     (numPlaces s) n (ownerSeats s) (placesLeft s)
     (price s) (status s) (cancelReason s) (expirationDate s) (conversation s).
End Split.

(** [CreateSplitInput]: every capacity field is a required [Int]. *)
Module SplitInput.
Record t := mk {
  type : SplitType.t;
  title : string;
  description : string;
  media : list string;
  numPlaces : Z;
  numSeats : Z;
  price : float;
  expirationDate : option DateTime;
}.
End SplitInput.

Module OrderMetaData.
Record t := mk {
  clientName : string;
  ownerName : string;
  splitTitle : string;
  splitDescription : string;
  splitPicture : option string;
  amount : option Z;
  feeAmount : option Z;
}.
End OrderMetaData.

Module Order.
Record t := mk {
  _id : ObjectID;
  client : ObjectID;
  owner : ObjectID;
  split : ObjectID;
  status : OrderStatusType.t;
  numSeats : Z;
  shippingAddress : ObjectID;
  paymentIntent : string;
  paymentMethod : string;
  metadata : OrderMetaData.t;
}.

Definition with_status (st : OrderStatusType.t) (o : t) : t :=
  mk (_id o) (client o) (owner o) (split o) st (numSeats o)
     (shippingAddress o) (paymentIntent o) (paymentMethod o) (metadata o).

Definition with_shippingAddress (a : ObjectID) (o : t) : t :=
  mk (_id o) (client o) (owner o) (split o) (status o) (numSeats o)
     a (paymentIntent o) (paymentMethod o) (metadata o).
End Order.

(** [CreateOrderInput] *)
Module OrderInput.
Record t := mk {
  split : ObjectID;
  numSeats : Z;
  shippingAddress : ObjectID;
  paymentIntent : string;
}.
End OrderInput.

Module User.
Record t := mk {
  _id : ObjectID;
  fullname : string;
  role : UserRole.t;
  stripeAccountId : string;
}.
End User.

(** Modelled from the spec: the Conversation record kept per Split by the
    Conversation Service (models/Conversation is not part of the sources):
    a thread with a participant list and the two roles. *)
Module Conversation.
Record t := mk {
  _id : ObjectID;
  split : ObjectID;
  participants : list (ObjectID * Role.t);
}.

Definition with_participants (ps : list (ObjectID * Role.t)) (c : t) : t :=
  mk (_id c) (split c) ps.
End Conversation.

(** A system message posted to a conversation. *)
Module SystemMessage.
Record t := mk {
  conversation : option ObjectID;
  text : string;
  messageType : SplitRoomMessageTypes.t;
}.
End SystemMessage.

(** ** The payment provider *)

Module PaymentIntent.
(** [charges] is [None] when the provider's object carries no such
    field. *)
Record t := mk {
  id : string;
  status : string;
  amount : option Z;
  application_fee_amount : option Z;
  charges : option (list string);
  payment_method : option string;
  client_secret : string;
}.

Definition with_status (st : string) (p : t) : t :=
  mk (id p) st (amount p) (application_fee_amount p) (charges p)
     (payment_method p) (client_secret p).
End PaymentIntent.

Module Refund.
Record t := mk {
  charge : string;
  reverse_transfer : bool;
  refund_application_fee : bool;
}.
End Refund.

(** The provider's state.  [refunds] lists the refunds created so far.
    [refund_errors] and [cancel_errors] stand for the provider's side of
    the conversation: the error it answers to a refund of a charge, or
    to the cancellation of an authorization, when it refuses. *)
Module Gateway.
Record t := mk {
  intents : gmap string PaymentIntent.t;
  refunds : list Refund.t;
  refund_errors : gmap string string;
  cancel_errors : gmap string string;
  charges_enabled : gmap string bool;
}.
End Gateway.

(** ** The world *)

(** The Mongo collections. *)
Module Store.
Record t := mk {
  splits : gmap ObjectID Split.t;
  orders : list Order.t;
  conversations : list Conversation.t;
  users : gmap ObjectID User.t;
  next_id : ObjectID;
}.

Definition with_splits (f : gmap ObjectID Split.t -> gmap ObjectID Split.t) (s : t) : t :=
  mk (f (splits s)) (orders s) (conversations s) (users s) (next_id s).
Definition with_orders (f : list Order.t -> list Order.t) (s : t) : t :=
  mk (splits s) (f (orders s)) (conversations s) (users s) (next_id s).
Definition with_conversations
    (f : list Conversation.t -> list Conversation.t) (s : t) : t :=
  mk (splits s) (orders s) (f (conversations s)) (users s) (next_id s).
Definition bump (s : t) : t :=
  mk (splits s) (orders s) (conversations s) (users s) (S (next_id s)).
End Store.

(** [store] is what a reader inside the running operation sees;
    [committed] is the state to fall back to while a transaction is open;
    [gateway] and [messages] live outside Mongo and are never rolled
    back. *)
Module World.
Record t := mk {
  store : Store.t;
  committed : option Store.t;
  gateway : Gateway.t;
  messages : list SystemMessage.t;
}.
End World.

(** The authenticated caller, [this.context.user]. *)
Module Context.
Record t := mk {
  _id : ObjectID;
  role : UserRole.t;
}.
End Context.

(** ** The monad of [async] methods *)

Definition M (A : Type) : Type := World.t -> Result A * World.t.

Definition ret {A} (a : A) : M A := fun w => (Ok a, w).

Definition throw {A} (e : exn) : M A := fun w => (Throw e, w).

Definition bind {A B} (c : M A) (k : A -> M B) : M B :=
  fun w =>
    match c w with
    | (Ok a, w') => k a w'
    | (Throw e, w') => (Throw e, w')
    end.

Notation "'let*' x ':=' c 'in' k" := (bind c (fun x => k))
  (at level 10, x pattern, c at level 100, k at level 200).
Notation "c ';;' k" := (bind c (fun _ => k))
  (at level 100, k at level 200, right associativity).

(** Runs [c] and hands its outcome to the caller, as [try] does for the
    [catch] clause. *)
Definition attempt {A} (c : M A) : M (Result A) :=
  fun w => let (r, w') := c w in (Ok r, w').

Definition gets {A} (f : World.t -> A) : M A := fun w => (Ok (f w), w).

(** A write carrying the transaction's [session]. *)
Definition write (f : Store.t -> Store.t) : M unit :=
  fun w =>
    (Ok tt, World.mk (f (World.store w)) (World.committed w)
                     (World.gateway w) (World.messages w)).

(** A write issued without a [session]: it is committed at once, so an
    abort of the surrounding transaction does not take it back. *)
Definition write_nosession (f : Store.t -> Store.t) : M unit :=
  fun w =>
    (Ok tt, World.mk (f (World.store w)) (f <$> World.committed w)
                     (World.gateway w) (World.messages w)).

Definition write_gateway (f : Gateway.t -> Gateway.t) : M unit :=
  fun w =>
    (Ok tt, World.mk (World.store w) (World.committed w)
                     (f (World.gateway w)) (World.messages w)).

(** [session.withTransaction(fn)]: commit when [fn] returns, roll the
    collections back when it throws. *)
Definition withTransaction {A} (fn : M A) : M A :=
  fun w =>
    let w0 := World.mk (World.store w) (Some (World.store w))
                       (World.gateway w) (World.messages w) in
    match fn w0 with
    | (Ok a, w') =>
        (Ok a, World.mk (World.store w') None
                        (World.gateway w') (World.messages w'))
    | (Throw e, w') =>
        (Throw e, World.mk (default (World.store w') (World.committed w')) None
                           (World.gateway w') (World.messages w'))
    end.

(** A fresh ObjectID. *)
Definition fresh_id : M ObjectID :=
  fun w =>
    (Ok (Store.next_id (World.store w)),
     World.mk (Store.bump (World.store w)) (World.committed w)
              (World.gateway w) (World.messages w)).

(** ** The Stripe SDK

    The provider itself is outside the repository: these calls are the
    ones the service wrapper makes, answered from [Gateway.t]. *)
Module stripe.

Definition paymentIntents_retrieve (id : string) : M PaymentIntent.t :=
  fun w =>
    match Gateway.intents (World.gateway w) !! id with
    | Some p => (Ok p, w)
    | None => (Throw (Error ("No such payment_intent: " ++ id)), w)
    end.

Definition set_intent_status (id st : string) (g : Gateway.t) : Gateway.t :=
  Gateway.mk (alter (PaymentIntent.with_status st) id (Gateway.intents g))
             (Gateway.refunds g) (Gateway.refund_errors g)
             (Gateway.cancel_errors g) (Gateway.charges_enabled g).

Definition paymentIntents_cancel (id : string) : M PaymentIntent.t :=
  let* p := paymentIntents_retrieve id in
  let* refusal := gets (fun w => Gateway.cancel_errors (World.gateway w) !! id) in
  match refusal with
  | Some m => throw (Error m)
  | None =>
      write_gateway (set_intent_status id StripePaymentStatusType.CANCELED) ;;
      ret (PaymentIntent.with_status StripePaymentStatusType.CANCELED p)
  end.

Definition add_refund (r : Refund.t) (g : Gateway.t) : Gateway.t :=
  Gateway.mk (Gateway.intents g) (Gateway.refunds g ++ [r])%list
             (Gateway.refund_errors g) (Gateway.cancel_errors g)
             (Gateway.charges_enabled g).

Definition refunds_create (r : Refund.t) : M Refund.t :=
  let* refusal :=
    gets (fun w => Gateway.refund_errors (World.gateway w) !! Refund.charge r) in
  match refusal with
  | Some m => throw (Error m)
  | None => write_gateway (add_refund r) ;; ret r
  end.

(** [paymentIntents.create]: the provider opens an authorization for the
    amounts it is given and names it. *)
Definition add_intent (p : PaymentIntent.t) (g : Gateway.t) : Gateway.t :=
  Gateway.mk (<[PaymentIntent.id p := p]> (Gateway.intents g))
             (Gateway.refunds g) (Gateway.refund_errors g)
             (Gateway.cancel_errors g) (Gateway.charges_enabled g).

Definition paymentIntents_create (amount application_fee_amount : option Z)
    : M PaymentIntent.t :=
  let* n := gets (fun w => size (Gateway.intents (World.gateway w))) in
  let id := "pi_" ++ string_of_Z (Z.of_nat n) in
  let p := PaymentIntent.mk id StripePaymentStatusType.REQUIRE_PAYMENT_METHOD
             amount application_fee_amount None None (id ++ "_secret") in
  write_gateway (add_intent p) ;;
  ret p.

Definition accounts_retrieve (id : string) : M bool :=
  let* account := gets (fun w => Gateway.charges_enabled (World.gateway w) !! id) in
  match account with
  | Some enabled => ret enabled
  | None => throw (Error ("No such account: " ++ id))
  end.

End stripe.

(** ** StripeService (services/stripe.js) *)
Module StripeService.

(** [getPaymentIntent]: the retrieval's failure is swallowed into
    [null]. *)
Definition getPaymentIntent (paymentIntent : string) : M (option PaymentIntent.t) :=
  let* r := attempt (stripe.paymentIntents_retrieve paymentIntent) in
  match r with
  | Ok p => ret (Some p)
  | Throw _ => ret None
  end.

Definition cancelPaymentIntent (paymentIntent : string) : M PaymentIntent.t :=
  stripe.paymentIntents_cancel paymentIntent.

Definition chargesEnabled (id : string) : M bool :=
  stripe.accounts_retrieve id.

(** [createPaymentIntent({ customer, destination, amount, feeAmount })] *)
Definition createPaymentIntent (amount feeAmount : option Z) : M PaymentIntent.t :=
  stripe.paymentIntents_create amount feeAmount.

(** [refund(piid, refund_application_fee = false)].  The SDK's retrieval
    answers an object or throws, so the check for a missing object never
    fires.  [isEmpty] holds of a missing [charges] field only; a present
    but empty list fails at [charges.data[0].id]. *)
Definition refund (piid : string) (refund_application_fee : bool) : M Refund.t :=
  let* paymentIntent := stripe.paymentIntents_retrieve piid in
  if negb (bool_decide (PaymentIntent.status paymentIntent
                        = StripePaymentStatusType.SUCCESS))
  then throw (Error "paymentIntent is not successful")
  else
    match PaymentIntent.charges paymentIntent with
    | None => throw (Error "paymentIntent doesn't have charges")
    | Some [] =>
        throw (TypeError "Cannot read properties of undefined (reading 'id')")
    | Some (charge :: _) =>
        stripe.refunds_create (Refund.mk charge true refund_application_fee)
    end.

End StripeService.

(** ** The Conversation Service

    Modelled from the spec: models/Conversation is not among the sources.
    The operations are the ones the spec lists for the collaborator
    (join, setRole, removeParticipant, postSystemMessage, freeze,
    createForSplit), under the names the data sources call them by.
    Membership lives in Mongo and follows the session; system messages
    leave through the messaging provider and are not taken back. *)
Module conversations.

Definition findOne (split : ObjectID) : M (option Conversation.t) :=
  gets (fun w =>
    List.find (fun c => bool_decide (Conversation.split c = split))
              (Store.conversations (World.store w))).

Definition checkMember (c : Conversation.t) (user : ObjectID) : bool :=
  existsb (fun p => bool_decide (p.1 = user)) (Conversation.participants c).

Definition update_where (p : Conversation.t -> bool)
    (f : list (ObjectID * Role.t) -> list (ObjectID * Role.t))
    (cs : list Conversation.t) : list Conversation.t :=
  List.map (fun c =>
    if p c then Conversation.with_participants (f (Conversation.participants c)) c
    else c) cs.

Definition has_id (id : ObjectID) (c : Conversation.t) : bool :=
  bool_decide (Conversation._id c = id).

Definition sendSystemMessage (m : SystemMessage.t) : M unit :=
  fun w =>
    (Ok tt, World.mk (World.store w) (World.committed w) (World.gateway w)
                     (World.messages w ++ [m])%list).

(** [join(conversation, user, session, role, { beforeSubscribe })]: the
    hook runs before the user is subscribed. *)
Definition join (conversation user : ObjectID) (role : Role.t)
    (beforeSubscribe : M unit) : M unit :=
  beforeSubscribe ;;
  write (Store.with_conversations
           (update_where (has_id conversation) (fun ps => (ps ++ [(user, role)])%list))).

Definition deleteParticipant (conversation user : ObjectID) : M unit :=
  write (Store.with_conversations
           (update_where (has_id conversation)
              (List.filter (fun p => negb (bool_decide (p.1 = user)))))).

Definition setRole (conversation user : ObjectID) (role : Role.t) : M unit :=
  write (Store.with_conversations
           (update_where (has_id conversation)
              (List.map (fun p => if bool_decide (p.1 = user) then (user, role) else p)))).

(** [makeReadonly({ split })]: everyone in the Split's conversation
    becomes read-only. *)
Definition makeReadonly (split : ObjectID) : M unit :=
  write (Store.with_conversations
           (update_where (fun c => bool_decide (Conversation.split c = split))
              (List.map (fun p => (p.1, Role.readonly))))).

Definition createSplitroom (split : ObjectID) : M Conversation.t :=
  let* id := fresh_id in
  let c := Conversation.mk id split [] in
  write (Store.with_conversations (fun cs => (cs ++ [c])%list)) ;;
  ret c.

End conversations.

(** ** Result envelopes *)

(** [CreateSplitResponse] *)
Module SplitResponse.
Record t := mk {
  code : Z;
  success : bool;
  message : option string;
  split : option Split.t;
}.
End SplitResponse.

(** [CreateOrderResponse]; [paymentIntent] carries the client secret in
    the error state. *)
Module OrderResponse.
Record t := mk {
  code : Z;
  success : bool;
  message : option string;
  order : option Order.t;
  conversation : option Conversation.t;
  paymentIntent : option string;
}.
End OrderResponse.

(** ** SplitDataSource: seats, membership, creation and update *)
Module SplitDataSource.

(** Modelled from the spec: [BaseDataSource.get] is not among the
    sources; it reads one document by id and yields [null] when there is
    none. *)
Definition get (_id : ObjectID) : M (option Split.t) :=
  gets (fun w => Store.splits (World.store w) !! _id).

Definition users_get (_id : ObjectID) : M (option User.t) :=
  gets (fun w => Store.users (World.store w) !! _id).

(** [split.save({ session })] after assigning [status]. *)
Definition save_status (_id : ObjectID) (st : SplitStatus.t) : M unit :=
  write (Store.with_splits (alter (Split.with_status st) _id)).

Definition incrementNumSeats (_id : ObjectID) (numSeats : Z) : M Split.t :=
  write (Store.with_splits (alter (Split.inc_seats numSeats) _id)) ;;
  let* found := get _id in
  match found with
  | None => throw (TypeError "Cannot read properties of null (reading 'status')")
  | Some split =>
      if bool_decide (Split.status split = SplitStatus.ACTIVE)
         && (Split.placesLeft split <=? 0)%Z
      then
        save_status _id SplitStatus.COMPLETE ;;
        conversations.sendSystemMessage
          (SystemMessage.mk (Split.conversation split)
             "Congratulations! All the Seats are taken. Split Creator will process all of your orders soon. Stay tuned for updates."
             SplitRoomMessageTypes.SPLIT_COMPLETED) ;;
        ret (Split.with_status SplitStatus.COMPLETE split)
      else if bool_decide (Split.status split = SplitStatus.COMPLETE)
              && (0 <? Split.placesLeft split)%Z
      then
        save_status _id SplitStatus.ACTIVE ;;
        conversations.sendSystemMessage
          (SystemMessage.mk (Split.conversation split)
             "Oh no! Someone has cancelled his order and now Split is no longer complete"
             SplitRoomMessageTypes.SPLIT_RESET) ;;
        ret (Split.with_status SplitStatus.ACTIVE split)
      else ret split
  end.

(** [join({ split, order, client, role, session })]; of the order only
    [numSeats] is read. *)
Definition join (split : ObjectID) (order_numSeats : Z) (client : User.t)
    (role : Role.t) : M unit :=
  let* conversation := conversations.findOne split in
  match conversation with
  | None => throw (Error "Conversation not found")
  | Some conversation =>
      if conversations.checkMember conversation (User._id client)
      then throw (Error "The Client is already a Conversation Member")
      else
        incrementNumSeats split order_numSeats ;;
        conversations.join (Conversation._id conversation) (User._id client) role
          (conversations.sendSystemMessage
             (SystemMessage.mk (Some (Conversation._id conversation))
                (User.fullname client ++ " reserved "
                   ++ string_of_Z order_numSeats ++ " seats")
                SplitRoomMessageTypes.CLIENT_JOINED))
  end.

(** [exit({ split, order, client, message, session })] *)
Definition exit (split : ObjectID) (order_numSeats : Z) (client : ObjectID)
    (message : string) : M unit :=
  let* splitData := get split in
  match splitData with
  | None => throw (TypeError "Cannot read properties of null (reading 'numSeats')")
  | Some splitData =>
      if bool_decide (Split.numSeats splitData = 0%Z)
      then throw (Error "Split has no seats taken. Who's supposed to exit and why did this happen?")
      else
        let* conversation := conversations.findOne split in
        match conversation with
        | None => throw (Error "Conversation not found")
        | Some conversation =>
            if negb (conversations.checkMember conversation client)
            then throw (Error "The Client is not a Conversation Member")
            else
              incrementNumSeats split (- order_numSeats) ;;
              conversations.deleteParticipant (Conversation._id conversation) client ;;
              conversations.sendSystemMessage
                (SystemMessage.mk (Split.conversation splitData) message
                   SplitRoomMessageTypes.CLIENT_EXITED)
        end
  end.

(** Modelled from the spec: [updateParticipantRole] is called by the
    order data source but defined in none of the sources; the spec has it
    request a membership role change only. *)
Definition updateParticipantRole (split user : ObjectID) (role : Role.t) : M unit :=
  let* conversation := conversations.findOne split in
  match conversation with
  | None => throw (Error "Conversation not found")
  | Some conversation =>
      conversations.setRole (Conversation._id conversation) user role
  end.

(** [create({ split })].  The owner's split counter
    ([updateUserSplitCount]) is kept on the user document and is not part
    of this model.  The opening message goes straight to the messaging
    provider; it is kept in the same list as the system messages. *)
Definition create_body (ctx : Context.t) (split : SplitInput.t) : M (option Split.t) :=
  if (SplitInput.numPlaces split <=? SplitInput.numSeats split)%Z
  then throw (Error "NumSeats can't be bigger than numPlaces")
  else
    let placesLeft :=
      (or0 (SplitInput.numPlaces split) - or0 (SplitInput.numSeats split))%Z in
    let ownerSeats := or0 (SplitInput.numSeats split) in
    let* user := users_get (Context._id ctx) in
    match user with
    | None =>
        throw (TypeError "Cannot read properties of null (reading 'stripeAccountId')")
    | Some user =>
        let* enabled := StripeService.chargesEnabled (User.stripeAccountId user) in
        if negb enabled
        then throw (Error "This user is not eligible for payments yet. Use the onboarding link to enable this functionality")
        else
          withTransaction (
            let* _id := fresh_id in
            write (Store.with_splits (insert _id
              (Split.mk _id (Context._id ctx) (SplitInput.type split)
                 (SplitInput.title split) (SplitInput.description split)
                 (SplitInput.media split) (SplitInput.numPlaces split)
                 (SplitInput.numSeats split) ownerSeats placesLeft
                 (SplitInput.price split) SplitStatus.ACTIVE None
                 (SplitInput.expirationDate split) None))) ;;
            let* conversationData := conversations.createSplitroom _id in
            write (Store.with_splits (alter
              (Split.with_conversation (Some (Conversation._id conversationData)))
              _id)) ;;
            conversations.sendSystemMessage
              (SystemMessage.mk (Some (Conversation._id conversationData))
                 (User.fullname user ++ " created this Split")
                 SplitRoomMessageTypes.SPLIT_CREATED) ;;
            get _id)
    end.

Definition create (ctx : Context.t) (split : SplitInput.t) : M SplitResponse.t :=
  let* r := attempt (create_body ctx split) in
  match r with
  | Ok newSplit => ret (SplitResponse.mk 200 true None newSplit)
  | Throw e => ret (SplitResponse.mk 501 false (Some (message e)) None)
  end.

Section Update.

(** luxon's [toFormat('yyyy LLL dd')]. *)
Variable toFormat : DateTime -> string.

(** The update document: every field of the input, and [placesLeft] when
    the guard let it be recomputed. *)
Definition apply_update (split : SplitInput.t) (placesLeft : option Z)
    (s : Split.t) : Split.t :=
  Split.mk (Split._id s) (Split.user s) (SplitInput.type split)
    (SplitInput.title split) (SplitInput.description split)
    (SplitInput.media split) (SplitInput.numPlaces split)
    (SplitInput.numSeats split) (Split.ownerSeats s)
    (default (Split.placesLeft s) placesLeft)
    (SplitInput.price split) (Split.status s) (Split.cancelReason s)
    (match SplitInput.expirationDate split with
     | Some d => Some d
     | None => Split.expirationDate s
     end)
    (Split.conversation s).

(** [if (split.numPlaces || split.numSeats)
       split.placesLeft = (split.numPlaces || 0) - (split.numSeats || 0)] *)
Definition update_placesLeft (split : SplitInput.t) : option Z :=
  if negb (bool_decide (SplitInput.numPlaces split = 0%Z))
     || negb (bool_decide (SplitInput.numSeats split = 0%Z))
  then Some (or0 (SplitInput.numPlaces split) - or0 (SplitInput.numSeats split))%Z
  else None.

Definition update_body (ctx : Context.t) (_id : ObjectID) (split : SplitInput.t)
    : M (option Split.t) :=
  let* splitData := get _id in
  match splitData with
  | None => throw (Error "Split not found")
  | Some splitData =>
      if negb (bool_decide (Context._id ctx = Split.user splitData))
         && negb (bool_decide (Context.role ctx = UserRole.ADMIN))
      then throw (Error "Forbidden. Only Split's owner or admin can update splits")
      else
        write_nosession (Store.with_splits
          (alter (apply_update split (update_placesLeft split)) _id)) ;;
        let* updatedSplit := get _id in
        match SplitInput.expirationDate split with
        | Some d =>
            conversations.sendSystemMessage
              (SystemMessage.mk (Split.conversation splitData)
                 ("Split expiration date was changed to " ++ toFormat d)
                 SplitRoomMessageTypes.SPLIT_EXTENDED) ;;
            ret updatedSplit
        | None => ret updatedSplit
        end
  end.

Definition update (ctx : Context.t) (_id : ObjectID) (split : SplitInput.t)
    : M SplitResponse.t :=
  let* r := attempt (update_body ctx _id split) in
  match r with
  | Ok updatedSplit => ret (SplitResponse.mk 200 true None updatedSplit)
  | Throw e => ret (SplitResponse.mk 501 false (Some (message e)) None)
  end.

End Update.

(** [updateNumSeats({ _id, numSeats }, session)] *)
Definition updateNumSeats (_id : ObjectID) (numSeats : Z) : M unit :=
  write (Store.with_splits (alter (Split.with_numSeats numSeats) _id)).

(** [deleteAll(unauthenticated)]; the role is compared with the literal
    ['admin']. *)
Definition deleteAll (ctx : Context.t) (unauthenticated : bool) : M bool :=
  if bool_decide (Context.role ctx = UserRole.ADMIN) && negb unauthenticated
  then
    write_nosession (Store.with_splits (fun _ => ∅)) ;;
    ret true
  else throw (Error "You don' have role to this operator").

Section Notifications.

(** luxon's [plus({ days: n })]. *)
Variable plus_days : Z -> DateTime -> DateTime.

(** The filter of both notice queries: an expiration date in
    [(after, upto]] and a status outside CANCELLED, COMPLETE, EXPIRED. *)
Definition notice_due (after upto : DateTime) (s : Split.t) : bool :=
  match Split.expirationDate s with
  | Some d => (after <? d)%Z && (d <=? upto)%Z
  | None => false
  end
  && negb (array_includes
             [SplitStatus.CANCELLED; SplitStatus.COMPLETE; SplitStatus.EXPIRED]
             (Split.status s)).

Definition find_due (after upto : DateTime) : M (list Split.t) :=
  gets (fun w =>
    List.filter (notice_due after upto)
      (List.map snd (map_to_list (Store.splits (World.store w))))).

Definition expiration_notice (text : string) (split : Split.t) : M unit :=
  conversations.sendSystemMessage
    (SystemMessage.mk (Split.conversation split) text
       SplitRoomMessageTypes.EXPIRATION_NOTICE).

(** The calls made by [list.map(split => sendSystemMessage(...))]: each
    is started, none is waited for. *)
Fixpoint start_all (cs : list (M unit)) : M unit :=
  match cs with
  | [] => ret tt
  | c :: rest => attempt c ;; start_all rest
  end.

(** [expireNotifications(dry = false)], at the time [now]. *)
Definition expireNotifications (now : DateTime) (dry : bool) : M unit :=
  let* r := attempt (
    let dt4days := plus_days 4 now in
    let dt5days := plus_days 5 now in
    let dt1days := plus_days 1 now in
    let* splits5days := find_due dt4days dt5days in
    let* splits1days := find_due dt1days now in
    if dry then ret tt
    else
      start_all (List.map
        (expiration_notice "This Split will exjoinepire in 5 days if not filled")
        splits5days) ;;
      start_all (List.map
        (expiration_notice "This Split will expire tomorrow in UTC time if not filled")
        splits1days)) in
  ret tt.

End Notifications.

End SplitDataSource.

(** ** JavaScript numbers in the amount computation

    Prices and amounts are IEEE 754 doubles, here the kernel's binary64
    floats.  Seat counts are GraphQL [Int]s, well inside the range (below
    [2^53] in absolute value) where the conversion below is exact; it is
    used on such integers only. *)

Definition float_of_Z (z : Z) : float :=
  if (z <? 0)%Z
  then PrimFloat.opp (PrimFloat.of_uint63 (Uint63.of_Z (- z)))
  else PrimFloat.of_uint63 (Uint63.of_Z z).

Definition hundred : float := float_of_Z 100.

(** The integer nearest to [m * 2^e * 100], a tie going to the larger
    one: the [n] of [Number.prototype.toFixed]. *)
Definition scaled_round (m : positive) (e : Z) : Z :=
  if (0 <=? e)%Z then (Z.pos m * 100 * 2 ^ e)%Z
  else ((2 * (Z.pos m * 100) + 2 ^ (- e)) / 2 ^ (- e + 1))%Z.

(** [parseFloat(x.toFixed(2))].  The digits [n / 100] are read back as
    the nearest double, which the correctly rounded division computes
    while [n] is below [2^53]; from there on doubles are more than a cent
    apart and the nearest one is [x] itself, as it is when [toFixed]
    falls back to [String(x)]. *)
Definition toFixed2 (x : float) : float :=
  match Prim2SF x with
  | S754_finite s m e =>
      let n := scaled_round m e in
      if (n <? 2 ^ 53)%Z
      then
        let r := PrimFloat.div (float_of_Z n) hundred in
        if s then PrimFloat.opp r else r
      else x
  | S754_zero _ => PrimFloat.zero
  | _ => x
  end.

(** *** The first digit of [String(x)] in exponent notation

    [Number::toString] writes the digits of the shortest decimal that
    rounds to the double, the closest one when several of that length
    do.  From [1e21] on and below [1e-6] the string is in exponent
    notation, [d.ddde+n], and [parseInt] reads its first digit. *)

Section Shortest.

(** The positive double [m * 2^e], in the form of [Prim2SF]. *)
Variable m : positive.
Variable e : Z.

(** [s * 10^p] against [v * 2^(e-2)], both sides brought to integers. *)
Definition against (s p v : Z) : comparison :=
  (s * 10 ^ Z.max p 0 * 2 ^ Z.max (2 - e) 0
   ?= v * 2 ^ Z.max (e - 2) 0 * 10 ^ Z.max (- p) 0)%Z.

(** The least [n] from [n] on with [m * 2^e < 10^n]. *)
Fixpoint magnitude (fuel : nat) (n : Z) : Z :=
  match fuel with
  | O => n
  | S fuel =>
      match against 1 n (4 * Z.pos m) with
      | Gt => n
      | _ => magnitude fuel (n + 1)
      end
  end.

(** A lower bound of the decimal logarithm, from the binary one
    ([0.30102 < log10 2]). *)
Definition log10_below : Z :=
  ((Z.pos (digits2_pos m) + e - 1) * 30102 / 100000 - 1)%Z.

(** The reals that round to the double lie between the midpoints to its
    neighbours, the midpoints included when the mantissa is even.  The
    lower neighbour is half as far at the bottom of a binade. *)
Definition below : Z :=
  if (Z.pos m =? 2 ^ 52)%Z && (-1074 <? e)%Z
  then (4 * Z.pos m - 1)%Z else (4 * Z.pos m - 2)%Z.

Definition above : Z := (4 * Z.pos m + 2)%Z.

Definition round_trips (s p : Z) : bool :=
  match against s p below, against s p above with
  | Gt, Lt => true
  | Eq, _ | _, Eq => Z.even (Z.pos m)
  | _, _ => false
  end.

(** The first digit of [s], a number of [k] digits or [10^k]. *)
Definition first_digit (s k : Z) : Z :=
  if (s =? 10 ^ k)%Z then 1%Z else (s / 10 ^ (k - 1))%Z.

(** The first digit of the shortest decimal [s * 10^(n-k)] that rounds to
    the double, the closest one when several of that length do, as
    [Number::toString] chooses its digits. *)
Fixpoint leading (fuel : nat) (n k : Z) : Z :=
  match fuel with
  | O => 0%Z
  | S fuel =>
      let p := (n - k)%Z in
      let s := ((Z.pos m * 2 ^ Z.max e 0 * 10 ^ Z.max (- p) 0)
                / (2 ^ Z.max (- e) 0 * 10 ^ Z.max p 0))%Z in
      match round_trips s p, round_trips (s + 1) p with
      | true, true =>
          match against (2 * s + 1) p (8 * Z.pos m) with
          | Gt => first_digit s k
          | Lt => first_digit (s + 1) k
          | Eq => first_digit (if Z.even s then s else s + 1)%Z k
          end
      | true, false => first_digit s k
      | false, true => first_digit (s + 1) k
      | false, false => leading fuel n (k + 1)%Z
      end
  end.

Definition leading_digit : Z := leading 17 (magnitude 6 log10_below) 1.

End Shortest.

(** [parseInt(x)] on a number: the digits before the point of
    [String(x)], which are the whole part of [x] in plain notation and
    the first digit in exponent notation.  [None] is [NaN], the result
    for a [NaN] or an infinite [x]. *)
Definition parseInt (x : float) : option Z :=
  match Prim2SF x with
  | S754_finite s m e =>
      let t :=
        if PrimFloat.leb 1e21%float (PrimFloat.abs x)
           || PrimFloat.ltb (PrimFloat.abs x)
                (PrimFloat.div (float_of_Z 1) (float_of_Z (10 ^ 6)))
        then leading_digit m e
        else if (0 <=? e)%Z then (Z.pos m * 2 ^ e)%Z
        else (Z.pos m / 2 ^ (- e))%Z in
      Some (if s then (- t)%Z else t)
  | S754_zero _ => Some 0%Z
  | _ => None
  end.

(** ** OrderDataSource *)

Inductive Session := MongoSession.

(** What [calcAmount] returns. *)
Module Amounts.
Record t := mk {
  amount : option Z;
  feeAmount : option Z;
}.
End Amounts.

(** The data object of a provider event: [{ id, status }]. *)
Module Event.
Record t := mk {
  type : string;
  id : string;
  status : string;
}.
End Event.

(** [OrderPaymentIntentResponse], without the payment sheet. *)
Module OrderPaymentIntentResponse.
Record t := mk {
  paymentIntentId : string;
  amount : option Z;
  feeAmount : option Z;
}.
End OrderPaymentIntentResponse.

(** The envelope of the two order cancellations, which carries the
    refund. *)
Module CancelOrderResponse.
Record t := mk {
  code : Z;
  success : bool;
  message : option string;
  order : option Order.t;
  refund : option Refund.t;
}.
End CancelOrderResponse.

Module OrderDataSource.

Definition exitableStatuses : list string := [StripePaymentStatusType.CANCELED].

Definition promotableStatuses : list string := [StripePaymentStatusType.SUCCESS].

Definition demotableStatuses : list (option string) :=
  [StripePaymentStatusType.PAYMENT_FAILED].

Definition eventStatusMap : list (string * OrderStatusType.t) :=
  [ (StripePaymentStatusType.CANCELED, OrderStatusType.SYSTEM_CANCELED);
    (StripePaymentStatusType.FAILED, OrderStatusType.PAYMENT_FAILED);
    (StripePaymentStatusType.SUCCESS, OrderStatusType.PAID) ].

(** [Object.keys(eventStatusMap).includes(s) ? eventStatusMap[s] : undefined] *)
Definition eventStatus (status : string) : option OrderStatusType.t :=
  snd <$> List.find (fun kv => bool_decide (kv.1 = status)) eventStatusMap.

(** The [$nin] filter shared by the duplicate check and the cancel
    paths. *)
Definition cancelled (st : OrderStatusType.t) : bool :=
  array_includes
    [OrderStatusType.SYSTEM_CANCELED; OrderStatusType.OWNER_CANCELED;
     OrderStatusType.CLIENT_CANCELED] st.

Definition set_status_where (p : Order.t -> bool) (st : OrderStatusType.t)
    (os : list Order.t) : list Order.t :=
  List.map (fun o => if p o then Order.with_status st o else o) os.

Definition of_split (split : ObjectID) (o : Order.t) : bool :=
  bool_decide (Order.split o = split).

(** *** bulkCancel *)

(** The function mapped over the orders: refund with the fee reversed,
    and let only the already-reversed answer pass. *)
Definition refund_order (order : Order.t) : M unit :=
  let* r := attempt (StripeService.refund (Order.paymentIntent order) true) in
  match r with
  | Ok _ => ret tt
  | Throw e =>
      if negb (includes (message e) "already fully reversed")
      then throw e
      else ret tt
  end.

(** [Promise.all]: every promise has been started and runs to its end;
    the first rejection is the one that is thrown. *)
Fixpoint promise_all (cs : list (M unit)) : M unit :=
  match cs with
  | [] => ret tt
  | c :: rest =>
      let* r := attempt c in
      let* rs := attempt (promise_all rest) in
      match r, rs with
      | Throw e, _ => throw e
      | Ok _, Throw e => throw e
      | Ok _, Ok _ => ret tt
      end
  end.

(** [this.batch.load({ split })]: the orders of one Split. *)
Definition batch_load (split : ObjectID) : M (list Order.t) :=
  gets (fun w => List.filter (of_split split) (Store.orders (World.store w))).

(** [bulkCancel({ split, status = SYSTEM_CANCELED }, extSession)].  The
    closing [updateMany] is issued without the session. *)
Definition bulkCancel (split : ObjectID) (status : option OrderStatusType.t)
    (extSession : option Session) : M unit :=
  match extSession with
  | None => throw (Error "session is required to do bulkCancel")
  | Some _ =>
      let* ordersData := batch_load split in
      promise_all (List.map refund_order ordersData) ;;
      write_nosession (Store.with_orders
        (set_status_where (of_split split)
           (default OrderStatusType.SYSTEM_CANCELED status)))
  end.

Section WithFee.

(** [SYSTEM_FEE] of the configuration module, which is not among the
    sources. *)
Variable SYSTEM_FEE : float.

Definition calcAmount (split : Split.t) (numSeats : Z) : Amounts.t :=
  let perSplitPrice :=
    PrimFloat.div (Split.price split) (float_of_Z (Split.numPlaces split)) in
  let amount := toFixed2 (PrimFloat.mul perSplitPrice (float_of_Z numSeats)) in
  let feeAmount := toFixed2 (PrimFloat.mul amount SYSTEM_FEE) in
  Amounts.mk (parseInt (PrimFloat.mul (PrimFloat.add amount feeAmount) hundred))
             (parseInt (PrimFloat.mul feeAmount hundred)).

(** *** create *)

Definition existing (ctx : Context.t) (order : OrderInput.t) (o : Order.t) : bool :=
  bool_decide (Order.paymentIntent o = OrderInput.paymentIntent order)
  || (bool_decide (Order.split o = OrderInput.split order)
      && bool_decide (Order.client o = Context._id ctx)
      && negb (cancelled (Order.status o))).

(** The part of the [try] block that runs while [paymentIntent] is still
    unassigned. *)
Definition create_guard (ctx : Context.t) (order : OrderInput.t) : M unit :=
  let* existingOrder :=
    gets (fun w => List.find (existing ctx order) (Store.orders (World.store w))) in
  match existingOrder with
  | Some _ =>
      throw (Error "This User already ordered this Split or paymentIntent already used")
  | None => ret tt
  end.

Definition new_order (ctx : Context.t) (order : OrderInput.t)
    (paymentIntent : PaymentIntent.t) (split : Split.t) (client owner : User.t)
    (_id : ObjectID) : Order.t :=
  let amounts := calcAmount split (OrderInput.numSeats order) in
  Order.mk _id (User._id client) (User._id owner) (OrderInput.split order)
    (default OrderStatusType.PAYMENT_PENDING
       (eventStatus (PaymentIntent.status paymentIntent)))
    (OrderInput.numSeats order) (OrderInput.shippingAddress order)
    (OrderInput.paymentIntent order)
    (default "pending" (or_null (PaymentIntent.payment_method paymentIntent)))
    (OrderMetaData.mk (User.fullname client) (User.fullname owner)
       (Split.title split) (Split.description split)
       (head (Split.media split))
       (Amounts.amount amounts) (Amounts.feeAmount amounts)).

(** The rest of the [try] block, [paymentIntent] holding what the
    service returned ([None] is [null]). *)
Definition create_rest (ctx : Context.t) (order : OrderInput.t)
    (paymentIntent : option PaymentIntent.t) : M OrderResponse.t :=
  match paymentIntent with
  | None => throw (Error "Can't find a paymentIntent with specified ID")
  | Some paymentIntent =>
      let* split := SplitDataSource.get (OrderInput.split order) in
      match split with
      | None => throw (Error "Can't find a Split with specified ID")
      | Some split =>
          if (Split.placesLeft split <? OrderInput.numSeats order)%Z
          then throw (Error "Can't order this many seats")
          else
            let* client := SplitDataSource.users_get (Context._id ctx) in
            let* owner := SplitDataSource.users_get (Split.user split) in
            match client, owner with
            | None, _ =>
                throw (Error "How is it even possible to Order without authentication?")
            | Some _, None =>
                throw (Error "Split owner not found, the Split must be invalid or a test one")
            | Some client, Some owner =>
                let* newOrder :=
                  withTransaction (
                    let* _id := fresh_id in
                    let doc := new_order ctx order paymentIntent split client owner _id in
                    write (Store.with_orders (fun os => (os ++ [doc])%list)) ;;
                    let role :=
                      if array_includes promotableStatuses
                           (PaymentIntent.status paymentIntent)
                      then Role.full else Role.readonly in
                    SplitDataSource.join (OrderInput.split order)
                      (OrderInput.numSeats order) client role ;;
                    ret doc) in
                let* conversation := conversations.findOne (OrderInput.split order) in
                ret (OrderResponse.mk 200 true None (Some newOrder) conversation None)
            end
      end
  end.

(** The [catch] clause.  [paymentIntent] is [None] while the variable is
    still [undefined], [Some None] once it holds [null]. *)
Definition create_catch (paymentIntent : option (option PaymentIntent.t))
    (e : exn) : M OrderResponse.t :=
  match paymentIntent with
  | None =>
      throw (TypeError "Cannot read properties of undefined (reading 'status')")
  | Some None =>
      throw (TypeError "Cannot read properties of null (reading 'status')")
  | Some (Some paymentIntent) =>
      (if bool_decide (PaymentIntent.status paymentIntent
                       = StripePaymentStatusType.SUCCESS)
       then StripeService.refund (PaymentIntent.id paymentIntent) true ;; ret tt
       else StripeService.cancelPaymentIntent (PaymentIntent.id paymentIntent) ;; ret tt) ;;
      ret (OrderResponse.mk 501 false (Some (message e)) None None
             (Some (PaymentIntent.client_secret paymentIntent)))
  end.

Definition create (ctx : Context.t) (order : OrderInput.t) : M OrderResponse.t :=
  let* guard := attempt (create_guard ctx order) in
  match guard with
  | Throw e => create_catch None e
  | Ok _ =>
      let* paymentIntent :=
        StripeService.getPaymentIntent (OrderInput.paymentIntent order) in
      let* r := attempt (create_rest ctx order paymentIntent) in
      match r with
      | Ok response => ret response
      | Throw e => create_catch (Some paymentIntent) e
      end
  end.

(** *** getPaymentIntent *)

Definition getPaymentIntent (split : ObjectID) (numSeats : Z)
    : M OrderPaymentIntentResponse.t :=
  let* r := attempt (
    if bool_decide (numSeats = 0%Z) || (numSeats <=? 0)%Z
    then throw (Error "Invalid input for `numSeats`, must be a positive non-zero number")
    else
      let* splitData := SplitDataSource.get split in
      match splitData with
      | None => throw (Error "Split not found")
      | Some splitData =>
          if (Split.placesLeft splitData <? numSeats)%Z
          then throw (Error "Can't order this many seats")
          else
            let* splitOwner := SplitDataSource.users_get (Split.user splitData) in
            match splitOwner with
            | None =>
                throw (TypeError "Cannot read properties of null (reading 'stripeAccountId')")
            | Some splitOwner =>
                if bool_decide (User.stripeAccountId splitOwner = "")
                then throw (Error "Stripe account is not set up or charges are disabled")
                else
                  let amounts := calcAmount splitData numSeats in
                  let* paymentIntent :=
                    StripeService.createPaymentIntent
                      (Amounts.amount amounts) (Amounts.feeAmount amounts) in
                  ret (OrderPaymentIntentResponse.mk
                         (PaymentIntent.id paymentIntent)
                         (Amounts.amount amounts) (Amounts.feeAmount amounts))
            end
      end) in
  match r with
  | Ok response => ret response
  | Throw e => throw (Error (message e))
  end.

End WithFee.

(** *** Provider events *)

(** [order.save({ session })] *)
Definition save (order : Order.t) : M unit :=
  write (Store.with_orders
    (set_status_where (fun o => bool_decide (Order._id o = Order._id order))
       (Order.status order))).

Definition when (b : bool) (c : M unit) : M unit := if b then c else ret tt.

Definition updateOrderStatus (event : Event.t) (order : Order.t) : M Order.t :=
  let* r := attempt (withTransaction (
    let order :=
      match eventStatus (Event.status event) with
      | Some st => Order.with_status st order
      | None => order
      end in
    when (array_includes exitableStatuses (Event.status event))
      (SplitDataSource.exit (Order.split order) (Order.numSeats order)
         (Order.client order)
         (OrderMetaData.clientName (Order.metadata order) ++ "'s order was cancelled")) ;;
    when (array_includes promotableStatuses (Event.status event))
      (SplitDataSource.updateParticipantRole (Order.split order)
         (Order.client order) Role.full) ;;
    when (array_includes demotableStatuses (Some (Event.status event)))
      (SplitDataSource.updateParticipantRole (Order.split order)
         (Order.client order) Role.readonly) ;;
    save order ;;
    ret order)) in
  match r with
  | Ok order => ret order
  | Throw e => throw (Error (message e))
  end.

Definition updateOrderStatusByWebhook (event : Event.t) : M unit :=
  let* order :=
    gets (fun w =>
      List.find (fun o => bool_decide (Order.paymentIntent o = Event.id event))
                (Store.orders (World.store w))) in
  match order with
  | None => throw (Error "No order exists for the paymentIntent provided")
  | Some order => updateOrderStatus event order ;; ret tt
  end.

(** [updateStatusFromWebhook(signature, body)], from the verified event
    on ([None]: the signature check threw).  The method returns
    [undefined] when it gets through and [false] when anything threw. *)
Definition updateStatusFromWebhook (event : option Event.t) : M (option bool) :=
  let* r := attempt (
    match event with
    | None => throw (Error "No signatures found matching the expected signature for payload")
    | Some event =>
        when (array_includes
                ["payment_intent.succeeded"; "payment_intent.payment_failed";
                 "payment_intent.canceled"; "payment_intent.processing"]
                (Event.type event))
          (updateOrderStatusByWebhook event)
    end) in
  match r with
  | Ok _ => ret None
  | Throw _ => ret (Some false)
  end.

(** *** Reads and the address update *)

(** [getOrder({ _id })] *)
Definition getOrder (ctx : Context.t) (_id : ObjectID) : M (option Order.t) :=
  gets (fun w =>
    List.find (fun o => bool_decide (Order._id o = _id)
                        && bool_decide (Order.client o = Context._id ctx))
              (Store.orders (World.store w))).

(** [hasReserved(userId, splitId)] *)
Definition hasReserved (userId splitId : ObjectID) : M (option Order.t) :=
  gets (fun w =>
    List.find (fun o => bool_decide (Order.client o = userId)
                        && bool_decide (Order.split o = splitId)
                        && bool_decide (Order.status o = OrderStatusType.PAID))
              (Store.orders (World.store w))).

(** [findOneAndUpdate(filter, update, { new: true })]: the first match is
    rewritten and returned. *)
Fixpoint update_first (p : Order.t -> bool) (f : Order.t -> Order.t)
    (os : list Order.t) : list Order.t :=
  match os with
  | [] => []
  | o :: rest => if p o then f o :: rest else o :: update_first p f rest
  end.

(** [update({ _id, order })] with an [UpdateOrderInput], whose only field
    is the optional [shippingAddress].  The envelope of the success case
    carries the rewritten order, or [null] when the filter matched
    none. *)
Definition update (ctx : Context.t) (_id : ObjectID)
    (shippingAddress : option ObjectID) : M OrderResponse.t :=
  let mine o := bool_decide (Order._id o = _id)
                && bool_decide (Order.client o = Context._id ctx) in
  let change o :=
    match shippingAddress with
    | Some a => Order.with_shippingAddress a o
    | None => o
    end in
  write_nosession (Store.with_orders (update_first mine change)) ;;
  let* newOrder :=
    gets (fun w => List.find mine (Store.orders (World.store w))) in
  ret (OrderResponse.mk 200 true None newOrder None None).

(** *** Cancelling one order *)

Definition save_order_status (order : Order.t) : M unit :=
  write (Store.with_orders
    (set_status_where (fun o => bool_decide (Order._id o = Order._id order))
       (Order.status order))).

(** The [$nin] search for the live order of a client on a Split. *)
Definition live_order (split client : ObjectID) : M (option Order.t) :=
  gets (fun w =>
    List.find (fun o => bool_decide (Order.split o = split)
                        && bool_decide (Order.client o = client)
                        && negb (cancelled (Order.status o)))
              (Store.orders (World.store w))).

Definition cancel_envelope (r : Result (Order.t * Refund.t))
    : M CancelOrderResponse.t :=
  match r with
  | Ok (order, refund) =>
      ret (CancelOrderResponse.mk 200 true None (Some order) (Some refund))
  | Throw e =>
      ret (CancelOrderResponse.mk 501 false (Some (message e)) None None)
  end.

(** [cancelOwner({ split, client })] *)
Definition cancelOwner (ctx : Context.t) (split client : ObjectID)
    : M CancelOrderResponse.t :=
  let* r := attempt (
    let* order := live_order split client in
    match order with
    | None => throw (Error "Can't find Order with provided id")
    | Some order =>
        if negb (bool_decide (Order.owner order = Context._id ctx))
        then throw (Error "Only the Split Owner can cancel Order as Owner")
        else if negb (bool_decide (Order.status order = OrderStatusType.PAID))
        then throw (Error "Can't cancel Order at this stage")
        else
          withTransaction (
            SplitDataSource.exit split (Order.numSeats order) client
              (OrderMetaData.ownerName (Order.metadata order)
               ++ " has cancelled "
               ++ OrderMetaData.clientName (Order.metadata order)
               ++ "'s order") ;;
            let* refund := StripeService.refund (Order.paymentIntent order) true in
            let order := Order.with_status OrderStatusType.OWNER_CANCELED order in
            save_order_status order ;;
            ret (order, refund))
    end) in
  cancel_envelope r.

(** [cancelClient({ split })] *)
Definition cancelClient (ctx : Context.t) (split : ObjectID)
    : M CancelOrderResponse.t :=
  let* r := attempt (
    let* order := live_order split (Context._id ctx) in
    match order with
    | None => throw (Error "Can't find your Order for this Split")
    | Some order =>
        if negb (bool_decide (Order.status order = OrderStatusType.PAID))
        then throw (Error ("Can't cancel Order at this stage: "
                           ++ OrderStatusType.value (Order.status order)))
        else
          withTransaction (
            let order := Order.with_status OrderStatusType.CLIENT_CANCELED order in
            save_order_status order ;;
            SplitDataSource.exit split (Order.numSeats order) (Order.client order)
              (OrderMetaData.clientName (Order.metadata order)
               ++ " has cancelled his or her order'") ;;
            let* refund := StripeService.refund (Order.paymentIntent order) false in
            ret (order, refund))
    end) in
  cancel_envelope r.

End OrderDataSource.

(** ** The webhook route (services/webhook.js) *)
Module webhook.

(** [router.post('/stripe', ...)]: the status code and the [success]
    field of the answer.  [!ret] holds of [undefined] and of [false]. *)
Definition stripe (event : option Event.t) : M (Z * bool) :=
  let* ret_ := OrderDataSource.updateStatusFromWebhook event in
  match ret_ with
  | None | Some false => ret (500%Z, false)
  | Some true => ret (200%Z, true)
  end.

End webhook.

(** ** SplitDataSource: cancellation and the expiration sweep

    The methods of SplitDataSource that call into the order data
    source. *)
Module SplitCancellation.

Definition quote : string := String (Ascii.ascii_of_nat 34) EmptyString.

Definition splitCancelMessage (status : SplitStatus.t) (reason : option string)
    : string :=
  match status with
  | SplitStatus.EXPIRED =>
      "Oh no! The Split's time has ended and you don't have all the seats filled. All funds will be refunded within 7 days. Good luck in next Splits!"
  | SplitStatus.CANCELLED =>
      "Something went wrong! The Split's Creator cancelled this split"
      ++ match or_null reason with
         | Some reason =>
             ", stating the reason: " ++ quote ++ reason ++ quote
             ++ ". We hope this is a good reason."
         | None => ". We hope there's a good reason."
         end
      ++ " All funds will be refunded within 7 days. Good luck in next Splits!"
  | _ =>
      "Something went wrong! This Split is now cancelled. All funds will be refunded within 7 days. Good luck in next Splits!"
  end.

(** [split.status = status; split.cancelReason = reason || null] *)
Definition freeze (status : SplitStatus.t) (reason : option string)
    (s : Split.t) : Split.t :=
  Split.with_cancelReason (or_null reason) (Split.with_status status s).

(** [cancel({ _id, reason, status = SplitStatus.CANCELLED })] *)
Definition cancel (_id : ObjectID) (reason : option string)
    (status : option SplitStatus.t) : M Split.t :=
  let status := default SplitStatus.CANCELLED status in
  let* split := SplitDataSource.get _id in
  withTransaction (
    OrderDataSource.bulkCancel _id (Some OrderStatusType.OWNER_CANCELED)
      (Some MongoSession) ;;
    match split with
    | None => throw (TypeError "Cannot set properties of null (setting 'status')")
    | Some split =>
        write (Store.with_splits (alter (freeze status reason) _id)) ;;
        conversations.makeReadonly _id ;;
        conversations.sendSystemMessage
          (SystemMessage.mk (Split.conversation split)
             (splitCancelMessage status reason)
             SplitRoomMessageTypes.SPLIT_CANCELLED) ;;
        ret (freeze status reason split)
    end).

Definition terminal (st : SplitStatus.t) : bool :=
  array_includes
    [SplitStatus.COMPLETE; SplitStatus.EXPIRED; SplitStatus.CANCELLED] st.

Definition cancelAction_body (ctx : Context.t) (_id : ObjectID)
    (reason : option string) : M Split.t :=
  let* splitData := SplitDataSource.get _id in
  match splitData with
  | None => throw (TypeError "Cannot read properties of null (reading 'status')")
  | Some splitData =>
      if terminal (Split.status splitData)
      then throw (Error "Split is already completed, cancelled or expired")
      else if negb (bool_decide (Split.user splitData = Context._id ctx))
              && negb (bool_decide (Context.role ctx = UserRole.ADMIN))
      then throw (Error "Only Split Owner can cancel a Split")
      else cancel _id reason None
  end.

Definition cancelAction (ctx : Context.t) (_id : ObjectID)
    (reason : option string) : M SplitResponse.t :=
  let* r := attempt (cancelAction_body ctx _id reason) in
  match r with
  | Ok split => ret (SplitResponse.mk 200 true None (Some split))
  | Throw e => ret (SplitResponse.mk 501 false (Some (message e)) None)
  end.

(** [{ expirationDate: { $lte: now } }] *)
Definition expired (now : DateTime) (s : Split.t) : bool :=
  match Split.expirationDate s with
  | Some d => (d <=? now)%Z
  | None => false
  end.

(** What [this.model.find(filter, projection)] is while nobody awaits
    it: a Mongoose [Query] that holds the filter.  It is no array, and
    it is executed only when it is awaited. *)
Inductive Query := Model_find (filter : Split.t -> bool).

(** [Query.prototype.map] is a method of Mongoose 5 that later versions
    do not have. *)
Inductive Mongoose := mongoose_5 | mongoose_6.

(** [query.map(callback)].  In Mongoose 5 the callback is kept as a
    transform of the result, to run when the Query is executed, and the
    Query is returned; later versions throw, the property being
    [undefined]. *)
Definition Query_map (version : Mongoose) (query : Query)
    (callback : Split.t -> M Split.t) : M Query :=
  match version with
  | mongoose_5 => ret query
  | mongoose_6 => throw (TypeError "toExpire.map is not a function")
  end.

(** [Promise.allSettled(query)]: a Query is not iterable, so the promise
    is rejected. *)
Definition allSettled (query : Query) : M (list (Result Split.t)) :=
  throw (TypeError "object is not iterable (cannot read property Symbol(Symbol.iterator))").

Definition rejected {A} (r : Result A) : bool :=
  match r with Ok _ => false | Throw _ => true end.

(** [expire(dry = false)], at the time [now].  The query is built and
    not awaited.  The closing pass over the results only writes to the
    console; it reads [r.value.success], which throws on a rejected
    result.  The outer [catch] writes the error to the console. *)
Definition expire (version : Mongoose) (now : DateTime) (dry : bool) : M unit :=
  let* r := attempt (
    let toExpire := Model_find (expired now) in
    if dry then ret tt
    else
      let* promises :=
        Query_map version toExpire (fun split =>
          cancel (Split._id split) None (Some SplitStatus.EXPIRED)) in
      let* results := allSettled promises in
      if existsb rejected results
      then throw (TypeError "Cannot read properties of undefined (reading 'success')")
      else ret tt) in
  ret tt.

End SplitCancellation.

(** * Vocabulary of the properties *)

(** ** Sample documents *)
Module Sample.

Definition owner : User.t := User.mk 10 "Olive Owner" UserRole.USER "acct_10".
Definition client : User.t := User.mk 20 "Clem Client" UserRole.USER "".
Definition stranger : User.t := User.mk 30 "Sam Stranger" UserRole.USER "".

(** A Split of four places, one of them taken by its owner, priced 100. *)
Definition split : Split.t :=
  Split.mk 1 10 SplitType.APP "Coffee beans" "A bulk order" []
    4 1 1 3 (float_of_Z 100) SplitStatus.ACTIVE None (Some 50%Z) (Some 100).

Definition room : Conversation.t :=
  Conversation.mk 100 1 [(10, Role.full)].

Definition users : gmap ObjectID User.t :=
  {[ 10 := owner; 20 := client; 30 := stranger ]}.

Definition no_gateway : Gateway.t := Gateway.mk ∅ [] ∅ ∅ {[ "acct_10" := true ]}.

Definition store : Store.t := Store.mk {[ 1 := split ]} [] [room] users 1000.

Definition world : World.t := World.mk store None no_gateway [].

Definition toFormat (d : DateTime) : string := string_of_Z d.



(** A fee of ten percent. *)
Definition fee : float := PrimFloat.div (float_of_Z 1) (float_of_Z 10).

(** The client's settled authorization for one seat, and the order made
    from it. *)
Definition paid_intent : PaymentIntent.t :=
  PaymentIntent.mk "pi_1" "succeeded" (Some 2750%Z) (Some 250%Z)
    (Some ["ch_1"]) (Some "pm_1") "pi_1_secret".

Definition paid_order : Order.t :=
  Order.mk 500 20 10 1 OrderStatusType.PAID 1 7 "pi_1" "pm_1"
    (OrderMetaData.mk "Clem Client" "Olive Owner" "Coffee beans" "A bulk order"
       None (Some 2750%Z) (Some 250%Z)).

(** The stranger's authorization, not yet settled. *)
Definition open_intent : PaymentIntent.t :=
  PaymentIntent.mk "pi_2" "requires_payment_method" (Some 2750%Z) (Some 250%Z)
    None None "pi_2_secret".

Definition gateway : Gateway.t :=
  Gateway.mk {[ "pi_1" := paid_intent; "pi_2" := open_intent ]} [] ∅ ∅
    {[ "acct_10" := true ]}.

(** The sample world once the client has joined with one seat. *)
Definition joined_split : Split.t :=
  Split.mk 1 10 SplitType.APP "Coffee beans" "A bulk order" []
    4 2 1 2 (float_of_Z 100) SplitStatus.ACTIVE None (Some 50%Z) (Some 100).

Definition joined_room : Conversation.t :=
  Conversation.mk 100 1 [(10, Role.full); (20, Role.full)].

Definition joined_store : Store.t :=
  Store.mk {[ 1 := joined_split ]} [paid_order] [joined_room] users 1000.

Definition joined_world : World.t := World.mk joined_store None gateway [].

(** The stranger has been on the Split and has left it: the order is
    CLIENT_CANCELED and the provider reports its transfer as reversed. *)
Definition left_intent : PaymentIntent.t :=
  PaymentIntent.mk "pi_3" "succeeded" (Some 2750%Z) (Some 250%Z)
    (Some ["ch_3"]) (Some "pm_3") "pi_3_secret".

Definition left_order : Order.t :=
  Order.mk 501 30 10 1 OrderStatusType.CLIENT_CANCELED 1 8 "pi_3" "pm_3"
    (OrderMetaData.mk "Sam Stranger" "Olive Owner" "Coffee beans" "A bulk order"
       None (Some 2750%Z) (Some 250%Z)).

Definition busy_gateway : Gateway.t :=
  Gateway.mk {[ "pi_1" := paid_intent; "pi_3" := left_intent ]} []
    {[ "ch_3" := "Transfer tr_3 is already fully reversed" ]} ∅
    {[ "acct_10" := true ]}.

Definition busy_store : Store.t :=
  Store.mk {[ 1 := joined_split ]} [paid_order; left_order] [joined_room]
    users 1000.

Definition busy_world : World.t := World.mk busy_store None busy_gateway [].

(** The stranger has reserved one seat on the open authorization and sits
    in the conversation read-only; then the provider cancels it. *)
Definition pending_order : Order.t :=
  Order.mk 502 30 10 1 OrderStatusType.PAYMENT_PENDING 1 8 "pi_2" "pending"
    (OrderMetaData.mk "Sam Stranger" "Olive Owner" "Coffee beans" "A bulk order"
       None (Some 2750%Z) (Some 250%Z)).

Definition pending_room : Conversation.t :=
  Conversation.mk 100 1 [(10, Role.full); (30, Role.readonly)].

Definition pending_store : Store.t :=
  Store.mk {[ 1 := joined_split ]} [pending_order] [pending_room] users 1000.

Definition pending_world : World.t := World.mk pending_store None gateway [].


(** Two Splits past their expiration date.  The second has an order
    whose authorization was never settled, so its refund is refused. *)
Definition second_split : Split.t :=
  Split.mk 2 10 SplitType.APP "Olive oil" "Another bulk order" []
    3 1 0 2 (float_of_Z 60) SplitStatus.ACTIVE None (Some 55%Z) (Some 101).

Definition second_room : Conversation.t :=
  Conversation.mk 101 2 [(10, Role.full); (30, Role.readonly)].

Definition stuck_order : Order.t :=
  Order.mk 503 30 10 2 OrderStatusType.PAYMENT_PENDING 1 8 "pi_2" "pending"
    (OrderMetaData.mk "Sam Stranger" "Olive Owner" "Olive oil"
       "Another bulk order" None (Some 2200%Z) (Some 200%Z)).

Definition two_world : World.t :=
  World.mk
    (Store.mk {[ 1 := split; 2 := second_split ]} [stuck_order]
       [room; second_room] users 1000)
    None gateway [].

End Sample.

(** The seat equation of a Split. *)
Definition seats_balanced (s : Split.t) : Prop :=
  (Split.numSeats s + Split.placesLeft s = Split.numPlaces s)%Z.

(** Every stored Split satisfies the equation. *)
Definition all_balanced (w : World.t) : Prop :=
  forall _id s, Store.splits (World.store w) !! _id = Some s -> seats_balanced s.

(** What [incrementNumSeats] makes of the document it has just
    incremented. *)
Definition settle (s : Split.t) : Split.t :=
  if bool_decide (Split.status s = SplitStatus.ACTIVE)
     && (Split.placesLeft s <=? 0)%Z
  then Split.with_status SplitStatus.COMPLETE s
  else if bool_decide (Split.status s = SplitStatus.COMPLETE)
          && (0 <? Split.placesLeft s)%Z
  then Split.with_status SplitStatus.ACTIVE s
  else s.

(** The input of the failing update: both capacity fields are zero. *)
Definition zero_capacity : SplitInput.t :=
  SplitInput.mk SplitType.APP "Coffee beans" "A bulk order" []
    0 0 (float_of_Z 100) None.

(** Computations that leave the Mongo collections alone. *)
Definition store_kept {A} (c : M A) : Prop :=
  forall w, World.store (c w).2 = World.store w
            /\ World.committed (c w).2 = World.committed w.

(** The outcome of a call that did not go through: an exception, or the
    failure envelope without an order. *)
Definition order_rejected (r : Result OrderResponse.t) : Prop :=
  match r with
  | Throw _ => True
  | Ok response =>
      OrderResponse.success response = false
      /\ OrderResponse.order response = None
  end.

(** The refunds created by a batch, added to the provider's list. *)
Definition push_refunds (rs : list Refund.t) (w : World.t) : World.t :=
  World.mk (World.store w) (World.committed w)
    (Gateway.mk (Gateway.intents (World.gateway w))
       (Gateway.refunds (World.gateway w) ++ rs)%list
       (Gateway.refund_errors (World.gateway w))
       (Gateway.cancel_errors (World.gateway w))
       (Gateway.charges_enabled (World.gateway w)))
    (World.messages w).

(** What the refund of an order's authorization, with the fee reversed,
    comes to in the world [w]. *)
Definition answer (w : World.t) (o : Order.t) : Result Refund.t :=
  (StripeService.refund (Order.paymentIntent o) true w).1.

(** The outcomes [bulkCancel] lets pass: a refund, or the
    already-reversed error. *)
Definition tolerated (r : Result Refund.t) : bool :=
  match r with
  | Ok _ => true
  | Throw e => includes (message e) "already fully reversed"
  end.

(** The refunds the provider grants to a list of orders. *)
Definition issued (w : World.t) (os : list Order.t) : list Refund.t :=
  flat_map (fun o => match answer w o with Ok r => [r] | Throw _ => [] end) os.

(** The first error of a batch that is not let pass. *)
Fixpoint first_refusal (w : World.t) (os : list Order.t) : option exn :=
  match os with
  | [] => None
  | o :: rest =>
      match answer w o with
      | Ok _ => first_refusal w rest
      | Throw e => if tolerated (Throw e) then first_refusal w rest else Some e
      end
  end.

(** The stored Orders of a Split. *)
Definition orders_of (split : ObjectID) (w : World.t) : list Order.t :=
  List.filter (OrderDataSource.of_split split) (Store.orders (World.store w)).

(** The batched update, applied to the collections. *)
Definition mark_orders (split : ObjectID) (st : OrderStatusType.t) (s : Store.t)
    : Store.t :=
  Store.with_orders
    (OrderDataSource.set_status_where (OrderDataSource.of_split split) st) s.

(** The collections after an exit: the seats are given back on the
    Split, the client is struck from the conversation. *)
Definition after_exit (split : ObjectID) (n : Z) (client : ObjectID)
    (s : Split.t) (c : Conversation.t) (st : Store.t) : Store.t :=
  Store.with_conversations
    (conversations.update_where (conversations.has_id (Conversation._id c))
       (List.filter (fun p => negb (bool_decide (p.1 = client)))))
    (Store.with_splits (insert split (settle (Split.inc_seats (- n) s))) st).

Section AmountVocabulary.

Variable SYSTEM_FEE : float.



End AmountVocabulary.

(** The amounts as the specification words them, in exact arithmetic on
    cents: the seat share [(price / numPlaces) * numSeats], rounded to
    the nearest cent. *)
Definition claimed_amount (price_cents numPlaces numSeats : Z) : Z :=
  ((2 * price_cents * numSeats + numPlaces) / (2 * numPlaces))%Z.

(** The specification's fee: [percent] percent of [amount], to the
    nearest cent. *)
Definition claimed_feeAmount (percent amount : Z) : Z :=
  ((2 * amount * percent + 100) / 200)%Z.

(** ** Vocabulary of the further properties *)

(** The collections after a join: the seats are taken on the Split, the
    client is added to the conversation. *)
Definition after_join (split : ObjectID) (n : Z) (client : ObjectID)
    (role : Role.t) (s : Split.t) (c : Conversation.t) (st : Store.t) : Store.t :=
  Store.with_conversations
    (conversations.update_where (conversations.has_id (Conversation._id c))
       (fun ps => (ps ++ [(client, role)])%list))
    (Store.with_splits (insert split (settle (Split.inc_seats n s))) st).

(** The event types that [updateStatusFromWebhook] passes on. *)
Definition relevant_event (ty : string) : bool :=
  array_includes
    ["payment_intent.succeeded"; "payment_intent.payment_failed";
     "payment_intent.canceled"; "payment_intent.processing"] ty.

(** The provider can refund the authorization: it has succeeded, [charge]
    is its first charge, and no refusal is on record for it. *)
Definition refundable (piid charge : string) (g : Gateway.t) : Prop :=
  exists p rest,
    Gateway.intents g !! piid = Some p
    /\ PaymentIntent.status p = "succeeded"
    /\ PaymentIntent.charges p = Some (charge :: rest)
    /\ Gateway.refund_errors g !! charge = None.

(** The collections after the cancellation of one order: the seats are
    given back, the client is struck from the conversation, the order
    carries the new status. *)
Definition cancelled_store (status : OrderStatusType.t) (o : Order.t)
    (s : Split.t) (c : Conversation.t) (st : Store.t) : Store.t :=
  Store.with_orders
    (OrderDataSource.set_status_where
       (fun x => bool_decide (Order._id x = Order._id o)) status)
    (after_exit (Order.split o) (Order.numSeats o) (Order.client o) s c st).

(** Who may cancel or update a Split: its owner, or an administrator. *)
Definition may_cancel (ctx : Context.t) (s : Split.t) : Prop :=
  Split.user s = Context._id ctx \/ Context.role ctx = UserRole.ADMIN.

(** The filter of the address update: the order of that id, when it is
    the caller's. *)
Definition own_order (ctx : Context.t) (_id : ObjectID) (o : Order.t) : bool :=
  bool_decide (Order._id o = _id)
  && bool_decide (Order.client o = Context._id ctx).

(** ** Further sample documents *)
Module Scenario.

(** A day in milliseconds, added to a date. *)
Definition plus_days (n : Z) (t : DateTime) : DateTime := (t + n * 86400000)%Z.

(** The input of a second Split: five places, two of them the owner's. *)
Definition split_input : SplitInput.t :=
  SplitInput.mk SplitType.APP "Green tea" "A second bulk order" []
    5 2 (float_of_Z 50) None.

(** The same input from an owner who asks for every place. *)
Definition full_input : SplitInput.t :=
  SplitInput.mk SplitType.APP "Green tea" "A second bulk order" []
    5 5 (float_of_Z 50) None.

(** The joined sample with a provider that refuses to refund the
    client's charge. *)
Definition refusing_gateway : Gateway.t :=
  Gateway.mk {[ "pi_1" := Sample.paid_intent ]} []
    {[ "ch_1" := "Charge ch_1 has already been refunded." ]} ∅
    {[ "acct_10" := true ]}.

Definition refusing_world : World.t :=
  World.mk Sample.joined_store None refusing_gateway [].

(** The provider reports that the stranger's payment failed. *)
Definition failed_event : Event.t :=
  Event.mk "payment_intent.payment_failed" "pi_2" "payment_failed".

(** A Split that expires four days and a half after time 0, beside one
    that expires within the day. *)
Definition late_split : Split.t :=
  Split.mk 1 10 SplitType.APP "Coffee beans" "A bulk order" []
    4 1 1 3 (float_of_Z 100) SplitStatus.ACTIVE None (Some 388800000%Z)
    (Some 100).

Definition soon_split : Split.t :=
  Split.mk 2 10 SplitType.APP "Olive oil" "Another bulk order" []
    3 1 0 2 (float_of_Z 60) SplitStatus.ACTIVE None (Some 43200000%Z)
    (Some 101).

Definition notice_world : World.t :=
  World.mk
    (Store.mk {[ 1 := late_split; 2 := soon_split ]} []
       [Sample.room; Sample.second_room] Sample.users 1000)
    None Sample.no_gateway [].

(** A Split of three places priced 100, so that a share is no whole
    number of cents: two seats are 66.67 and their fee 6.67. *)
Definition thirds_split : Split.t :=
  Split.mk 1 10 SplitType.APP "Coffee beans" "A bulk order" []
    3 1 1 2 (float_of_Z 100) SplitStatus.ACTIVE None (Some 50%Z) (Some 100).


End Scenario.

(** * Properties *)

Ltac run :=
  unfold bind, ret, throw, gets, attempt, write, write_nosession,
    write_gateway; simpl.

(** Projections out of a world that has just been built. *)
Ltac project :=
  cbn [World.store World.committed World.gateway World.messages
       Store.splits Store.orders Store.conversations Store.users Store.next_id
       Store.with_orders Store.with_splits Store.with_conversations Store.bump].

(** ** The seat equation *)

Lemma or0_id x : or0 x = x.
Proof. unfold or0. case_bool_decide; congruence. Qed.

Lemma settle_counters s :
  Split.numSeats (settle s) = Split.numSeats s
  /\ Split.placesLeft (settle s) = Split.placesLeft s
  /\ Split.numPlaces (settle s) = Split.numPlaces s
  /\ Split.conversation (settle s) = Split.conversation s.
Proof.
  unfold settle.
  repeat match goal with |- context [if ?b then _ else _] => destruct b end;
    simpl; auto.
Qed.

Lemma settle_balanced s : seats_balanced s -> seats_balanced (settle s).
Proof.
  unfold seats_balanced. destruct (settle_counters s) as (-> & -> & -> & _). auto.
Qed.

Lemma inc_seats_balanced d s : seats_balanced s -> seats_balanced (Split.inc_seats d s).
Proof. unfold seats_balanced. simpl. lia. Qed.

(** The run of [incrementNumSeats] on a stored Split. *)
Lemma incrementNumSeats_run w _id d s :
  Store.splits (World.store w) !! _id = Some s ->
  exists msgs,
    SplitDataSource.incrementNumSeats _id d w =
      (Ok (settle (Split.inc_seats d s)),
       World.mk
         (Store.with_splits (insert _id (settle (Split.inc_seats d s)))
            (World.store w))
         (World.committed w) (World.gateway w)
         (World.messages w ++ msgs)%list).
Proof.
  intros Hs.
  unfold SplitDataSource.incrementNumSeats, SplitDataSource.get,
    SplitDataSource.save_status, conversations.sendSystemMessage. run.
  rewrite lookup_alter_eq, Hs. simpl. unfold settle.
  destruct (bool_decide (Split.status (Split.inc_seats d s) = SplitStatus.ACTIVE)
            && (Split.placesLeft (Split.inc_seats d s) <=? 0)%Z) eqn:E1;
    simpl in E1 |- *; rewrite E1.
  - eexists [_]. unfold Store.with_splits. simpl.
    rewrite alter_alter_eq, (alter_alt_Some _ _ _ _ Hs). reflexivity.
  - destruct (bool_decide (Split.status s = SplitStatus.COMPLETE)
              && (0 <? Split.placesLeft s - d)%Z) eqn:E2.
    + eexists [_]. unfold Store.with_splits. simpl.
      rewrite alter_alter_eq, (alter_alt_Some _ _ _ _ Hs). reflexivity.
    + exists []. rewrite app_nil_r. unfold Store.with_splits. simpl.
      rewrite (alter_alt_Some _ _ _ _ Hs). reflexivity.
Qed.

(** On an unknown id nothing is stored and the method throws. *)
Lemma incrementNumSeats_missing w _id d :
  Store.splits (World.store w) !! _id = None ->
  exists e, SplitDataSource.incrementNumSeats _id d w = (Throw e, w).
Proof.
  intros Hs. unfold SplitDataSource.incrementNumSeats, SplitDataSource.get. run.
  rewrite lookup_alter_eq, Hs. simpl. eexists. f_equal.
  destruct w as [[sp os cs us n] c g m]. unfold Store.with_splits. simpl in *.
  rewrite alter_id' by done. reflexivity.
Qed.

(** X5.  incrementNumSeats keeps the seat equation
    [numSeats + placesLeft = numPlaces] on every stored Split, whatever
    the id and the delta, also when it throws. *)
Lemma incrementNumSeats_preserves_balance w _id d :
  all_balanced w ->
  all_balanced (SplitDataSource.incrementNumSeats _id d w).2.
Proof.
  intros Hw.
  destruct (Store.splits (World.store w) !! _id) as [s|] eqn:Hs.
  - destruct (incrementNumSeats_run w _id d s Hs) as [msgs ->]. simpl.
    intros j sj. unfold Store.with_splits. simpl.
    rewrite lookup_insert. case_decide.
    + intros [= <-]. apply settle_balanced, inc_seats_balanced. eauto.
    + apply Hw.
  - destruct (incrementNumSeats_missing w _id d Hs) as [e ->]. exact Hw.
Qed.

(** X3.  createSplit keeps the seat equation on every stored Split:
    what it stores has [placesLeft = numPlaces - numSeats], and a
    refused creation stores nothing. *)
Lemma create_preserves_balance ctx split w :
  all_balanced w ->
  all_balanced (SplitDataSource.create ctx split w).2.
Proof.
  intros Hw. unfold SplitDataSource.create, SplitDataSource.create_body. run.
  destruct (SplitInput.numPlaces split <=? SplitInput.numSeats split)%Z;
    [exact Hw|].
  unfold SplitDataSource.users_get. run.
  destruct (Store.users (World.store w) !! Context._id ctx) as [u|]; [|exact Hw].
  unfold StripeService.chargesEnabled, stripe.accounts_retrieve. run.
  destruct (Gateway.charges_enabled (World.gateway w) !! User.stripeAccountId u)
    as [[|]|]; simpl; try exact Hw.
  intros j sj. unfold Store.with_splits. simpl.
  rewrite lookup_alter. case_decide.
  - subst j. rewrite lookup_insert_eq. simpl. intros [= <-].
    unfold seats_balanced. simpl. rewrite !or0_id. lia.
  - rewrite lookup_insert_ne by done. apply Hw.
Qed.

(** The Split that a successful creation returns is the stored one, it is
    ACTIVE and it satisfies the equation. *)
Lemma create_establishes_balance ctx split w u :
  (SplitInput.numSeats split < SplitInput.numPlaces split)%Z ->
  Store.users (World.store w) !! Context._id ctx = Some u ->
  Gateway.charges_enabled (World.gateway w) !! User.stripeAccountId u = Some true ->
  exists s w',
    SplitDataSource.create ctx split w
      = (Ok (SplitResponse.mk 200 true None (Some s)), w')
    /\ Store.splits (World.store w') !! Split._id s = Some s
    /\ Split.status s = SplitStatus.ACTIVE
    /\ Split.placesLeft s
       = (SplitInput.numPlaces split - SplitInput.numSeats split)%Z
    /\ seats_balanced s.
Proof.
  intros Hlt Hu Hc. unfold SplitDataSource.create, SplitDataSource.create_body. run.
  destruct (Z.leb_spec (SplitInput.numPlaces split) (SplitInput.numSeats split));
    [lia|].
  unfold SplitDataSource.users_get. run. rewrite Hu.
  unfold StripeService.chargesEnabled, stripe.accounts_retrieve. run.
  rewrite Hc. simpl.
  rewrite lookup_alter_eq, lookup_insert_eq. simpl.
  eexists _, _. split; [reflexivity|]. simpl.
  rewrite lookup_alter_eq, lookup_insert_eq. simpl.
  rewrite !or0_id. unfold seats_balanced. simpl.
  repeat split; try reflexivity. lia.
Qed.

Section UpdateBalance.

Variable toFormat : DateTime -> string.

(** X10.  An updateSplit that names a non-zero [numPlaces] or
    [numSeats] stores the recomputed [placesLeft], and the seat equation
    holds on every stored Split afterwards, whoever calls. *)
Lemma update_preserves_balance_nonzero ctx _id split w :
  SplitInput.numPlaces split <> 0%Z \/ SplitInput.numSeats split <> 0%Z ->
  all_balanced w ->
  all_balanced (SplitDataSource.update toFormat ctx _id split w).2.
Proof.
  intros Hnz Hw. unfold SplitDataSource.update, SplitDataSource.update_body,
    SplitDataSource.get. run.
  destruct (Store.splits (World.store w) !! _id) as [s|] eqn:Hs; [|exact Hw].
  simpl.
  destruct (negb (bool_decide (Context._id ctx = Split.user s))
            && negb (bool_decide (Context.role ctx = UserRole.ADMIN)));
    [exact Hw|].
  simpl.
  assert (Hb : all_balanced
    (World.mk (Store.with_splits
                 (alter (SplitDataSource.apply_update split
                           (SplitDataSource.update_placesLeft split)) _id)
                 (World.store w))
       (Store.with_splits
          (alter (SplitDataSource.apply_update split
                    (SplitDataSource.update_placesLeft split)) _id)
          <$> World.committed w)
       (World.gateway w) (World.messages w))).
  { intros j sj. simpl. rewrite lookup_alter. case_decide.
    - subst j. rewrite Hs. simpl. intros [= <-].
      unfold seats_balanced, SplitDataSource.update_placesLeft. simpl.
      assert (negb (bool_decide (SplitInput.numPlaces split = 0%Z))
              || negb (bool_decide (SplitInput.numSeats split = 0%Z)) = true) as ->.
      { destruct Hnz.
        - rewrite bool_decide_eq_false_2 by done. reflexivity.
        - rewrite (bool_decide_eq_false_2 (SplitInput.numSeats split = 0%Z)) by done.
          apply orb_true_r. }
      simpl. rewrite !or0_id. lia.
    - apply Hw. }
  destruct (SplitInput.expirationDate split); simpl; exact Hb.
Qed.

End UpdateBalance.

(** ** C1: the seat equation under update *)

(** C1 (the code falls short of the specification).  The specification has every Split
    update preserve [numSeats + placesLeft = numPlaces].  [update]
    recomputes [placesLeft] only behind the guard
    [split.numPlaces || split.numSeats], which is false when both are
    zero: the owner's update of the sample Split (4 places, 1 seat, 3
    left) to zero places and zero seats stores [numPlaces = 0],
    [numSeats = 0] and keeps [placesLeft = 3], so a world in which the
    equation held no longer has it. *)
Theorem update_zero_capacity_breaks_balance :
  all_balanced Sample.world
  /\ exists r w' s,
       SplitDataSource.update Sample.toFormat (Context.mk 10 UserRole.USER) 1
         zero_capacity Sample.world = (Ok r, w')
       /\ SplitResponse.success r = true
       /\ Store.splits (World.store w') !! 1 = Some s
       /\ Split.numPlaces s = 0%Z
       /\ Split.numSeats s = 0%Z
       /\ Split.placesLeft s = 3%Z
       /\ ~ seats_balanced s.
Proof.
  split.
  - intros j s Hs. simpl in Hs. apply lookup_singleton_Some in Hs as [_ <-].
    reflexivity.
  - eexists _, _, _. split; [vm_compute; reflexivity|].
    split; [reflexivity|]. split; [vm_compute; reflexivity|].
    repeat split.
    unfold seats_balanced. simpl. lia.
Qed.

(** ** C2: status transitions of the seat engine *)

(** C2.  For every call of [incrementNumSeats] on a stored Split and
    every delta, the counters move by the delta and: when the resulting
    [placesLeft] is at most zero and the status was ACTIVE, the status
    becomes COMPLETE and one SPLIT_COMPLETED system message is posted;
    when the resulting [placesLeft] is positive and the status was
    COMPLETE, the status goes back to ACTIVE and one SPLIT_RESET message
    is posted; in every other case the status stays and nothing is
    posted. *)
Theorem incrementNumSeats_status_transitions w _id d s :
  Store.splits (World.store w) !! _id = Some s ->
  exists s' w',
    SplitDataSource.incrementNumSeats _id d w = (Ok s', w')
    /\ Store.splits (World.store w') !! _id = Some s'
    /\ Split.numSeats s' = (Split.numSeats s + d)%Z
    /\ Split.placesLeft s' = (Split.placesLeft s - d)%Z
    /\ (Split.status s = SplitStatus.ACTIVE ->
        (Split.placesLeft s' <= 0)%Z ->
        Split.status s' = SplitStatus.COMPLETE
        /\ exists text,
             World.messages w'
             = (World.messages w
                ++ [SystemMessage.mk (Split.conversation s) text
                      SplitRoomMessageTypes.SPLIT_COMPLETED])%list)
    /\ (Split.status s = SplitStatus.COMPLETE ->
        (0 < Split.placesLeft s')%Z ->
        Split.status s' = SplitStatus.ACTIVE
        /\ exists text,
             World.messages w'
             = (World.messages w
                ++ [SystemMessage.mk (Split.conversation s) text
                      SplitRoomMessageTypes.SPLIT_RESET])%list)
    /\ (~ (Split.status s = SplitStatus.ACTIVE /\ (Split.placesLeft s' <= 0)%Z) ->
        ~ (Split.status s = SplitStatus.COMPLETE /\ (0 < Split.placesLeft s')%Z) ->
        Split.status s' = Split.status s
        /\ World.messages w' = World.messages w).
Proof.
  intros Hs.
  unfold SplitDataSource.incrementNumSeats, SplitDataSource.get,
    SplitDataSource.save_status, conversations.sendSystemMessage. run.
  rewrite lookup_alter_eq, Hs. simpl.
  destruct (bool_decide (Split.status s = SplitStatus.ACTIVE)) eqn:Ea;
    [apply bool_decide_eq_true in Ea | apply bool_decide_eq_false in Ea];
    destruct (bool_decide (Split.status s = SplitStatus.COMPLETE)) eqn:Ec;
    [apply bool_decide_eq_true in Ec | apply bool_decide_eq_false in Ec
    |apply bool_decide_eq_true in Ec | apply bool_decide_eq_false in Ec];
    destruct (Z.leb_spec (Split.placesLeft s - d) 0) as [Hle|Hgt];
    destruct (Z.ltb_spec 0 (Split.placesLeft s - d)) as [Hlt|Hge];
    simpl; try lia; try congruence;
    (eexists _, _; split; [reflexivity|]; simpl;
     rewrite ?lookup_alter_eq, Hs; simpl; split; [reflexivity|];
     repeat split; intros; simpl in *;
     solve [eauto | congruence | lia | exfalso; intuition (congruence || lia)]).
Qed.

(** Three seats taken on the sample Split fill it. *)
Lemma incrementNumSeats_status_transitions_witness :
  exists s' w',
    SplitDataSource.incrementNumSeats 1 3 Sample.world = (Ok s', w')
    /\ Split.status s' = SplitStatus.COMPLETE
    /\ Split.placesLeft s' = 0%Z
    /\ length (World.messages w') = 1.
Proof.
  destruct (incrementNumSeats_status_transitions Sample.world 1 3 Sample.split)
    as (s' & w' & Hrun & _ & _ & Hleft & Hfill & _).
  - vm_compute. reflexivity.
  - exists s', w'. split; [exact Hrun|].
    destruct Hfill as [Hst [text Hm]].
    + reflexivity.
    + rewrite Hleft. vm_compute. discriminate.
    + split; [exact Hst|]. split; [rewrite Hleft; reflexivity|].
      rewrite Hm. reflexivity.
Defined.

(** ** C3: the guards of cancelAction *)


(** The statuses the guard treats as terminal are the three named. *)
Lemma terminal_statuses st :
  SplitCancellation.terminal st = true
  <-> st = SplitStatus.COMPLETE \/ st = SplitStatus.EXPIRED
      \/ st = SplitStatus.CANCELLED.
Proof. destruct st; vm_compute; intuition discriminate. Qed.


(** ** C4: the expiration sweep *)

(** C4 (the code falls short of the specification).  The specification
    has the sweep invoke the Split-cancel path with status EXPIRED on
    every Split whose expiration date has passed.  [expire] builds the
    query and does not await it, so what it maps over is the Query and
    not the selected documents: in Mongoose 5 [map] returns the Query
    and [Promise.allSettled] rejects it, in later versions [map] itself
    throws; the [catch] clause writes the error to the console.  On the
    sample world, swept at time 60: the Split (expiration date 50, so
    the filter holds of it) is still ACTIVE afterwards and nothing has
    changed; no run of [expire] changes anything; while [cancel], called
    as the sweep means to call it, does move the Split to EXPIRED. *)
Theorem expire_expires_nothing :
  SplitCancellation.expired 60 Sample.split = true
  /\ Split.status Sample.split = SplitStatus.ACTIVE
  /\ (forall version,
        SplitCancellation.expire version 60 false Sample.world
        = (Ok tt, Sample.world))
  /\ (forall version now dry w,
        SplitCancellation.expire version now dry w = (Ok tt, w))
  /\ (exists s' w',
        SplitCancellation.cancel 1 None (Some SplitStatus.EXPIRED) Sample.world
        = (Ok s', w')
        /\ Split.status s' = SplitStatus.EXPIRED
        /\ Split.status <$> Store.splits (World.store w') !! 1
           = Some SplitStatus.EXPIRED).
Proof.
  split; [reflexivity|]. split; [reflexivity|].
  split; [intros []; reflexivity|].
  split; [intros [] now [] w; reflexivity|].
  eexists _, _. split; [vm_compute; reflexivity|].
  split; vm_compute; reflexivity.
Qed.

(** ** C5 and C6: rejections of createOrder *)

Lemma store_kept_ret {A} (a : A) : store_kept (ret a).
Proof. intros w. auto. Qed.

Lemma store_kept_throw {A} e : store_kept (@throw A e).
Proof. intros w. auto. Qed.

Lemma store_kept_gets {A} (f : World.t -> A) : store_kept (gets f).
Proof. intros w. auto. Qed.

Lemma store_kept_write_gateway f : store_kept (write_gateway f).
Proof. intros w. auto. Qed.

Lemma store_kept_bind {A B} (c : M A) (k : A -> M B) :
  store_kept c -> (forall a, store_kept (k a)) -> store_kept (bind c k).
Proof.
  intros Hc Hk w. unfold bind. specialize (Hc w).
  destruct (c w) as [[a|e] w1]; simpl in *.
  - destruct (Hk a w1) as [-> ->]. exact Hc.
  - exact Hc.
Qed.

Lemma store_kept_attempt {A} (c : M A) : store_kept c -> store_kept (attempt c).
Proof.
  intros Hc w. unfold attempt. specialize (Hc w).
  destruct (c w) as [r w1]. exact Hc.
Qed.

Ltac store_kept :=
  repeat first
    [ apply store_kept_ret | apply store_kept_throw | apply store_kept_gets
    | apply store_kept_write_gateway | apply store_kept_attempt
    | apply store_kept_bind; [|intros ?]
    | match goal with
      | |- store_kept (match ?x with _ => _ end) => destruct x
      | |- store_kept (if ?b then _ else _) => destruct b
      end ].

Lemma store_kept_retrieve id : store_kept (stripe.paymentIntents_retrieve id).
Proof.
  intros w. unfold stripe.paymentIntents_retrieve.
  destruct (Gateway.intents (World.gateway w) !! id); auto.
Qed.

Lemma store_kept_refund piid flag : store_kept (StripeService.refund piid flag).
Proof.
  unfold StripeService.refund, stripe.refunds_create.
  apply store_kept_bind; [apply store_kept_retrieve|intros p]. store_kept.
Qed.

Lemma store_kept_cancelPaymentIntent id :
  store_kept (StripeService.cancelPaymentIntent id).
Proof.
  unfold StripeService.cancelPaymentIntent, stripe.paymentIntents_cancel.
  apply store_kept_bind; [apply store_kept_retrieve|intros p]. store_kept.
Qed.

(** The retrieval behind [getPaymentIntent] changes nothing at all. *)
Lemma getPaymentIntent_run id w :
  StripeService.getPaymentIntent id w
  = (Ok (Gateway.intents (World.gateway w) !! id), w).
Proof.
  unfold StripeService.getPaymentIntent, stripe.paymentIntents_retrieve. run.
  destruct (Gateway.intents (World.gateway w) !! id); reflexivity.
Qed.

Section CreateOrder.

Variable SYSTEM_FEE : float.

Lemma store_kept_create_catch p e : store_kept (OrderDataSource.create_catch p e).
Proof.
  unfold OrderDataSource.create_catch.
  destruct p as [[p|]|]; try apply store_kept_throw.
  apply store_kept_bind; [|intros ?; apply store_kept_ret].
  destruct (bool_decide _).
  - apply store_kept_bind; [apply store_kept_refund|intros ?; apply store_kept_ret].
  - apply store_kept_bind;
      [apply store_kept_cancelPaymentIntent|intros ?; apply store_kept_ret].
Qed.

Lemma create_catch_rejected p e w :
  order_rejected (OrderDataSource.create_catch p e w).1.
Proof.
  unfold OrderDataSource.create_catch.
  destruct p as [[p|]|]; simpl; auto. run.
  destruct (bool_decide _).
  - destruct (StripeService.refund (PaymentIntent.id p) true w) as [[?|?] ?];
      simpl; auto.
  - destruct (StripeService.cancelPaymentIntent (PaymentIntent.id p) w)
      as [[?|?] ?]; simpl; auto.
Qed.

(** The statuses the duplicate check counts as cancelled. *)
Lemma cancelled_statuses st :
  OrderDataSource.cancelled st = true
  <-> st = OrderStatusType.SYSTEM_CANCELED \/ st = OrderStatusType.OWNER_CANCELED
      \/ st = OrderStatusType.CLIENT_CANCELED.
Proof. destruct st; vm_compute; intuition discriminate. Qed.

(** The duplicate check fires on an authorization handle that is already
    bound, or on a live order of the caller on the same Split. *)
Lemma create_guard_duplicate ctx order w o :
  In o (Store.orders (World.store w)) ->
  Order.paymentIntent o = OrderInput.paymentIntent order
  \/ (Order.split o = OrderInput.split order
      /\ Order.client o = Context._id ctx
      /\ OrderDataSource.cancelled (Order.status o) = false) ->
  OrderDataSource.create_guard ctx order w
  = (Throw (Error "This User already ordered this Split or paymentIntent already used"),
     w).
Proof.
  intros Hin Hdup. unfold OrderDataSource.create_guard. run.
  destruct (List.find _ _) eqn:Hf; [reflexivity|].
  apply find_none with (x := o) in Hf; [|exact Hin].
  unfold OrderDataSource.existing in Hf.
  destruct Hdup as [Hp | (Hsp & Hc & Hst)].
  - rewrite bool_decide_eq_true_2 in Hf by done. discriminate.
  - rewrite (bool_decide_eq_true_2 _ Hsp), (bool_decide_eq_true_2 _ Hc), Hst in Hf.
    rewrite orb_true_r in Hf. discriminate.
Qed.

Lemma create_rest_overbooked ctx order p w s :
  Store.splits (World.store w) !! OrderInput.split order = Some s ->
  (Split.placesLeft s < OrderInput.numSeats order)%Z ->
  OrderDataSource.create_rest SYSTEM_FEE ctx order (Some p) w
  = (Throw (Error "Can't order this many seats"), w).
Proof.
  intros Hs Hlt. unfold OrderDataSource.create_rest, SplitDataSource.get. run.
  rewrite Hs. simpl.
  destruct (Z.ltb_spec (Split.placesLeft s) (OrderInput.numSeats order));
    [reflexivity|lia].
Qed.

(** [create], one stage at a time. *)
Lemma create_stages ctx order w :
  OrderDataSource.create SYSTEM_FEE ctx order w
  = match OrderDataSource.create_guard ctx order w with
    | (Throw e, w1) => OrderDataSource.create_catch None e w1
    | (Ok _, w1) =>
        let p := Gateway.intents (World.gateway w1) !! OrderInput.paymentIntent order in
        match OrderDataSource.create_rest SYSTEM_FEE ctx order p w1 with
        | (Ok response, w2) => (Ok response, w2)
        | (Throw e, w2) => OrderDataSource.create_catch (Some p) e w2
        end
    end.
Proof.
  unfold OrderDataSource.create, bind, attempt, ret.
  destruct (OrderDataSource.create_guard ctx order w) as [[[]|e] w1];
    [|reflexivity].
  rewrite getPaymentIntent_run.
  destruct (OrderDataSource.create_rest _ _ _ _ _) as [[?|?] ?]; reflexivity.
Qed.

Lemma create_guard_world ctx order w :
  (OrderDataSource.create_guard ctx order w).2 = w.
Proof.
  unfold OrderDataSource.create_guard. run.
  destruct (List.find _ _); reflexivity.
Qed.

(** C5.  A createOrder call whose authorization handle is already bound
    to an Order, or whose caller already holds a non-cancelled Order on
    the Split, raises the duplicate error and is rejected; a call that
    asks for more seats than the Split's [placesLeft] is rejected, by the
    capacity error once the authorization has been found.  In both cases
    the collections are as before: no Order is stored and no seat counter
    moves. *)
Theorem create_rejects_duplicate_and_overbooked ctx order w :
  (forall o,
     In o (Store.orders (World.store w)) ->
     Order.paymentIntent o = OrderInput.paymentIntent order
     \/ (Order.split o = OrderInput.split order
         /\ Order.client o = Context._id ctx
         /\ OrderDataSource.cancelled (Order.status o) = false) ->
     OrderDataSource.create_guard ctx order w
     = (Throw (Error "This User already ordered this Split or paymentIntent already used"),
        w)
     /\ order_rejected (OrderDataSource.create SYSTEM_FEE ctx order w).1
     /\ World.store (OrderDataSource.create SYSTEM_FEE ctx order w).2
        = World.store w)
  /\ (forall s,
        Store.splits (World.store w) !! OrderInput.split order = Some s ->
        (Split.placesLeft s < OrderInput.numSeats order)%Z ->
        (forall p,
           OrderDataSource.create_rest SYSTEM_FEE ctx order (Some p) w
           = (Throw (Error "Can't order this many seats"), w))
        /\ order_rejected (OrderDataSource.create SYSTEM_FEE ctx order w).1
        /\ World.store (OrderDataSource.create SYSTEM_FEE ctx order w).2
           = World.store w).
Proof.
  split.
  - intros o Hin Hdup.
    pose proof (create_guard_duplicate ctx order w o Hin Hdup) as Hg.
    split; [exact Hg|].
    rewrite create_stages, Hg. simpl. auto.
  - intros s Hs Hlt.
    split; [intros p; apply create_rest_overbooked with s; assumption|].
    rewrite create_stages.
    pose proof (create_guard_world ctx order w) as Hw.
    destruct (OrderDataSource.create_guard ctx order w) as [[[]|e] w1];
      simpl in Hw; subst w1; [|simpl; auto].
    cbv zeta.
    destruct (Gateway.intents (World.gateway w) !! OrderInput.paymentIntent order)
      as [p|].
    + rewrite (create_rest_overbooked ctx order p w s Hs Hlt).
      split; [apply create_catch_rejected|].
      apply store_kept_create_catch.
    + simpl. auto.
Qed.

End CreateOrder.

(** A second order on the authorization of the first, and an order for
    three seats where two are left. *)
Lemma create_rejects_duplicate_and_overbooked_witness :
  (OrderDataSource.create_guard (Context.mk 30 UserRole.USER)
     (OrderInput.mk 1 1 7 "pi_1") Sample.joined_world
   = (Throw (Error "This User already ordered this Split or paymentIntent already used"),
      Sample.joined_world)
   /\ order_rejected
        (OrderDataSource.create Sample.fee (Context.mk 30 UserRole.USER)
           (OrderInput.mk 1 1 7 "pi_1") Sample.joined_world).1
   /\ World.store
        (OrderDataSource.create Sample.fee (Context.mk 30 UserRole.USER)
           (OrderInput.mk 1 1 7 "pi_1") Sample.joined_world).2
      = Sample.joined_store)
  /\ (order_rejected
        (OrderDataSource.create Sample.fee (Context.mk 30 UserRole.USER)
           (OrderInput.mk 1 3 7 "pi_2") Sample.joined_world).1
      /\ World.store
           (OrderDataSource.create Sample.fee (Context.mk 30 UserRole.USER)
              (OrderInput.mk 1 3 7 "pi_2") Sample.joined_world).2
         = Sample.joined_store).
Proof.
  split.
  - apply (create_rejects_duplicate_and_overbooked Sample.fee
             (Context.mk 30 UserRole.USER) (OrderInput.mk 1 1 7 "pi_1")
             Sample.joined_world) with (o := Sample.paid_order).
    + simpl. left. reflexivity.
    + left. reflexivity.
  - apply (create_rejects_duplicate_and_overbooked Sample.fee
             (Context.mk 30 UserRole.USER) (OrderInput.mk 1 3 7 "pi_2")
             Sample.joined_world) with (s := Sample.joined_split).
    + vm_compute. reflexivity.
    + simpl. lia.
Defined.

(** C6 (the code falls short of the specification).  The specification has every failed
    createOrder compensate and then answer the failure envelope.  The
    [catch] clause reads [paymentIntent.status] first, and the variable
    is still [undefined] when the duplicate check throws, and [null] when
    the authorization is not found: in both cases the clause itself
    throws a [TypeError], no envelope is returned, and the provider is
    not called. *)
Theorem create_failure_before_authorization_throws :
  OrderDataSource.create Sample.fee (Context.mk 30 UserRole.USER)
    (OrderInput.mk 1 1 7 "pi_1") Sample.joined_world
  = (Throw (TypeError "Cannot read properties of undefined (reading 'status')"),
     Sample.joined_world)
  /\ OrderDataSource.create Sample.fee (Context.mk 30 UserRole.USER)
       (OrderInput.mk 1 1 7 "pi_unknown") Sample.joined_world
     = (Throw (TypeError "Cannot read properties of null (reading 'status')"),
        Sample.joined_world).
Proof. split; vm_compute; reflexivity. Qed.

(** Once the authorization is at hand the clause does what the
    specification says: the overbooked order on the open authorization is answered by
    the failure envelope, and the authorization is cancelled at the
    provider. *)
Lemma create_overbooked_compensates :
  exists w',
    OrderDataSource.create Sample.fee (Context.mk 30 UserRole.USER)
      (OrderInput.mk 1 3 7 "pi_2") Sample.joined_world
    = (Ok (OrderResponse.mk 501 false (Some "Can't order this many seats")
             None None (Some "pi_2_secret")), w')
    /\ PaymentIntent.status <$> Gateway.intents (World.gateway w') !! "pi_2"
       = Some "canceled"
    /\ World.store w' = Sample.joined_store.
Proof. eexists. repeat split; vm_compute; reflexivity. Qed.

(** ** C7: bulkCancel *)

Lemma push_refunds_nil w : push_refunds [] w = w.
Proof.
  destruct w as [st c [i r re ce ch] m]. unfold push_refunds. simpl.
  rewrite app_nil_r. reflexivity.
Qed.

Lemma push_refunds_app rs1 rs2 w :
  push_refunds rs2 (push_refunds rs1 w) = push_refunds (rs1 ++ rs2) w.
Proof. unfold push_refunds. simpl. rewrite app_assoc. reflexivity. Qed.

Lemma refund_run piid flag w :
  StripeService.refund piid flag w
  = ((StripeService.refund piid flag w).1,
     push_refunds
       match (StripeService.refund piid flag w).1 with
       | Ok r => [r]
       | Throw _ => []
       end w).
Proof.
  unfold StripeService.refund, stripe.paymentIntents_retrieve,
    stripe.refunds_create. run.
  destruct (Gateway.intents (World.gateway w) !! piid) as [p|]; simpl;
    [|rewrite push_refunds_nil; reflexivity].
  destruct (negb _); simpl; [rewrite push_refunds_nil; reflexivity|].
  destruct (PaymentIntent.charges p) as [[|c cs]|]; simpl;
    try (rewrite push_refunds_nil; reflexivity).
  destruct (Gateway.refund_errors (World.gateway w) !! c); simpl;
    [rewrite push_refunds_nil; reflexivity|reflexivity].
Qed.

(** The answer does not depend on the refunds made so far. *)
Lemma answer_push rs w o : answer (push_refunds rs w) o = answer w o.
Proof.
  unfold answer, StripeService.refund, stripe.paymentIntents_retrieve,
    stripe.refunds_create. run.
  destruct (Gateway.intents (World.gateway w) !! Order.paymentIntent o) as [p|];
    simpl; [|reflexivity].
  destruct (negb _); simpl; [reflexivity|].
  destruct (PaymentIntent.charges p) as [[|c cs]|]; simpl; try reflexivity.
  destruct (Gateway.refund_errors (World.gateway w) !! c); reflexivity.
Qed.

(** A refund that [bulkCancel] obtains reverses the transfer and the
    platform fee. *)
Lemma answer_reverses_fee w o r :
  answer w o = Ok r ->
  Refund.reverse_transfer r = true /\ Refund.refund_application_fee r = true.
Proof.
  unfold answer, StripeService.refund, stripe.paymentIntents_retrieve,
    stripe.refunds_create. run.
  destruct (Gateway.intents (World.gateway w) !! Order.paymentIntent o) as [p|];
    simpl; [|discriminate].
  destruct (negb _); simpl; [discriminate|].
  destruct (PaymentIntent.charges p) as [[|c cs]|]; simpl; try discriminate.
  destruct (Gateway.refund_errors (World.gateway w) !! c); simpl;
    [discriminate|]. intros [= <-]. auto.
Qed.

Lemma issued_push rs w os : issued (push_refunds rs w) os = issued w os.
Proof.
  induction os as [|o os IH]; simpl; [reflexivity|].
  rewrite answer_push, IH. reflexivity.
Qed.

Lemma first_refusal_push rs w os :
  first_refusal (push_refunds rs w) os = first_refusal w os.
Proof.
  induction os as [|o os IH]; simpl; [reflexivity|].
  rewrite answer_push, IH. reflexivity.
Qed.

Lemma refund_order_run o w :
  OrderDataSource.refund_order o w
  = (match answer w o with
     | Ok _ => Ok tt
     | Throw e => if tolerated (Throw e) then Ok tt else Throw e
     end,
     push_refunds (issued w [o]) w).
Proof.
  unfold OrderDataSource.refund_order, bind, attempt.
  rewrite refund_run. fold (answer w o). unfold issued. simpl.
  rewrite app_nil_r.
  destruct (answer w o) as [r|e]; simpl; [reflexivity|].
  destruct (includes (message e) "already fully reversed"); reflexivity.
Qed.

(** The whole batch: every refund is attempted, and the first error that
    is not the tolerated one is thrown. *)
Lemma promise_all_refunds os w :
  OrderDataSource.promise_all (List.map OrderDataSource.refund_order os) w
  = (match first_refusal w os with
     | Some e => Throw e
     | None => Ok tt
     end,
     push_refunds (issued w os) w).
Proof.
  revert w. induction os as [|o os IH]; intros w; simpl.
  - rewrite push_refunds_nil. reflexivity.
  - unfold bind, attempt. rewrite refund_order_run, IH.
    rewrite first_refusal_push, issued_push, push_refunds_app.
    unfold issued at 2. simpl. rewrite app_nil_r.
    destruct (answer w o) as [r|e]; simpl.
    + destruct (first_refusal w os); reflexivity.
    + destruct (includes (message e) "already fully reversed");
        destruct (first_refusal w os); reflexivity.
Qed.

(** The run of [bulkCancel] inside a session. *)
Lemma bulkCancel_run split status w :
  OrderDataSource.bulkCancel split status (Some MongoSession) w
  = let w1 := push_refunds (issued w (orders_of split w)) w in
    match first_refusal w (orders_of split w) with
    | Some e => (Throw e, w1)
    | None =>
        (Ok tt,
         World.mk
           (mark_orders split (default OrderStatusType.SYSTEM_CANCELED status)
              (World.store w1))
           (mark_orders split (default OrderStatusType.SYSTEM_CANCELED status)
              <$> World.committed w1)
           (World.gateway w1) (World.messages w1))
    end.
Proof.
  unfold OrderDataSource.bulkCancel, OrderDataSource.batch_load. run.
  fold (orders_of split w). rewrite promise_all_refunds.
  destruct (first_refusal w (orders_of split w)); reflexivity.
Qed.

Lemma first_refusal_None w os :
  first_refusal w os = None <-> forall o, In o os -> tolerated (answer w o) = true.
Proof.
  induction os as [|o os IH]; simpl.
  - split; [intros _ ? []|reflexivity].
  - destruct (answer w o) as [r|e] eqn:Ha; simpl.
    + rewrite IH. split.
      * intros H x [<-|Hx]; [rewrite Ha; reflexivity|auto].
      * intros H x Hx. apply H. auto.
    + destruct (includes (message e) "already fully reversed") eqn:Hi.
      * rewrite IH. split.
        -- intros H x [<-|Hx]; [rewrite Ha; exact Hi|auto].
        -- intros H x Hx. apply H. auto.
      * split; [discriminate|].
        intros H. specialize (H o (or_introl eq_refl)).
        rewrite Ha in H. simpl in H. congruence.
Qed.

Lemma issued_In w os o r :
  In o os -> answer w o = Ok r -> In r (issued w os).
Proof.
  intros Hin Ha. unfold issued. apply in_flat_map. exists o.
  split; [exact Hin|]. rewrite Ha. left. reflexivity.
Qed.

(** What the batched update leaves in the collection. *)
Lemma set_status_where_marks p st os o :
  In o (OrderDataSource.set_status_where p st os) ->
  p o = true -> (forall x, p (Order.with_status st x) = p x) ->
  Order.status o = st.
Proof.
  unfold OrderDataSource.set_status_where. rewrite in_map_iff.
  intros [x [<- _]] Hp Hpres. destruct (p x) eqn:Hx; [reflexivity|].
  congruence.
Qed.

Lemma set_status_where_effects p st os :
  (forall x, p (Order.with_status st x) = p x) ->
  let os' := OrderDataSource.set_status_where p st os in
  (forall o, In o os' -> p o = true -> Order.status o = st)
  /\ (forall o, In o os -> p o = true ->
        exists o', In o' os' /\ Order._id o' = Order._id o
                   /\ Order.split o' = Order.split o
                   /\ Order.client o' = Order.client o
                   /\ Order.numSeats o' = Order.numSeats o
                   /\ Order.paymentIntent o' = Order.paymentIntent o
                   /\ Order.status o' = st)
  /\ (forall o, In o os -> p o = false -> In o os')
  /\ List.map Order._id os' = List.map Order._id os.
Proof.
  intros Hp. cbv zeta. unfold OrderDataSource.set_status_where.
  split; [|split; [|split]].
  - intros o Hin Ho. eapply set_status_where_marks; eauto.
  - intros o Hin Ho. exists (Order.with_status st o).
    split; [|repeat split].
    apply in_map_iff. exists o. rewrite Ho. auto.
  - intros o Hin Ho. apply in_map_iff. exists o. rewrite Ho. auto.
  - rewrite map_map. apply map_ext. intros o. destruct (p o); reflexivity.
Qed.

(** A refund that the provider grants, and one that it refuses. *)
Lemma refund_ok piid flag charge w :
  refundable piid charge (World.gateway w) ->
  StripeService.refund piid flag w
  = (Ok (Refund.mk charge true flag),
     push_refunds [Refund.mk charge true flag] w).
Proof.
  intros (p & rest & Hp & Hst & Hch & Herr).
  unfold StripeService.refund, stripe.paymentIntents_retrieve,
    stripe.refunds_create, bind, gets, write_gateway, ret.
  cbv beta iota. rewrite Hp. cbv beta iota. rewrite Hst, Hch.
  simpl. rewrite Herr. reflexivity.
Qed.

Lemma answer_refundable w o charge :
  refundable (Order.paymentIntent o) charge (World.gateway w) ->
  answer w o = Ok (Refund.mk charge true true).
Proof.
  intros Hr. unfold answer. rewrite (refund_ok _ _ charge w Hr). reflexivity.
Qed.

Lemma answer_refused w o p charge rest msg :
  Gateway.intents (World.gateway w) !! Order.paymentIntent o = Some p ->
  PaymentIntent.status p = "succeeded" ->
  PaymentIntent.charges p = Some (charge :: rest) ->
  Gateway.refund_errors (World.gateway w) !! charge = Some msg ->
  answer w o = Throw (Error msg).
Proof.
  intros Hp Hst Hch Herr.
  unfold answer, StripeService.refund, stripe.paymentIntents_retrieve,
    stripe.refunds_create, bind, gets, throw.
  cbv beta iota. rewrite Hp. cbv beta iota. rewrite Hst, Hch. simpl.
  rewrite Herr. reflexivity.
Qed.

(** C7.  For every Split and every [bulkCancel] on it inside a session:
    the Splits (and so their seat counters) and the conversations are
    untouched; each Order of the Split whose authorization has succeeded
    and whose first charge the provider does not refuse gets a refund of
    that charge, transfer and platform fee reversed; the call succeeds
    exactly when every Order's refund is granted or refused with the
    already-fully-reversed error, a refusal with any other message
    failing it; on success every Order of the Split carries the given
    status (SYSTEM_CANCELED when none is given), every Order of another
    Split is as it was, and no Order has appeared or gone; when the call
    throws no Order is changed. *)
Theorem bulkCancel_refunds_then_marks split status w :
  let os := orders_of split w in
  let st := default OrderStatusType.SYSTEM_CANCELED status in
  let run := OrderDataSource.bulkCancel split status (Some MongoSession) w in
  Store.splits (World.store run.2) = Store.splits (World.store w)
  /\ Store.conversations (World.store run.2) = Store.conversations (World.store w)
  /\ (forall o r, In o os -> answer w o = Ok r ->
        In r (Gateway.refunds (World.gateway run.2))
        /\ Refund.reverse_transfer r = true
        /\ Refund.refund_application_fee r = true)
  /\ (forall o charge,
        In o (Store.orders (World.store w)) -> Order.split o = split ->
        refundable (Order.paymentIntent o) charge (World.gateway w) ->
        In (Refund.mk charge true true) (Gateway.refunds (World.gateway run.2)))
  /\ (run.1 = Ok tt <-> forall o, In o os -> tolerated (answer w o) = true)
  /\ (forall o p charge rest msg,
        In o (Store.orders (World.store w)) -> Order.split o = split ->
        Gateway.intents (World.gateway w) !! Order.paymentIntent o = Some p ->
        PaymentIntent.status p = "succeeded" ->
        PaymentIntent.charges p = Some (charge :: rest) ->
        Gateway.refund_errors (World.gateway w) !! charge = Some msg ->
        (includes msg "already fully reversed" = false -> run.1 <> Ok tt)
        /\ ((forall o', In o' os ->
                         Order.paymentIntent o' <> Order.paymentIntent o ->
                         tolerated (answer w o') = true) ->
            includes msg "already fully reversed" = true -> run.1 = Ok tt))
  /\ (run.1 = Ok tt ->
      Store.orders (World.store run.2)
      = OrderDataSource.set_status_where (OrderDataSource.of_split split) st
          (Store.orders (World.store w)))
  /\ (run.1 = Ok tt ->
      (forall o, In o (Store.orders (World.store run.2)) ->
                 Order.split o = split -> Order.status o = st)
      /\ (forall o, In o (Store.orders (World.store w)) ->
                    Order.split o = split ->
                    exists o', In o' (Store.orders (World.store run.2))
                               /\ Order._id o' = Order._id o
                               /\ Order.split o' = split
                               /\ Order.status o' = st)
      /\ (forall o, In o (Store.orders (World.store w)) ->
                    Order.split o <> split ->
                    In o (Store.orders (World.store run.2)))
      /\ List.map Order._id (Store.orders (World.store run.2))
         = List.map Order._id (Store.orders (World.store w)))
  /\ (run.1 <> Ok tt ->
      Store.orders (World.store run.2) = Store.orders (World.store w)).
Proof.
  cbv zeta.
  assert (Hof : forall o, In o (Store.orders (World.store w)) ->
                          Order.split o = split -> In o (orders_of split w)).
  { intros o Hin Hsp. unfold orders_of. apply filter_In. split; [exact Hin|].
    unfold OrderDataSource.of_split. apply bool_decide_eq_true_2. exact Hsp. }
  rewrite bulkCancel_run. cbv zeta.
  destruct (first_refusal_None w (orders_of split w)) as [Hnone Hall].
  assert (Hrefund : forall o charge,
            In o (Store.orders (World.store w)) -> Order.split o = split ->
            refundable (Order.paymentIntent o) charge (World.gateway w) ->
            In (Refund.mk charge true true)
               (Gateway.refunds (World.gateway w)
                ++ issued w (orders_of split w))%list).
  { intros o charge Hin Hsp Hr. apply in_or_app. right.
    eapply issued_In; [apply Hof; eassumption|].
    apply answer_refundable. exact Hr. }
  assert (Heff := set_status_where_effects (OrderDataSource.of_split split)
                    (default OrderStatusType.SYSTEM_CANCELED status)
                    (Store.orders (World.store w)) (fun x => eq_refl)).
  cbv zeta in Heff. destruct Heff as (Hmark & Hkeep & Hother & Hids).
  assert (Hmsg : forall o p charge rest msg,
            In o (Store.orders (World.store w)) -> Order.split o = split ->
            Gateway.intents (World.gateway w) !! Order.paymentIntent o = Some p ->
            PaymentIntent.status p = "succeeded" ->
            PaymentIntent.charges p = Some (charge :: rest) ->
            Gateway.refund_errors (World.gateway w) !! charge = Some msg ->
            (includes msg "already fully reversed" = false ->
             first_refusal w (orders_of split w) <> None)
            /\ ((forall o', In o' (orders_of split w) ->
                            Order.paymentIntent o' <> Order.paymentIntent o ->
                            tolerated (answer w o') = true) ->
                includes msg "already fully reversed" = true ->
                first_refusal w (orders_of split w) = None)).
  { intros o p charge rest msg Hin Hsp Hp Hst Hch Herr.
    pose proof (answer_refused w o p charge rest msg Hp Hst Hch Herr) as Ha.
    split.
    - intros Hi Hn. specialize (Hnone Hn o (Hof o Hin Hsp)).
      rewrite Ha in Hnone. simpl in Hnone. congruence.
    - intros Hrest Hi. apply Hall. intros o' Hin'.
      destruct (decide (Order.paymentIntent o' = Order.paymentIntent o))
        as [Heq|Hne]; [|auto].
      assert (answer w o' = answer w o) as ->
        by (unfold answer; rewrite Heq; reflexivity).
      rewrite Ha. exact Hi. }
  destruct (first_refusal w (orders_of split w)) as [e|]; simpl.
  - split; [reflexivity|]. split; [reflexivity|].
    split.
    { intros o r Hin Ha. split; [|eapply answer_reverses_fee; eauto].
      apply in_or_app. right. eapply issued_In; eauto. }
    split; [exact Hrefund|].
    split; [split; [discriminate|intros H; apply Hall in H; discriminate]|].
    split.
    { intros o p charge rest msg Hin Hsp Hp Hst Hch Herr.
      destruct (Hmsg o p charge rest msg Hin Hsp Hp Hst Hch Herr) as [_ H2].
      split; [intros _; discriminate|].
      intros Hrest Hi. specialize (H2 Hrest Hi). discriminate. }
    split; [discriminate|]. split; [discriminate|]. reflexivity.
  - split; [reflexivity|]. split; [reflexivity|].
    split.
    { intros o r Hin Ha. split; [|eapply answer_reverses_fee; eauto].
      apply in_or_app. right. eapply issued_In; eauto. }
    split; [exact Hrefund|].
    split; [split; [intros _; apply Hnone; reflexivity|reflexivity]|].
    split.
    { intros o p charge rest msg Hin Hsp Hp Hst Hch Herr.
      destruct (Hmsg o p charge rest msg Hin Hsp Hp Hst Hch Herr) as [H1 _].
      split; [|reflexivity].
      intros Hi. exfalso. apply (H1 Hi). reflexivity. }
    split; [reflexivity|].
    split; [|congruence].
    intros _. split; [|split; [|split]].
    + intros o Hin Hsp. apply Hmark; [exact Hin|].
      unfold OrderDataSource.of_split. apply bool_decide_eq_true_2. exact Hsp.
    + intros o Hin Hsp.
      destruct (Hkeep o Hin) as (o' & Hin' & Hid & Hsp' & _ & _ & _ & Hst').
      { unfold OrderDataSource.of_split. apply bool_decide_eq_true_2. exact Hsp. }
      exists o'. repeat split; try assumption. congruence.
    + intros o Hin Hsp. apply Hother; [exact Hin|].
      unfold OrderDataSource.of_split. apply bool_decide_eq_false_2. exact Hsp.
    + exact Hids.
Qed.

(** The batch on the busy sample: the paid Order is refunded with the
    fee reversed, the refusal of the Order whose transfer is already
    reversed is let pass, and both Orders carry the new status. *)
Lemma bulkCancel_refunds_then_marks_witness :
  (OrderDataSource.bulkCancel 1 (Some OrderStatusType.OWNER_CANCELED)
     (Some MongoSession) Sample.busy_world).1 = Ok tt
  /\ Order.status
       <$> Store.orders
             (World.store
                (OrderDataSource.bulkCancel 1 (Some OrderStatusType.OWNER_CANCELED)
                   (Some MongoSession) Sample.busy_world).2)
     = [OrderStatusType.OWNER_CANCELED; OrderStatusType.OWNER_CANCELED]
  /\ Gateway.refunds
       (World.gateway
          (OrderDataSource.bulkCancel 1 (Some OrderStatusType.OWNER_CANCELED)
             (Some MongoSession) Sample.busy_world).2)
     = [Refund.mk "ch_1" true true]
  /\ Store.splits
       (World.store
          (OrderDataSource.bulkCancel 1 (Some OrderStatusType.OWNER_CANCELED)
             (Some MongoSession) Sample.busy_world).2)
     = {[ 1 := Sample.joined_split ]}.
Proof.
  destruct (bulkCancel_refunds_then_marks 1 (Some OrderStatusType.OWNER_CANCELED)
              Sample.busy_world) as (Hsplits & _ & _ & _ & Hiff & _).
  split; [apply Hiff; intros o [<-|[<-|[]]]; vm_compute; reflexivity|].
  split; [vm_compute; reflexivity|].
  split; [vm_compute; reflexivity|].
  exact Hsplits.
Defined.

(** Without a session [bulkCancel] refuses to run. *)
Lemma bulkCancel_requires_session split status w :
  OrderDataSource.bulkCancel split status None w
  = (Throw (Error "session is required to do bulkCancel"), w).
Proof. reflexivity. Qed.

(** The batch on the busy sample: one refund is made, the reversed one is
    let pass, and both orders carry the new status. *)
Lemma bulkCancel_tolerates_reversed :
  exists w',
    OrderDataSource.bulkCancel 1 (Some OrderStatusType.OWNER_CANCELED)
      (Some MongoSession) Sample.busy_world = (Ok tt, w')
    /\ Gateway.refunds (World.gateway w') = [Refund.mk "ch_1" true true]
    /\ Order.status <$> Store.orders (World.store w')
       = [OrderStatusType.OWNER_CANCELED; OrderStatusType.OWNER_CANCELED].
Proof. eexists. repeat split; vm_compute; reflexivity. Qed.

(** ** C10: the statuses a Split cancellation leaves on the Orders *)

Lemma answer_gateway w w' o :
  World.gateway w = World.gateway w' -> answer w o = answer w' o.
Proof.
  intros Hg.
  unfold answer, StripeService.refund, stripe.paymentIntents_retrieve,
    stripe.refunds_create. run. rewrite <- Hg.
  destruct (Gateway.intents (World.gateway w) !! Order.paymentIntent o) as [p|];
    simpl; [|reflexivity].
  destruct (negb _); simpl; [reflexivity|].
  destruct (PaymentIntent.charges p) as [[|c cs]|]; simpl; try reflexivity.
  rewrite <- Hg.
  destruct (Gateway.refund_errors (World.gateway w) !! c); reflexivity.
Qed.

(** C10.  Whenever [cancel] goes through on a stored Split (every refund
    of the batch granted or tolerated), whatever terminal status it is
    given (CANCELLED by default, EXPIRED from the sweep), every Order of
    that Split ends with the status OWNER_CANCELED, whatever its status
    was before: the batched update matches on the Split alone. *)
Theorem cancel_marks_all_orders_owner_canceled _id reason status w s :
  Store.splits (World.store w) !! _id = Some s ->
  (forall o, In o (orders_of _id w) -> tolerated (answer w o) = true) ->
  exists s' w',
    SplitCancellation.cancel _id reason status w = (Ok s', w')
    /\ Split.status s' = default SplitStatus.CANCELLED status
    /\ Split.status <$> Store.splits (World.store w') !! _id
       = Some (default SplitStatus.CANCELLED status)
    /\ Store.orders (World.store w')
       = OrderDataSource.set_status_where (OrderDataSource.of_split _id)
           OrderStatusType.OWNER_CANCELED (Store.orders (World.store w))
    /\ forall o,
         In o (Store.orders (World.store w')) ->
         Order.split o = _id ->
         Order.status o = OrderStatusType.OWNER_CANCELED.
Proof.
  intros Hs Hok.
  unfold SplitCancellation.cancel, SplitDataSource.get, withTransaction, bind,
    gets. cbv beta iota zeta.
  rewrite Hs, bulkCancel_run. cbv zeta.
  set (w0 := World.mk (World.store w) (Some (World.store w)) (World.gateway w)
               (World.messages w)).
  assert (Hnone : first_refusal w0 (orders_of _id w0) = None).
  { apply first_refusal_None. intros o Hin.
    rewrite <- (answer_gateway w w0 o eq_refl). apply Hok. exact Hin. }
  rewrite Hnone. unfold conversations.makeReadonly, conversations.sendSystemMessage.
  run. eexists _, _. split; [reflexivity|]. simpl.
  rewrite lookup_alter_eq, Hs. simpl.
  repeat split.
  intros o Hin Hsp.
  eapply set_status_where_marks; [exact Hin| |].
  - unfold OrderDataSource.of_split. apply bool_decide_eq_true_2. exact Hsp.
  - reflexivity.
Qed.

(** The sweep's cancellation of the busy sample: the order that was
    CLIENT_CANCELED is OWNER_CANCELED afterwards, like the paid one. *)
Lemma cancel_marks_all_orders_owner_canceled_witness :
  exists s' w',
    SplitCancellation.cancel 1 None (Some SplitStatus.EXPIRED) Sample.busy_world
    = (Ok s', w')
    /\ Split.status s' = SplitStatus.EXPIRED
    /\ Split.status <$> Store.splits (World.store w') !! 1
       = Some SplitStatus.EXPIRED
    /\ Store.orders (World.store w')
       = [Order.with_status OrderStatusType.OWNER_CANCELED Sample.paid_order;
          Order.with_status OrderStatusType.OWNER_CANCELED Sample.left_order]
    /\ forall o,
         In o (Store.orders (World.store w')) ->
         Order.split o = 1 ->
         Order.status o = OrderStatusType.OWNER_CANCELED.
Proof.
  apply (cancel_marks_all_orders_owner_canceled 1 None (Some SplitStatus.EXPIRED)
           Sample.busy_world Sample.joined_split).
  - vm_compute. reflexivity.
  - intros o [<-|[<-|[]]]; vm_compute; reflexivity.
Defined.

(** ** C8: an authorization the provider reports as canceled *)

Lemma find_map_kept {A} (p : A -> bool) (f : A -> A) (l : list A) :
  (forall x, p (f x) = p x) ->
  List.find p (List.map f l) = f <$> List.find p l.
Proof.
  intros Hp. induction l as [|x l IH]; simpl; [reflexivity|].
  rewrite Hp. destruct (p x); [reflexivity|exact IH].
Qed.

Lemma checkMember_after_delete c user :
  conversations.checkMember
    (Conversation.with_participants
       (List.filter (fun p => negb (bool_decide (p.1 = user)))
          (Conversation.participants c)) c) user
  = false.
Proof.
  unfold conversations.checkMember. simpl.
  induction (Conversation.participants c) as [|p ps IH]; simpl; [reflexivity|].
  destruct (bool_decide (p.1 = user)) eqn:E; simpl; [exact IH|].
  rewrite E. exact IH.
Qed.

Lemma exit_run split n client text w s c :
  Store.splits (World.store w) !! split = Some s ->
  Split.numSeats s <> 0%Z ->
  List.find (fun c => bool_decide (Conversation.split c = split))
    (Store.conversations (World.store w)) = Some c ->
  conversations.checkMember c client = true ->
  exists msgs,
    SplitDataSource.exit split n client text w
    = (Ok tt,
       World.mk (after_exit split n client s c (World.store w))
         (World.committed w) (World.gateway w)
         (World.messages w ++ msgs)%list).
Proof.
  intros Hs Hn Hc Hm.
  unfold SplitDataSource.exit, SplitDataSource.get, conversations.findOne,
    bind, gets. cbv beta iota.
  rewrite Hs. rewrite (bool_decide_eq_false_2 _ Hn). rewrite Hc, Hm.
  change (negb true) with false. cbv beta iota.
  destruct (incrementNumSeats_run w split (- n) s Hs) as [msgs ->].
  eexists (msgs ++ [_])%list. rewrite app_assoc. reflexivity.
Qed.




(** ** C9: the amounts of an order *)

Section Amount.

Variable SYSTEM_FEE : float.



(** *** The doubles of whole numbers *)








End Amount.



(** The conversion to cents cuts instead of rounding: at a price of 2.90
    for a single place the fee is 0.29, and [0.29 * 100] is a double just
    below 29, so 28 cents are recorded. *)
Lemma calcAmount_cuts_the_fee :
  OrderDataSource.calcAmount Sample.fee
    (Split.mk 2 10 SplitType.APP "Tea" "" [] 1 0 0 1
       (PrimFloat.div (float_of_Z 29) (float_of_Z 10))
       SplitStatus.ACTIVE None None None) 1
  = Amounts.mk (Some 319%Z) (Some 28%Z)
  /\ claimed_feeAmount 10 (claimed_amount 290 1 1) = 29%Z.
Proof. split; vm_compute; reflexivity. Qed.

(** The amount is cut in the same way: for one of three places at a
    price of 100, base and fee are 33.33 and 3.33, their sum times 100
    is a double just below 3666, and 3665 cents are recorded. *)
Lemma calcAmount_cuts_the_amount :
  OrderDataSource.calcAmount Sample.fee Scenario.thirds_split 1
  = Amounts.mk (Some 3665%Z) (Some 333%Z).
Proof. vm_compute. reflexivity. Qed.

(** Beyond [1e21] the numbers are written in exponent notation and
    [parseInt] reads the first digit only: at a price of [1e22] for a
    single place, the products are [1.1e+24] and [1e+23], and 1 and 1
    are recorded. *)
Lemma calcAmount_reads_the_first_digit :
  OrderDataSource.calcAmount Sample.fee
    (Split.mk 2 10 SplitType.APP "Tea" "" [] 1 0 0 1 0x1.0f0cf064dd592p+73%float
       SplitStatus.ACTIVE None None None) 1
  = Amounts.mk (Some 1%Z) (Some 1%Z).
Proof. vm_compute. reflexivity. Qed.

(** * Further properties of the data sources *)

Lemma sample_world_balanced : all_balanced Sample.world.
Proof.
  intros j s H. unfold Sample.world, Sample.store in H. simpl in H.
  apply lookup_singleton_Some in H as [_ <-]. reflexivity.
Qed.

(** ** The seat equation, on the sample *)

Lemma create_preserves_balance_witness :
  all_balanced
    (SplitDataSource.create (Context.mk 10 UserRole.USER) Scenario.split_input
       Sample.world).2.
Proof.
  apply (create_preserves_balance (Context.mk 10 UserRole.USER)
           Scenario.split_input Sample.world).
  exact sample_world_balanced.
Defined.

Lemma incrementNumSeats_preserves_balance_witness :
  all_balanced (SplitDataSource.incrementNumSeats 1 3 Sample.world).2.
Proof.
  apply (incrementNumSeats_preserves_balance Sample.world 1 3).
  exact sample_world_balanced.
Defined.

Lemma update_preserves_balance_nonzero_witness :
  all_balanced
    (SplitDataSource.update Sample.toFormat (Context.mk 10 UserRole.USER) 1
       Scenario.split_input Sample.world).2.
Proof.
  apply (update_preserves_balance_nonzero Sample.toFormat
           (Context.mk 10 UserRole.USER) 1 Scenario.split_input Sample.world).
  - left. vm_compute. discriminate.
  - exact sample_world_balanced.
Defined.

(** ** Creating a Split *)

(** X1.  A createSplit that asks for fewer seats than places, by a user
    whose payment account accepts charges, answers the success envelope
    with the new Split: it is stored under a fresh id, belongs to the
    caller, is ACTIVE, carries the requested capacity with the owner's
    seats counted as taken, has [placesLeft = numPlaces - numSeats > 0],
    and is linked to a conversation created for it; Orders and the
    provider are untouched. *)
Theorem createSplit_stores_active_split ctx split w u :
  (SplitInput.numSeats split < SplitInput.numPlaces split)%Z ->
  Store.users (World.store w) !! Context._id ctx = Some u ->
  Gateway.charges_enabled (World.gateway w) !! User.stripeAccountId u = Some true ->
  exists s c w',
    SplitDataSource.create ctx split w
      = (Ok (SplitResponse.mk 200 true None (Some s)), w')
    /\ Store.splits (World.store w') !! Split._id s = Some s
    /\ Split._id s = Store.next_id (World.store w)
    /\ Split.user s = Context._id ctx
    /\ Split.status s = SplitStatus.ACTIVE
    /\ Split.numPlaces s = SplitInput.numPlaces split
    /\ Split.numSeats s = SplitInput.numSeats split
    /\ Split.ownerSeats s = SplitInput.numSeats split
    /\ Split.placesLeft s
       = (SplitInput.numPlaces split - SplitInput.numSeats split)%Z
    /\ (0 < Split.placesLeft s)%Z
    /\ In c (Store.conversations (World.store w'))
    /\ Conversation.split c = Split._id s
    /\ Split.conversation s = Some (Conversation._id c)
    /\ Store.orders (World.store w') = Store.orders (World.store w)
    /\ World.gateway w' = World.gateway w.
Proof.
  intros Hlt Hu Hc. unfold SplitDataSource.create, SplitDataSource.create_body. run.
  destruct (Z.leb_spec (SplitInput.numPlaces split) (SplitInput.numSeats split));
    [lia|].
  unfold SplitDataSource.users_get. run. rewrite Hu.
  unfold StripeService.chargesEnabled, stripe.accounts_retrieve. run.
  rewrite Hc. simpl.
  rewrite lookup_alter_eq, lookup_insert_eq. simpl.
  eexists _, (Conversation.mk (S (Store.next_id (World.store w)))
                (Store.next_id (World.store w)) []), _.
  split; [reflexivity|]. simpl.
  rewrite lookup_alter_eq, lookup_insert_eq. simpl.
  rewrite !or0_id.
  repeat split; try reflexivity; try lia.
  apply in_or_app. right. left. reflexivity.
Qed.

Lemma createSplit_stores_active_split_witness :
  exists s w',
    SplitDataSource.create (Context.mk 10 UserRole.USER) Scenario.split_input
      Sample.world
    = (Ok (SplitResponse.mk 200 true None (Some s)), w')
    /\ Store.splits (World.store w') !! 1000 = Some s
    /\ Split.status s = SplitStatus.ACTIVE
    /\ Split.placesLeft s = 3%Z.
Proof.
  destruct (createSplit_stores_active_split (Context.mk 10 UserRole.USER)
              Scenario.split_input Sample.world Sample.owner)
    as (s & c & w' & Hrun & Hst & Hid & _ & Hact & _ & _ & _ & Hpl & _);
    try (vm_compute; reflexivity).
  exists s, w'. rewrite Hid in Hst. auto.
Defined.

(** X2.  createSplit refuses, with the failure envelope and without any
    change to the world, an input whose [numSeats] reaches [numPlaces],
    and a caller whose payment account does not accept charges yet. *)
Theorem createSplit_rejections ctx split w :
  ((SplitInput.numPlaces split <= SplitInput.numSeats split)%Z ->
   SplitDataSource.create ctx split w
   = (Ok (SplitResponse.mk 501 false
            (Some "NumSeats can't be bigger than numPlaces") None), w))
  /\ (forall u,
        (SplitInput.numSeats split < SplitInput.numPlaces split)%Z ->
        Store.users (World.store w) !! Context._id ctx = Some u ->
        Gateway.charges_enabled (World.gateway w) !! User.stripeAccountId u
          = Some false ->
        SplitDataSource.create ctx split w
        = (Ok (SplitResponse.mk 501 false
                 (Some "This user is not eligible for payments yet. Use the onboarding link to enable this functionality")
                 None), w)).
Proof.
  split.
  - intros Hle. unfold SplitDataSource.create, SplitDataSource.create_body. run.
    destruct (Z.leb_spec (SplitInput.numPlaces split) (SplitInput.numSeats split));
      [reflexivity|lia].
  - intros u Hlt Hu Hc.
    unfold SplitDataSource.create, SplitDataSource.create_body. run.
    destruct (Z.leb_spec (SplitInput.numPlaces split) (SplitInput.numSeats split));
      [lia|].
    unfold SplitDataSource.users_get. run. rewrite Hu.
    unfold StripeService.chargesEnabled, stripe.accounts_retrieve. run.
    rewrite Hc. reflexivity.
Qed.

Lemma createSplit_rejections_witness :
  SplitDataSource.create (Context.mk 10 UserRole.USER) Scenario.full_input
    Sample.world
  = (Ok (SplitResponse.mk 501 false
           (Some "NumSeats can't be bigger than numPlaces") None),
     Sample.world).
Proof.
  apply (createSplit_rejections (Context.mk 10 UserRole.USER)
           Scenario.full_input Sample.world).
  vm_compute. discriminate.
Defined.

(** ** Reserving and releasing seats *)

Lemma settle_round_trip d s :
  settle s = s ->
  settle (Split.inc_seats (- d) (settle (Split.inc_seats d s))) = s.
Proof.
  destruct s as [i u ty ti de me np ns os pl pr st cr ex co].
  unfold settle, Split.inc_seats, Split.with_status. simpl.
  intros Hs.
  assert (Hpl : (pl - d - - d = pl)%Z) by lia.
  assert (Hns : (ns + d + - d = ns)%Z) by lia.
  destruct st; simpl in *;
    repeat match goal with
    | |- context [(?a <=? ?b)%Z] => destruct (Z.leb_spec a b)
    | |- context [(?a <? ?b)%Z] => destruct (Z.ltb_spec a b)
    | H : context [(?a <=? ?b)%Z] |- _ => destruct (Z.leb_spec a b)
    | H : context [(?a <? ?b)%Z] |- _ => destruct (Z.ltb_spec a b)
    end; simpl in *; try discriminate; try lia;
    rewrite ?Hpl, ?Hns; try reflexivity.
Qed.

(** X4.  On a stored Split whose status agrees with its counters,
    taking [d] seats and giving [d] seats back returns the Split as it
    was and leaves the collections and the provider as they were. *)
Theorem reserve_then_release_restores w _id d s :
  Store.splits (World.store w) !! _id = Some s ->
  settle s = s ->
  exists s1 w1 w2,
    SplitDataSource.incrementNumSeats _id d w = (Ok s1, w1)
    /\ SplitDataSource.incrementNumSeats _id (- d) w1 = (Ok s, w2)
    /\ World.store w2 = World.store w
    /\ World.gateway w2 = World.gateway w.
Proof.
  intros Hs Hsettled.
  destruct (incrementNumSeats_run w _id d s Hs) as [m1 H1].
  destruct (incrementNumSeats_run
              (World.mk
                 (Store.with_splits (insert _id (settle (Split.inc_seats d s)))
                    (World.store w))
                 (World.committed w) (World.gateway w)
                 (World.messages w ++ m1)%list)
              _id (- d) (settle (Split.inc_seats d s))) as [m2 H2].
  { project. apply lookup_insert_eq. }
  rewrite settle_round_trip in H2 by exact Hsettled.
  eexists _, _, _. split; [exact H1|]. split; [exact H2|]. project.
  split; [|reflexivity].
  destruct (World.store w) as [sp os cs us n] eqn:E. unfold Store.with_splits.
  simpl in *. rewrite insert_insert_eq, insert_id by exact Hs. reflexivity.
Qed.

Lemma reserve_then_release_restores_witness :
  exists s1 w1 w2,
    SplitDataSource.incrementNumSeats 1 3 Sample.world = (Ok s1, w1)
    /\ SplitDataSource.incrementNumSeats 1 (- 3) w1 = (Ok Sample.split, w2)
    /\ World.store w2 = Sample.store
    /\ World.gateway w2 = Sample.no_gateway.
Proof.
  apply (reserve_then_release_restores Sample.world 1 3 Sample.split);
    vm_compute; reflexivity.
Defined.

(** X6.  join throws, and changes nothing, when the Split has no
    conversation and when the client already is a member of it: no
    seat is taken in either case. *)
Theorem join_rejections split n client role w :
  (List.find (fun c => bool_decide (Conversation.split c = split))
     (Store.conversations (World.store w)) = None ->
   SplitDataSource.join split n client role w
   = (Throw (Error "Conversation not found"), w))
  /\ (forall c,
        List.find (fun c => bool_decide (Conversation.split c = split))
          (Store.conversations (World.store w)) = Some c ->
        conversations.checkMember c (User._id client) = true ->
        SplitDataSource.join split n client role w
        = (Throw (Error "The Client is already a Conversation Member"), w)).
Proof.
  unfold SplitDataSource.join, conversations.findOne, bind, gets.
  split.
  - intros ->. reflexivity.
  - intros c -> ->. reflexivity.
Qed.

Lemma join_rejections_witness :
  SplitDataSource.join 1 1 Sample.client Role.full Sample.joined_world
  = (Throw (Error "The Client is already a Conversation Member"),
     Sample.joined_world).
Proof.
  apply (join_rejections 1 1 Sample.client Role.full Sample.joined_world)
    with (c := Sample.joined_room); vm_compute; reflexivity.
Defined.

(** X7.  exit throws, and changes nothing, on an unknown Split, on a
    Split with no seat taken, on a Split without conversation, and for a
    client who is not a member of the conversation. *)
Theorem exit_rejections split n client text w :
  (Store.splits (World.store w) !! split = None ->
   exists e, SplitDataSource.exit split n client text w = (Throw e, w))
  /\ (forall s,
        Store.splits (World.store w) !! split = Some s ->
        (Split.numSeats s = 0%Z ->
         SplitDataSource.exit split n client text w
         = (Throw (Error "Split has no seats taken. Who's supposed to exit and why did this happen?"), w))
        /\ (Split.numSeats s <> 0%Z ->
            List.find (fun c => bool_decide (Conversation.split c = split))
              (Store.conversations (World.store w)) = None ->
            SplitDataSource.exit split n client text w
            = (Throw (Error "Conversation not found"), w))
        /\ (forall c,
              Split.numSeats s <> 0%Z ->
              List.find (fun c => bool_decide (Conversation.split c = split))
                (Store.conversations (World.store w)) = Some c ->
              conversations.checkMember c client = false ->
              SplitDataSource.exit split n client text w
              = (Throw (Error "The Client is not a Conversation Member"), w))).
Proof.
  unfold SplitDataSource.exit, SplitDataSource.get, conversations.findOne,
    bind, gets.
  split.
  - intros ->. eexists. reflexivity.
  - intros s ->. cbv beta iota. split; [|split].
    + intros ->. reflexivity.
    + intros Hn Hc. rewrite (bool_decide_eq_false_2 _ Hn). cbv beta iota.
      rewrite Hc. reflexivity.
    + intros c Hn Hc Hm. rewrite (bool_decide_eq_false_2 _ Hn). cbv beta iota.
      rewrite Hc, Hm. reflexivity.
Qed.

Lemma exit_rejections_witness :
  SplitDataSource.exit 1 1 30 "left" Sample.joined_world
  = (Throw (Error "The Client is not a Conversation Member"),
     Sample.joined_world).
Proof.
  apply (exit_rejections 1 1 30 "left" Sample.joined_world)
    with (s := Sample.joined_split) (c := Sample.joined_room);
    try (vm_compute; reflexivity).
  vm_compute. discriminate.
Defined.

Lemma join_run split n client role w s c :
  Store.splits (World.store w) !! split = Some s ->
  List.find (fun c => bool_decide (Conversation.split c = split))
    (Store.conversations (World.store w)) = Some c ->
  conversations.checkMember c (User._id client) = false ->
  exists msgs,
    SplitDataSource.join split n client role w
    = (Ok tt,
       World.mk (after_join split n (User._id client) role s c (World.store w))
         (World.committed w) (World.gateway w)
         (World.messages w ++ msgs)%list)
    /\ exists text,
         last msgs = Some (SystemMessage.mk (Some (Conversation._id c)) text
                             SplitRoomMessageTypes.CLIENT_JOINED).
Proof.
  intros Hs Hc Hm.
  unfold SplitDataSource.join, conversations.findOne, bind, gets.
  cbv beta iota. rewrite Hc, Hm. cbv beta iota.
  destruct (incrementNumSeats_run w split n s Hs) as [msgs ->].
  eexists (msgs ++ [_])%list. rewrite app_assoc. split; [reflexivity|].
  eexists. rewrite last_snoc. reflexivity.
Qed.

Lemma checkMember_after_join c user role :
  conversations.checkMember
    (Conversation.with_participants
       (Conversation.participants c ++ [(user, role)])%list c) user = true.
Proof.
  unfold conversations.checkMember. simpl. rewrite existsb_app. simpl.
  rewrite bool_decide_eq_true_2 by reflexivity. rewrite orb_true_r.
  reflexivity.
Qed.

Lemma filter_out_absent (user : ObjectID) (ps : list (ObjectID * Role.t)) :
  existsb (fun p => bool_decide (p.1 = user)) ps = false ->
  List.filter (fun p => negb (bool_decide (p.1 = user))) ps = ps.
Proof.
  induction ps as [|p ps IH]; simpl; [reflexivity|].
  destruct (bool_decide (p.1 = user)); simpl; [discriminate|].
  intros H. rewrite IH by exact H. reflexivity.
Qed.

Lemma find_unique_id cs c x split :
  NoDup (List.map Conversation._id cs) ->
  List.find (fun c => bool_decide (Conversation.split c = split)) cs = Some c ->
  In x cs -> Conversation._id x = Conversation._id c -> x = c.
Proof.
  intros Hnd Hf Hx Hid. apply find_some in Hf as [Hc _].
  induction cs as [|y cs IH]; [destruct Hx|].
  simpl in Hnd. apply NoDup_cons in Hnd as [Hy Hnd].
  destruct Hx as [<-|Hx], Hc as [<-|Hc]; try reflexivity.
  - exfalso. apply Hy. rewrite Hid. apply list_elem_of_In, in_map. exact Hc.
  - exfalso. apply Hy. rewrite <- Hid. apply list_elem_of_In, in_map. exact Hx.
  - apply IH; assumption.
Qed.

(** X8.  For a client who is not yet a member of the Split's
    conversation, on a Split whose status agrees with its counters and
    that has a seat taken once the client has joined, a join followed
    by the exit of the same client with the same seat count restores
    the collections: the counters and the status of the Split and the
    membership of the conversation are as before (the system messages
    of both steps stay posted).  Conversation ids are unique. *)
Theorem join_then_exit_restores split n client role text w s c :
  Store.splits (World.store w) !! split = Some s ->
  settle s = s ->
  (Split.numSeats s + n <> 0)%Z ->
  NoDup (List.map Conversation._id (Store.conversations (World.store w))) ->
  List.find (fun c => bool_decide (Conversation.split c = split))
    (Store.conversations (World.store w)) = Some c ->
  conversations.checkMember c (User._id client) = false ->
  exists w1 w2,
    SplitDataSource.join split n client role w = (Ok tt, w1)
    /\ SplitDataSource.exit split n (User._id client) text w1 = (Ok tt, w2)
    /\ World.store w2 = World.store w
    /\ World.gateway w2 = World.gateway w.
Proof.
  intros Hs Hsettled Hn Hnd Hc Hm.
  destruct (join_run split n client role w s c Hs Hc Hm) as (m1 & H1 & _).
  set (c1 := Conversation.with_participants
               (Conversation.participants c ++ [(User._id client, role)])%list c).
  destruct (exit_run split n (User._id client) text
              (World.mk
                 (after_join split n (User._id client) role s c (World.store w))
                 (World.committed w) (World.gateway w)
                 (World.messages w ++ m1)%list)
              (settle (Split.inc_seats n s)) c1) as [m2 H2].
  - project. unfold after_join. project. apply lookup_insert_eq.
  - destruct (settle_counters (Split.inc_seats n s)) as (-> & _). simpl. exact Hn.
  - project. unfold after_join. project.
    unfold conversations.update_where. rewrite find_map_kept.
    + rewrite Hc. simpl. unfold conversations.has_id.
      rewrite bool_decide_eq_true_2 by reflexivity. reflexivity.
    + intros x. destruct (conversations.has_id (Conversation._id c) x); reflexivity.
  - apply checkMember_after_join.
  - eexists _, _. split; [exact H1|].
    split; [exact H2|]. project. split; [|reflexivity].
    unfold after_exit, after_join.
    rewrite settle_round_trip by exact Hsettled.
    destruct (World.store w) as [sp os cs us nx] eqn:E.
    unfold Store.with_conversations, Store.with_splits. simpl in *.
    rewrite insert_insert_eq, insert_id by exact Hs. f_equal.
    unfold conversations.update_where. rewrite map_map.
    rewrite <- (map_id cs) at 2. apply map_ext_in. intros x Hx.
    unfold conversations.has_id.
    destruct (bool_decide (Conversation._id x = Conversation._id c)) eqn:E1.
    + simpl. rewrite E1.
      apply bool_decide_eq_true in E1.
      assert (x = c) as -> by (eapply find_unique_id; eauto).
      unfold Conversation.with_participants. simpl.
      rewrite List.filter_app. simpl.
      rewrite bool_decide_eq_true_2 by reflexivity. simpl.
      rewrite app_nil_r, filter_out_absent by exact Hm.
      destruct c; reflexivity.
    + rewrite E1. reflexivity.
Qed.

Lemma join_then_exit_restores_witness :
  exists w1 w2,
    SplitDataSource.join 1 1 Sample.client Role.full Sample.world = (Ok tt, w1)
    /\ SplitDataSource.exit 1 1 20 "left" w1 = (Ok tt, w2)
    /\ World.store w2 = Sample.store
    /\ World.gateway w2 = Sample.no_gateway.
Proof.
  apply (join_then_exit_restores 1 1 Sample.client Role.full "left"
           Sample.world Sample.split Sample.room);
    try (vm_compute; reflexivity).
  - vm_compute. discriminate.
  - simpl. apply NoDup_cons. split; [apply not_elem_of_nil|apply NoDup_nil_2].
Defined.

(** X9.  On a stored Split that satisfies the seat equation,
    updateNumSeats overwrites [numSeats] and nothing else: [placesLeft],
    [numPlaces] and the status keep their values, so the equation
    survives only when the new value is the old one. *)
Theorem updateNumSeats_moves_numSeats_alone w _id n s :
  Store.splits (World.store w) !! _id = Some s ->
  seats_balanced s ->
  exists s' w',
    SplitDataSource.updateNumSeats _id n w = (Ok tt, w')
    /\ Store.splits (World.store w') !! _id = Some s'
    /\ Split.numSeats s' = n
    /\ Split.placesLeft s' = Split.placesLeft s
    /\ Split.numPlaces s' = Split.numPlaces s
    /\ Split.status s' = Split.status s
    /\ (seats_balanced s' <-> n = Split.numSeats s).
Proof.
  intros Hs Hb. unfold SplitDataSource.updateNumSeats, write.
  eexists _, _. split; [reflexivity|]. project.
  rewrite lookup_alter_eq, Hs. simpl. split; [reflexivity|].
  repeat split; unfold seats_balanced in *; simpl in *; lia.
Qed.

Lemma updateNumSeats_moves_numSeats_alone_witness :
  exists s' w',
    SplitDataSource.updateNumSeats 1 2 Sample.world = (Ok tt, w')
    /\ Store.splits (World.store w') !! 1 = Some s'
    /\ Split.numSeats s' = 2%Z
    /\ Split.placesLeft s' = 3%Z
    /\ ~ seats_balanced s'.
Proof.
  destruct (updateNumSeats_moves_numSeats_alone Sample.world 1 2 Sample.split)
    as (s' & w' & Hrun & Hs & Hn & Hpl & _ & _ & Hb);
    try (vm_compute; reflexivity).
  exists s', w'. repeat split; auto.
  intros H. apply Hb in H. discriminate H.
Defined.

(** X11.  deleteAll empties the Split collection for an authenticated
    administrator, leaving Orders and conversations in place, and
    throws for everyone else without touching anything. *)
Theorem deleteAll_admin_only ctx unauthenticated w :
  (Context.role ctx = UserRole.ADMIN -> unauthenticated = false ->
   exists w',
     SplitDataSource.deleteAll ctx unauthenticated w = (Ok true, w')
     /\ Store.splits (World.store w') = ∅
     /\ Store.orders (World.store w') = Store.orders (World.store w)
     /\ Store.conversations (World.store w')
        = Store.conversations (World.store w))
  /\ (Context.role ctx <> UserRole.ADMIN \/ unauthenticated = true ->
      SplitDataSource.deleteAll ctx unauthenticated w
      = (Throw (Error "You don' have role to this operator"), w)).
Proof.
  unfold SplitDataSource.deleteAll. split.
  - intros -> ->. simpl. eexists. split; [reflexivity|]. auto.
  - intros [Hr| ->].
    + rewrite (bool_decide_eq_false_2 _ Hr). reflexivity.
    + rewrite andb_false_r. reflexivity.
Qed.

Lemma deleteAll_admin_only_witness :
  SplitDataSource.deleteAll (Context.mk 10 UserRole.USER) false
    Sample.joined_world
  = (Throw (Error "You don' have role to this operator"), Sample.joined_world).
Proof.
  apply (deleteAll_admin_only (Context.mk 10 UserRole.USER) false
           Sample.joined_world).
  left. discriminate.
Defined.

(** ** Expiration notices *)

Section Notices.

Variable plus_days : Z -> DateTime -> DateTime.

Lemma start_all_notices text l w :
  SplitDataSource.start_all
    (List.map (SplitDataSource.expiration_notice text) l) w
  = (Ok tt,
     World.mk (World.store w) (World.committed w) (World.gateway w)
       (World.messages w
        ++ List.map (fun s => SystemMessage.mk (Split.conversation s) text
                                SplitRoomMessageTypes.EXPIRATION_NOTICE) l)%list).
Proof.
  revert w. induction l as [|s l IH]; intros w; simpl.
  - rewrite app_nil_r. destruct w; reflexivity.
  - unfold bind, attempt, SplitDataSource.expiration_notice,
      conversations.sendSystemMessage. cbv beta iota.
    rewrite IH. project. rewrite <- app_assoc. reflexivity.
Qed.

Lemma no_final_notice now s :
  (now <= plus_days 1 now)%Z ->
  SplitDataSource.notice_due (plus_days 1 now) now s = false.
Proof.
  intros H. unfold SplitDataSource.notice_due.
  destruct (Split.expirationDate s) as [d|]; [|reflexivity].
  destruct (Z.ltb_spec (plus_days 1 now) d); [|reflexivity].
  destruct (Z.leb_spec d now); [lia|reflexivity].
Qed.

(** X12.  With a clock read once and a day that does not go backwards,
    expireNotifications posts the five-day notice to exactly the stored
    Splits that expire in more than four and at most five days and are
    not CANCELLED, COMPLETE or EXPIRED, and posts nothing else: the
    window of the one-day notice, after tomorrow and up to now, is
    empty.  A dry run posts nothing. *)
Theorem expireNotifications_sends_only_the_five_day_notice now w :
  (now <= plus_days 1 now)%Z ->
  let due :=
    List.filter
      (SplitDataSource.notice_due (plus_days 4 now) (plus_days 5 now))
      (List.map snd (map_to_list (Store.splits (World.store w)))) in
  SplitDataSource.expireNotifications plus_days now false w
  = (Ok tt,
     World.mk (World.store w) (World.committed w) (World.gateway w)
       (World.messages w
        ++ List.map
             (fun s => SystemMessage.mk (Split.conversation s)
                         "This Split will exjoinepire in 5 days if not filled"
                         SplitRoomMessageTypes.EXPIRATION_NOTICE) due)%list)
  /\ SplitDataSource.expireNotifications plus_days now true w = (Ok tt, w)
  /\ forall s,
       In s due
       <-> (exists _id, Store.splits (World.store w) !! _id = Some s)
           /\ (exists d, Split.expirationDate s = Some d
                         /\ (plus_days 4 now < d <= plus_days 5 now)%Z)
           /\ Split.status s <> SplitStatus.CANCELLED
           /\ Split.status s <> SplitStatus.COMPLETE
           /\ Split.status s <> SplitStatus.EXPIRED.
Proof.
  intros Hday. cbv zeta.
  assert (Hnone : forall l,
            List.filter (SplitDataSource.notice_due (plus_days 1 now) now) l = []).
  { induction l as [|x l IH]; simpl; [reflexivity|].
    rewrite no_final_notice by exact Hday. exact IH. }
  split; [|split].
  - unfold SplitDataSource.expireNotifications, SplitDataSource.find_due,
      attempt, bind, gets. cbv beta iota zeta.
    rewrite start_all_notices. project. rewrite Hnone. reflexivity.
  - reflexivity.
  - intros s. rewrite filter_In, in_map_iff. split.
    + intros [[[j x] [<- Hin]] Hd]. simpl in *.
      apply list_elem_of_In, elem_of_map_to_list in Hin.
      split; [eauto|]. unfold SplitDataSource.notice_due in Hd.
      apply andb_true_iff in Hd as [Hd Hst].
      destruct (Split.expirationDate x) as [d|]; [|discriminate].
      apply andb_true_iff in Hd as [H1 H2].
      split; [exists d; split; [reflexivity|lia]|].
      destruct (Split.status x); simpl in Hst; try discriminate;
        repeat split; discriminate.
    + intros [[j Hj] [[d [Hd Hr]] (H1 & H2 & H3)]]. split.
      * exists (j, s). split; [reflexivity|].
        apply list_elem_of_In, elem_of_map_to_list. exact Hj.
      * unfold SplitDataSource.notice_due. rewrite Hd.
        destruct (Z.ltb_spec (plus_days 4 now) d); [|lia].
        destruct (Z.leb_spec d (plus_days 5 now)); [|lia].
        destruct (Split.status s); simpl; try reflexivity; congruence.
Qed.

End Notices.

Lemma expireNotifications_sends_only_the_five_day_notice_witness :
  SplitDataSource.expireNotifications Scenario.plus_days 0 false
    Scenario.notice_world
  = (Ok tt,
     World.mk (World.store Scenario.notice_world) None Sample.no_gateway
       [SystemMessage.mk (Some 100)
          "This Split will exjoinepire in 5 days if not filled"
          SplitRoomMessageTypes.EXPIRATION_NOTICE]).
Proof.
  destruct (expireNotifications_sends_only_the_five_day_notice
              Scenario.plus_days 0 Scenario.notice_world) as [H _].
  - vm_compute. discriminate.
  - rewrite H. vm_compute. reflexivity.
Defined.

(** ** Cancelling a Split *)

Lemma may_cancel_guard ctx s :
  may_cancel ctx s ->
  negb (bool_decide (Split.user s = Context._id ctx))
  && negb (bool_decide (Context.role ctx = UserRole.ADMIN)) = false.
Proof.
  intros [H|H]; rewrite (bool_decide_eq_true_2 _ H); simpl;
    [reflexivity|apply andb_false_r].
Qed.



(** X15.  When the provider refuses one of the refunds with an error
    that is not let pass, cancelAction answers the failure envelope with
    the provider's message; the collections are as before and no
    message is posted, while the refunds that the provider did grant
    stay made. *)
Theorem cancelAction_refused_refund_keeps_the_split ctx _id reason w s e :
  Store.splits (World.store w) !! _id = Some s ->
  SplitCancellation.terminal (Split.status s) = false ->
  may_cancel ctx s ->
  first_refusal w (orders_of _id w) = Some e ->
  exists w',
    SplitCancellation.cancelAction ctx _id reason w
    = (Ok (SplitResponse.mk 501 false (Some (message e)) None), w')
    /\ World.store w' = World.store w
    /\ World.messages w' = World.messages w
    /\ World.gateway w'
       = World.gateway (push_refunds (issued w (orders_of _id w)) w).
Proof.
  intros Hs Hterm Hmay Hno.
  unfold SplitCancellation.cancelAction, SplitCancellation.cancelAction_body,
    attempt, bind, SplitDataSource.get, gets. cbv beta iota.
  rewrite Hs. cbv beta iota. rewrite Hterm, (may_cancel_guard _ _ Hmay).
  cbv beta iota.
  unfold SplitCancellation.cancel, SplitDataSource.get, withTransaction, bind,
    gets. cbv beta iota zeta.
  rewrite Hs, bulkCancel_run. cbv zeta.
  set (w0 := World.mk (World.store w) (Some (World.store w)) (World.gateway w)
               (World.messages w)).
  assert (Hfr : first_refusal w0 (orders_of _id w0) = Some e).
  { rewrite <- Hno. unfold orders_of. simpl.
    generalize (List.filter (OrderDataSource.of_split _id)
                  (Store.orders (World.store w))).
    intros os. induction os as [|o os IH]; simpl; [reflexivity|].
    rewrite (answer_gateway w0 w o eq_refl), IH. reflexivity. }
  rewrite Hfr.
  assert (Hiss : issued w0 (orders_of _id w0) = issued w (orders_of _id w)).
  { unfold issued. apply flat_map_ext. intros o.
    rewrite (answer_gateway w0 w o eq_refl). reflexivity. }
  rewrite Hiss.
  run. eexists. split; [reflexivity|]. simpl. repeat split.
Qed.

Lemma cancelAction_refused_refund_keeps_the_split_witness :
  exists w',
    SplitCancellation.cancelAction (Context.mk 10 UserRole.USER) 2 None
      Sample.two_world
    = (Ok (SplitResponse.mk 501 false
             (Some "paymentIntent is not successful") None), w')
    /\ World.store w' = World.store Sample.two_world
    /\ World.messages w' = []
    /\ Gateway.refunds (World.gateway w') = [].
Proof.
  destruct (cancelAction_refused_refund_keeps_the_split
              (Context.mk 10 UserRole.USER) 2 None Sample.two_world
              Sample.second_split (Error "paymentIntent is not successful"))
    as (w' & Hrun & Hst & Hm & Hg).
  - vm_compute. reflexivity.
  - vm_compute. reflexivity.
  - left. reflexivity.
  - vm_compute. reflexivity.
  - exists w'. split; [exact Hrun|]. rewrite Hst, Hm, Hg.
    repeat split; vm_compute; reflexivity.
Defined.

(** ** Refunds *)

(** X16.  StripeService.refund either throws and changes nothing, or
    returns a refund of the first charge of an authorization that has
    succeeded, with the transfer reversed and the fee flag as given, and
    records that one refund with the provider. *)
Theorem refund_outcome piid flag w :
  match StripeService.refund piid flag w with
  | (Ok r, w') =>
      exists p c cs,
        Gateway.intents (World.gateway w) !! piid = Some p
        /\ PaymentIntent.status p = "succeeded"
        /\ PaymentIntent.charges p = Some (c :: cs)
        /\ Gateway.refund_errors (World.gateway w) !! c = None
        /\ r = Refund.mk c true flag
        /\ w' = push_refunds [r] w
  | (Throw e, w') => w' = w
  end.
Proof.
  unfold StripeService.refund, stripe.paymentIntents_retrieve,
    stripe.refunds_create. run.
  destruct (Gateway.intents (World.gateway w) !! piid) as [p|] eqn:Hp; simpl;
    [|reflexivity].
  destruct (bool_decide (PaymentIntent.status p = StripePaymentStatusType.SUCCESS))
    eqn:Hst; simpl; [|reflexivity].
  apply bool_decide_eq_true in Hst.
  destruct (PaymentIntent.charges p) as [[|c cs]|] eqn:Hch; simpl;
    try reflexivity.
  destruct (Gateway.refund_errors (World.gateway w) !! c) eqn:He; simpl;
    [reflexivity|].
  exists p, c, cs. repeat split; auto.
Qed.

Lemma refund_reads_the_gateway piid flag w1 w2 :
  World.gateway w1 = World.gateway w2 ->
  (StripeService.refund piid flag w1).1 = (StripeService.refund piid flag w2).1.
Proof.
  intros Hg.
  unfold StripeService.refund, stripe.paymentIntents_retrieve,
    stripe.refunds_create, bind, gets, write_gateway, ret.
  cbv beta iota. rewrite Hg.
  destruct (Gateway.intents (World.gateway w2) !! piid) as [p|];
    [|reflexivity].
  cbv beta iota. destruct (negb _); [reflexivity|].
  destruct (PaymentIntent.charges p) as [[|ch rest]|]; try reflexivity.
  cbv beta iota. rewrite Hg. simpl.
  destruct (Gateway.refund_errors (World.gateway w2) !! ch); reflexivity.
Qed.

Lemma refund_refused piid flag w e :
  (StripeService.refund piid flag w).1 = Throw e ->
  StripeService.refund piid flag w = (Throw e, w).
Proof.
  intros H. rewrite refund_run, H. rewrite push_refunds_nil. reflexivity.
Qed.

(** ** Creating an Order *)

Section OrderCreation.

Variable SYSTEM_FEE : float.

(** X17.  A createOrder that passes the checks (no earlier Order of
    the caller on the Split or on the authorization, an authorization
    the provider knows, enough places left, client and owner on record,
    a conversation the client is not yet a member of) appends one Order
    for the caller on the Split, with the status that the
    authorization's state maps to (PAYMENT_PENDING when it maps to
    none); the seats are taken, [placesLeft] stays non-negative, and
    the client joins the conversation, as a full member exactly when
    the authorization has succeeded.  The provider's state is not
    changed. *)
Theorem createOrder_reserves_and_joins ctx order w p s client owner c :
  List.find (OrderDataSource.existing ctx order) (Store.orders (World.store w))
    = None ->
  Gateway.intents (World.gateway w) !! OrderInput.paymentIntent order = Some p ->
  Store.splits (World.store w) !! OrderInput.split order = Some s ->
  (OrderInput.numSeats order <= Split.placesLeft s)%Z ->
  Store.users (World.store w) !! Context._id ctx = Some client ->
  Store.users (World.store w) !! Split.user s = Some owner ->
  List.find (fun c => bool_decide (Conversation.split c = OrderInput.split order))
    (Store.conversations (World.store w)) = Some c ->
  conversations.checkMember c (User._id client) = false ->
  exists o c' s' w',
    OrderDataSource.create SYSTEM_FEE ctx order w
    = (Ok (OrderResponse.mk 200 true None (Some o) (Some c') None), w')
    /\ Store.orders (World.store w') = (Store.orders (World.store w) ++ [o])%list
    /\ Order.status o
       = (if bool_decide (PaymentIntent.status p = "succeeded")
          then OrderStatusType.PAID
          else if bool_decide (PaymentIntent.status p = "canceled")
          then OrderStatusType.SYSTEM_CANCELED
          else if bool_decide (PaymentIntent.status p = "payment_failed")
          then OrderStatusType.PAYMENT_FAILED
          else OrderStatusType.PAYMENT_PENDING)
    /\ Order.split o = OrderInput.split order
    /\ Order.client o = User._id client
    /\ Order.owner o = User._id owner
    /\ Order.numSeats o = OrderInput.numSeats order
    /\ Order.paymentIntent o = OrderInput.paymentIntent order
    /\ Store.splits (World.store w') !! OrderInput.split order = Some s'
    /\ Split.numSeats s' = (Split.numSeats s + OrderInput.numSeats order)%Z
    /\ Split.placesLeft s' = (Split.placesLeft s - OrderInput.numSeats order)%Z
    /\ (0 <= Split.placesLeft s')%Z
    /\ List.find (fun c => bool_decide (Conversation.split c = OrderInput.split order))
         (Store.conversations (World.store w')) = Some c'
    /\ Conversation.participants c'
       = (Conversation.participants c
          ++ [(User._id client,
               if bool_decide (PaymentIntent.status p = "succeeded")
               then Role.full else Role.readonly)])%list
    /\ World.gateway w' = World.gateway w.
Proof.
  intros Hex Hp Hs Hle Hcl How Hc Hm.
  rewrite create_stages.
  unfold OrderDataSource.create_guard, bind, gets. cbv beta iota.
  rewrite Hex. unfold ret at 1. cbv beta iota zeta. rewrite Hp.
  unfold OrderDataSource.create_rest, SplitDataSource.get,
    SplitDataSource.users_get, bind, gets. cbv beta iota.
  rewrite Hs.
  destruct (Z.ltb_spec (Split.placesLeft s) (OrderInput.numSeats order)) as [|_];
    [lia|].
  rewrite Hcl, How.
  unfold withTransaction, fresh_id, write, ret, bind. cbv beta iota zeta.
  match goal with
  | |- context [SplitDataSource.join ?a ?b ?cl ?r ?w1] =>
      destruct (join_run a b cl r w1 s c) as (msgs & Hj & _);
        [exact Hs | exact Hc | exact Hm | rewrite Hj]
  end.
  cbv beta iota zeta. unfold conversations.findOne, gets. project.
  unfold after_join. project.
  assert (Hrole : array_includes OrderDataSource.promotableStatuses
                    (PaymentIntent.status p)
                  = bool_decide (PaymentIntent.status p = "succeeded")).
  { unfold array_includes, OrderDataSource.promotableStatuses. simpl.
    rewrite orb_false_r. unfold StripePaymentStatusType.SUCCESS.
    destruct (bool_decide (PaymentIntent.status p = "succeeded")) eqn:E.
    - apply bool_decide_eq_true in E. rewrite E. reflexivity.
    - apply bool_decide_eq_false in E.
      rewrite bool_decide_eq_false_2 by congruence. reflexivity. }
  rewrite Hrole.
  set (role := if bool_decide (PaymentIntent.status p = "succeeded")
               then Role.full else Role.readonly).
  assert (Hfind :
    List.find (fun c0 => bool_decide (Conversation.split c0 = OrderInput.split order))
      (conversations.update_where (conversations.has_id (Conversation._id c))
         (fun ps => (ps ++ [(User._id client, role)])%list)
         (Store.conversations (World.store w)))
    = Some (Conversation.with_participants
              (Conversation.participants c ++ [(User._id client, role)])%list c)).
  { unfold conversations.update_where. rewrite find_map_kept.
    - rewrite Hc. simpl. unfold conversations.has_id.
      rewrite bool_decide_eq_true_2 by reflexivity. reflexivity.
    - intros x. destruct (conversations.has_id (Conversation._id c) x);
        reflexivity. }
  rewrite Hfind.
  eexists _, _, (settle (Split.inc_seats (OrderInput.numSeats order) s)), _.
  split; [reflexivity|]. project.
  rewrite lookup_insert_eq.
  destruct (settle_counters (Split.inc_seats (OrderInput.numSeats order) s))
    as (-> & -> & _).
  simpl.
  repeat split; try reflexivity; try lia; try exact Hfind.
  unfold OrderDataSource.eventStatus. simpl.
  unfold StripePaymentStatusType.CANCELED, StripePaymentStatusType.FAILED,
    StripePaymentStatusType.SUCCESS.
  destruct (bool_decide (PaymentIntent.status p = "succeeded")) eqn:E1.
  { apply bool_decide_eq_true in E1. rewrite E1. reflexivity. }
  apply bool_decide_eq_false in E1.
  destruct (bool_decide (PaymentIntent.status p = "canceled")) eqn:E2.
  { apply bool_decide_eq_true in E2. rewrite E2. reflexivity. }
  apply bool_decide_eq_false in E2.
  rewrite (bool_decide_eq_false_2 ("canceled" = PaymentIntent.status p))
    by congruence.
  destruct (bool_decide (PaymentIntent.status p = "payment_failed")) eqn:E3.
  { apply bool_decide_eq_true in E3. rewrite E3. reflexivity. }
  apply bool_decide_eq_false in E3.
  rewrite (bool_decide_eq_false_2 ("payment_failed" = PaymentIntent.status p))
    by congruence.
  rewrite (bool_decide_eq_false_2 ("succeeded" = PaymentIntent.status p))
    by congruence.
  reflexivity.
Qed.

Lemma create_catch_message p e w response :
  (OrderDataSource.create_catch (Some (Some p)) e w).1 = Ok response ->
  response = OrderResponse.mk 501 false (Some (message e)) None None
               (Some (PaymentIntent.client_secret p)).
Proof.
  unfold OrderDataSource.create_catch, bind, ret.
  destruct (bool_decide _).
  - destruct (StripeService.refund (PaymentIntent.id p) true w) as [[?|?] ?];
      simpl; [intros [= <-]; reflexivity|discriminate].
  - destruct (StripeService.cancelPaymentIntent (PaymentIntent.id p) w)
      as [[?|?] ?]; simpl; [intros [= <-]; reflexivity|discriminate].
Qed.

(** X18.  A createOrder that passes the other checks, by a client who
    already sits in the Split's conversation, is undone: the
    collections are as before (no Order, no seat taken), the call does
    not succeed, and an envelope, when one is returned, carries the
    membership error and the client secret. *)
Theorem createOrder_by_member_is_rolled_back ctx order w p s client owner c :
  List.find (OrderDataSource.existing ctx order) (Store.orders (World.store w))
    = None ->
  Gateway.intents (World.gateway w) !! OrderInput.paymentIntent order = Some p ->
  Store.splits (World.store w) !! OrderInput.split order = Some s ->
  (OrderInput.numSeats order <= Split.placesLeft s)%Z ->
  Store.users (World.store w) !! Context._id ctx = Some client ->
  Store.users (World.store w) !! Split.user s = Some owner ->
  List.find (fun c => bool_decide (Conversation.split c = OrderInput.split order))
    (Store.conversations (World.store w)) = Some c ->
  conversations.checkMember c (User._id client) = true ->
  World.store (OrderDataSource.create SYSTEM_FEE ctx order w).2 = World.store w
  /\ order_rejected (OrderDataSource.create SYSTEM_FEE ctx order w).1
  /\ forall response,
       (OrderDataSource.create SYSTEM_FEE ctx order w).1 = Ok response ->
       response
       = OrderResponse.mk 501 false
           (Some "The Client is already a Conversation Member") None None
           (Some (PaymentIntent.client_secret p)).
Proof.
  intros Hex Hp Hs Hle Hcl How Hc Hm.
  assert (Hrun :
    OrderDataSource.create SYSTEM_FEE ctx order w
    = OrderDataSource.create_catch (Some (Some p))
        (Error "The Client is already a Conversation Member")
        (World.mk (World.store w) None (World.gateway w) (World.messages w))).
  { rewrite create_stages.
    unfold OrderDataSource.create_guard, bind, gets. cbv beta iota.
    rewrite Hex. unfold ret at 1. cbv beta iota zeta. rewrite Hp.
    unfold OrderDataSource.create_rest, SplitDataSource.get,
      SplitDataSource.users_get, bind, gets. cbv beta iota.
    rewrite Hs.
    destruct (Z.ltb_spec (Split.placesLeft s) (OrderInput.numSeats order))
      as [|_]; [lia|].
    rewrite Hcl, How.
    unfold withTransaction, fresh_id, write, ret. cbv beta iota zeta.
    unfold SplitDataSource.join, conversations.findOne, bind, gets.
    cbv beta iota. project. rewrite Hc, Hm. cbv beta iota.
    unfold throw. cbv beta iota. project. reflexivity. }
  rewrite Hrun. split; [|split].
  - match goal with
    | |- World.store (OrderDataSource.create_catch ?a ?e ?w0).2 = _ =>
        destruct (store_kept_create_catch a e w0) as [-> _]
    end.
    reflexivity.
  - apply create_catch_rejected.
  - intros response H. apply create_catch_message in H. exact H.
Qed.

End OrderCreation.

Lemma createOrder_reserves_and_joins_witness :
  exists o c' s' w',
    OrderDataSource.create Sample.fee (Context.mk 30 UserRole.USER)
      (OrderInput.mk 1 1 7 "pi_2") Sample.joined_world
    = (Ok (OrderResponse.mk 200 true None (Some o) (Some c') None), w')
    /\ Order.status o = OrderStatusType.PAYMENT_PENDING
    /\ Store.splits (World.store w') !! 1 = Some s'
    /\ Split.numSeats s' = 3%Z
    /\ Split.placesLeft s' = 1%Z
    /\ Conversation.participants c'
       = [(10, Role.full); (20, Role.full); (30, Role.readonly)].
Proof.
  destruct (createOrder_reserves_and_joins Sample.fee
              (Context.mk 30 UserRole.USER) (OrderInput.mk 1 1 7 "pi_2")
              Sample.joined_world Sample.open_intent Sample.joined_split
              Sample.stranger Sample.owner Sample.joined_room)
    as (o & c' & s' & w' & Hrun & _ & Hst & _ & _ & _ & _ & _ & Hs & Hn & Hpl
        & _ & _ & Hps & _);
    try (vm_compute; reflexivity).
  - vm_compute. discriminate.
  - exists o, c', s', w'. repeat split; assumption.
Defined.

Lemma createOrder_by_member_is_rolled_back_witness :
  World.store
    (OrderDataSource.create Sample.fee (Context.mk 20 UserRole.USER)
       (OrderInput.mk 1 1 7 "pi_2")
       (World.mk (Store.mk {[ 1 := Sample.joined_split ]} []
                    [Sample.joined_room] Sample.users 1000)
          None Sample.gateway [])).2
  = Store.mk {[ 1 := Sample.joined_split ]} [] [Sample.joined_room]
      Sample.users 1000.
Proof.
  apply (createOrder_by_member_is_rolled_back Sample.fee
           (Context.mk 20 UserRole.USER) (OrderInput.mk 1 1 7 "pi_2")
           (World.mk (Store.mk {[ 1 := Sample.joined_split ]} []
                        [Sample.joined_room] Sample.users 1000)
              None Sample.gateway [])
           Sample.open_intent Sample.joined_split Sample.client Sample.owner
           Sample.joined_room);
    try (vm_compute; reflexivity).
  vm_compute. discriminate.
Defined.

(** ** The provider's events *)

Lemma with_own_status o : Order.with_status (Order.status o) o = o.
Proof. destruct o; reflexivity. Qed.

(** X19.  An event of a relevant type, for an authorization that an
    Order is bound to and that is neither succeeded nor canceled,
    changes at most the status of that Order: it becomes PAYMENT_FAILED
    for [payment_failed] and stays as it is otherwise; Splits,
    conversations, provider and messages are untouched. *)
Theorem event_without_exit_changes_status_only event w o :
  relevant_event (Event.type event) = true ->
  Event.status event <> "succeeded" ->
  Event.status event <> "canceled" ->
  List.find (fun o => bool_decide (Order.paymentIntent o = Event.id event))
    (Store.orders (World.store w)) = Some o ->
  exists w',
    OrderDataSource.updateStatusFromWebhook (Some event) w = (Ok None, w')
    /\ List.find (fun o => bool_decide (Order.paymentIntent o = Event.id event))
         (Store.orders (World.store w'))
       = Some (if bool_decide (Event.status event = "payment_failed")
               then Order.with_status OrderStatusType.PAYMENT_FAILED o
               else o)
    /\ Store.splits (World.store w') = Store.splits (World.store w)
    /\ Store.conversations (World.store w') = Store.conversations (World.store w)
    /\ World.gateway w' = World.gateway w
    /\ World.messages w' = World.messages w.
Proof.
  intros Hty Hs Hc Ho.
  unfold OrderDataSource.updateStatusFromWebhook,
    OrderDataSource.updateOrderStatusByWebhook,
    OrderDataSource.updateOrderStatus, withTransaction, attempt, bind, gets.
  unfold relevant_event in Hty. rewrite Hty.
  cbv beta iota. unfold OrderDataSource.when at 1. rewrite Ho. cbv beta iota.
  assert (He : array_includes OrderDataSource.exitableStatuses (Event.status event)
               = false).
  { unfold array_includes, OrderDataSource.exitableStatuses. simpl.
    rewrite bool_decide_eq_false_2; [reflexivity|].
    unfold StripePaymentStatusType.CANCELED. congruence. }
  assert (Hp : array_includes OrderDataSource.promotableStatuses
                 (Event.status event) = false).
  { unfold array_includes, OrderDataSource.promotableStatuses. simpl.
    rewrite bool_decide_eq_false_2; [reflexivity|].
    unfold StripePaymentStatusType.SUCCESS. congruence. }
  assert (Hd : array_includes OrderDataSource.demotableStatuses
                 (Some (Event.status event)) = false).
  { reflexivity. }
  assert (Hev : OrderDataSource.eventStatus (Event.status event)
                = if bool_decide (Event.status event = "payment_failed")
                  then Some OrderStatusType.PAYMENT_FAILED else None).
  { unfold OrderDataSource.eventStatus. simpl.
    unfold StripePaymentStatusType.CANCELED, StripePaymentStatusType.FAILED,
      StripePaymentStatusType.SUCCESS.
    rewrite (bool_decide_eq_false_2 ("canceled" = Event.status event))
      by congruence.
    rewrite (bool_decide_eq_false_2 ("succeeded" = Event.status event))
      by congruence.
    destruct (bool_decide (Event.status event = "payment_failed")) eqn:E.
    - apply bool_decide_eq_true in E. rewrite E. reflexivity.
    - apply bool_decide_eq_false in E.
      rewrite bool_decide_eq_false_2 by congruence. reflexivity. }
  rewrite He, Hp, Hd, Hev.
  unfold OrderDataSource.when, OrderDataSource.save, ret, write.
  cbv beta iota zeta. project.
  eexists. split; [reflexivity|]. project.
  split; [|auto].
  unfold OrderDataSource.set_status_where. rewrite find_map_kept.
  - rewrite Ho. simpl.
    destruct (bool_decide (Event.status event = "payment_failed")); simpl;
      rewrite bool_decide_eq_true_2 by reflexivity; [reflexivity|].
    rewrite with_own_status. reflexivity.
  - intros x.
    match goal with
    | |- context [if ?b then _ else _] => destruct b
    end; reflexivity.
Qed.

Lemma event_without_exit_changes_status_only_witness :
  exists w',
    OrderDataSource.updateStatusFromWebhook (Some Scenario.failed_event)
      Sample.pending_world = (Ok None, w')
    /\ List.find (fun o => bool_decide (Order.paymentIntent o = "pi_2"))
         (Store.orders (World.store w'))
       = Some (Order.with_status OrderStatusType.PAYMENT_FAILED
                 Sample.pending_order)
    /\ Store.splits (World.store w') = {[ 1 := Sample.joined_split ]}.
Proof.
  destruct (event_without_exit_changes_status_only Scenario.failed_event
              Sample.pending_world Sample.pending_order)
    as (w' & Hrun & Hf & Hs & _);
    try (vm_compute; reflexivity); try discriminate.
  exists w'. split; [exact Hrun|]. split; [exact Hf|exact Hs].
Defined.

(** X20.  updateStatusFromWebhook changes nothing when the signature
    does not verify (it answers [false]), when the event type is not one
    of the four payment-intent types (it answers [undefined]), and when
    no Order is bound to the authorization (it answers [false]). *)
Theorem webhook_ignores_what_it_cannot_use w :
  OrderDataSource.updateStatusFromWebhook None w = (Ok (Some false), w)
  /\ (forall event,
        relevant_event (Event.type event) = false ->
        OrderDataSource.updateStatusFromWebhook (Some event) w = (Ok None, w))
  /\ (forall event,
        relevant_event (Event.type event) = true ->
        List.find (fun o => bool_decide (Order.paymentIntent o = Event.id event))
          (Store.orders (World.store w)) = None ->
        OrderDataSource.updateStatusFromWebhook (Some event) w
        = (Ok (Some false), w)).
Proof.
  unfold OrderDataSource.updateStatusFromWebhook,
    OrderDataSource.updateOrderStatusByWebhook, attempt, bind, gets,
    relevant_event.
  split; [reflexivity|]. split.
  - intros event ->. reflexivity.
  - intros event -> Hf. unfold OrderDataSource.when. cbv beta iota.
    rewrite Hf. reflexivity.
Qed.

Lemma webhook_ignores_what_it_cannot_use_witness :
  OrderDataSource.updateStatusFromWebhook (Some Scenario.failed_event)
    Sample.joined_world
  = (Ok (Some false), Sample.joined_world).
Proof.
  apply (webhook_ignores_what_it_cannot_use Sample.joined_world);
    vm_compute; reflexivity.
Defined.

(** X21.  The route answers every request with status 500 and
    [success: false]: updateStatusFromWebhook returns [false] or
    nothing, never a truthy value. *)
Theorem stripe_webhook_always_answers_500 event w :
  (webhook.stripe event w).1 = Ok (500%Z, false).
Proof.
  unfold webhook.stripe, OrderDataSource.updateStatusFromWebhook, bind, attempt,
    ret.
  match goal with
  | |- context [let (r, w') := ?c w in _] => destruct (c w) as [[?|?] ?]
  end; reflexivity.
Qed.

(** ** Cancelling one Order *)

Lemma live_order_found split client w o :
  (OrderDataSource.live_order split client w).1 = Ok (Some o) ->
  Order.split o = split /\ Order.client o = client
  /\ OrderDataSource.cancelled (Order.status o) = false.
Proof.
  unfold OrderDataSource.live_order, gets. simpl. intros [= H].
  apply find_some in H as [_ H].
  apply andb_prop in H as [H H3]. apply andb_prop in H as [H1 H2].
  apply bool_decide_eq_true in H1, H2. apply negb_true_iff in H3.
  auto.
Qed.

Ltac open_cancel Ho :=
  unfold OrderDataSource.cancelOwner, OrderDataSource.cancelClient, attempt, bind;
  unfold OrderDataSource.live_order, gets in Ho |- *; simpl in Ho;
  injection Ho as Ho; cbv beta iota; rewrite Ho; cbv beta iota.

(** The owner's cancellation of a PAID Order that goes through. *)
Lemma cancelOwner_run ctx split client w o s c charge :
  (OrderDataSource.live_order split client w).1 = Ok (Some o) ->
  Order.owner o = Context._id ctx ->
  Order.status o = OrderStatusType.PAID ->
  Store.splits (World.store w) !! split = Some s ->
  Split.numSeats s <> 0%Z ->
  List.find (fun c => bool_decide (Conversation.split c = split))
    (Store.conversations (World.store w)) = Some c ->
  conversations.checkMember c client = true ->
  refundable (Order.paymentIntent o) charge (World.gateway w) ->
  exists w',
    OrderDataSource.cancelOwner ctx split client w
    = (Ok (CancelOrderResponse.mk 200 true None
             (Some (Order.with_status OrderStatusType.OWNER_CANCELED o))
             (Some (Refund.mk charge true true))), w')
    /\ World.store w'
       = cancelled_store OrderStatusType.OWNER_CANCELED o s c (World.store w)
    /\ World.gateway w'
       = World.gateway (push_refunds [Refund.mk charge true true] w).
Proof.
  intros Ho Hown Hst Hs Hn Hc Hm Hr.
  destruct (live_order_found _ _ _ _ Ho) as (Hsp & Hcl & _).
  unfold OrderDataSource.cancelOwner, attempt, bind.
  unfold OrderDataSource.live_order, gets in Ho |- *. simpl in Ho.
  injection Ho as Ho. cbv beta iota. rewrite Ho. cbv beta iota.
  rewrite Hown, Hst.
  rewrite !bool_decide_eq_true_2 by reflexivity.
  change (negb true) with false. cbv beta iota.
  unfold withTransaction. cbv beta iota zeta.
  match goal with
  | |- context [SplitDataSource.exit ?a ?n ?cl ?t ?w1] =>
      destruct (exit_run a n cl t w1 s c Hs Hn Hc Hm) as [msgs ->]
  end.
  cbv beta iota.
  match goal with
  | |- context [StripeService.refund ?a ?f ?w1] =>
      rewrite (refund_ok a f charge w1) by exact Hr
  end.
  cbv beta iota. unfold OrderDataSource.save_order_status, write, ret.
  cbv beta iota. unfold OrderDataSource.cancel_envelope, ret.
  eexists. split; [reflexivity|]. project. unfold push_refunds. project.
  unfold cancelled_store. rewrite Hsp, Hcl. split; reflexivity.
Qed.

(** The client's cancellation of a PAID Order that goes through. *)
Lemma cancelClient_run ctx split w o s c charge :
  (OrderDataSource.live_order split (Context._id ctx) w).1 = Ok (Some o) ->
  Order.status o = OrderStatusType.PAID ->
  Store.splits (World.store w) !! split = Some s ->
  Split.numSeats s <> 0%Z ->
  List.find (fun c => bool_decide (Conversation.split c = split))
    (Store.conversations (World.store w)) = Some c ->
  conversations.checkMember c (Context._id ctx) = true ->
  refundable (Order.paymentIntent o) charge (World.gateway w) ->
  exists w',
    OrderDataSource.cancelClient ctx split w
    = (Ok (CancelOrderResponse.mk 200 true None
             (Some (Order.with_status OrderStatusType.CLIENT_CANCELED o))
             (Some (Refund.mk charge true false))), w')
    /\ World.store w'
       = cancelled_store OrderStatusType.CLIENT_CANCELED o s c (World.store w)
    /\ World.gateway w'
       = World.gateway (push_refunds [Refund.mk charge true false] w).
Proof.
  intros Ho Hst Hs Hn Hc Hm Hr.
  destruct (live_order_found _ _ _ _ Ho) as (Hsp & Hcl & _).
  unfold OrderDataSource.cancelClient, attempt, bind.
  unfold OrderDataSource.live_order, gets in Ho |- *. simpl in Ho.
  injection Ho as Ho. cbv beta iota. rewrite Ho. cbv beta iota.
  rewrite Hst.
  rewrite !bool_decide_eq_true_2 by reflexivity.
  change (negb true) with false. cbv beta iota.
  unfold withTransaction. cbv beta iota zeta.
  unfold OrderDataSource.save_order_status, write. cbv beta iota.
  change (Order.numSeats (Order.with_status OrderStatusType.CLIENT_CANCELED o))
    with (Order.numSeats o).
  change (Order.client (Order.with_status OrderStatusType.CLIENT_CANCELED o))
    with (Order.client o).
  change (Order.paymentIntent (Order.with_status OrderStatusType.CLIENT_CANCELED o))
    with (Order.paymentIntent o).
  rewrite Hcl.
  match goal with
  | |- context [SplitDataSource.exit ?a ?n ?cl ?t ?w1] =>
      destruct (exit_run a n cl t w1 s c Hs Hn Hc Hm) as [msgs ->]
  end.
  cbv beta iota.
  match goal with
  | |- context [StripeService.refund ?a ?f ?w1] =>
      rewrite (refund_ok a f charge w1) by exact Hr
  end.
  cbv beta iota. unfold ret.
  cbv beta iota. unfold OrderDataSource.cancel_envelope, ret.
  eexists. split; [reflexivity|]. project. unfold push_refunds. project.
  unfold cancelled_store. rewrite Hsp, Hcl. split; reflexivity.
Qed.

Lemma live_order_stored split client w o :
  (OrderDataSource.live_order split client w).1 = Ok (Some o) ->
  In o (Store.orders (World.store w)).
Proof.
  unfold OrderDataSource.live_order, gets. simpl. intros [= H].
  apply find_some in H as [H _]. exact H.
Qed.

(** The collections after the cancellation of one order, spelled out. *)
Lemma cancelled_store_effects st o s c store :
  In o (Store.orders store) ->
  Store.splits store !! Order.split o = Some s ->
  List.find (fun c => bool_decide (Conversation.split c = Order.split o))
    (Store.conversations store) = Some c ->
  let store' := cancelled_store st o s c store in
  (forall x, In x (Store.orders store') -> Order._id x = Order._id o ->
             Order.status x = st)
  /\ (exists o', In o' (Store.orders store')
                 /\ Order._id o' = Order._id o
                 /\ Order.split o' = Order.split o
                 /\ Order.client o' = Order.client o
                 /\ Order.numSeats o' = Order.numSeats o
                 /\ Order.paymentIntent o' = Order.paymentIntent o
                 /\ Order.status o' = st)
  /\ (forall x, In x (Store.orders store) -> Order._id x <> Order._id o ->
                In x (Store.orders store'))
  /\ List.map Order._id (Store.orders store')
     = List.map Order._id (Store.orders store)
  /\ (exists s', Store.splits store' !! Order.split o = Some s'
                 /\ Split.numSeats s' = (Split.numSeats s - Order.numSeats o)%Z
                 /\ Split.placesLeft s'
                    = (Split.placesLeft s + Order.numSeats o)%Z
                 /\ Split.numPlaces s' = Split.numPlaces s)
  /\ (forall j, j <> Order.split o ->
                Store.splits store' !! j = Store.splits store !! j)
  /\ (exists c', List.find (fun c => bool_decide
                                       (Conversation.split c = Order.split o))
                   (Store.conversations store') = Some c'
                 /\ Conversation.participants c'
                    = List.filter
                        (fun p => negb (bool_decide (p.1 = Order.client o)))
                        (Conversation.participants c)
                 /\ conversations.checkMember c' (Order.client o) = false).
Proof.
  intros Hin Hs Hc. cbv zeta. unfold cancelled_store, after_exit. project.
  destruct (set_status_where_effects
              (fun x => bool_decide (Order._id x = Order._id o)) st
              (Store.orders store) (fun x => eq_refl))
    as (Hmark & Hkeep & Hother & Hids).
  split; [|split; [|split; [|split; [|split; [|split]]]]].
  - intros x Hx Hid. apply Hmark; [exact Hx|].
    apply bool_decide_eq_true_2. exact Hid.
  - apply Hkeep; [exact Hin|]. apply bool_decide_eq_true_2. reflexivity.
  - intros x Hx Hid. apply Hother; [exact Hx|].
    apply bool_decide_eq_false_2. exact Hid.
  - exact Hids.
  - eexists. rewrite lookup_insert_eq. split; [reflexivity|].
    destruct (settle_counters (Split.inc_seats (- Order.numSeats o) s))
      as (-> & -> & -> & _).
    simpl. repeat split; lia.
  - intros j Hj. rewrite lookup_insert_ne by congruence. reflexivity.
  - unfold conversations.update_where. rewrite find_map_kept.
    + rewrite Hc. simpl. unfold conversations.has_id.
      rewrite bool_decide_eq_true_2 by reflexivity.
      eexists. split; [reflexivity|]. split; [reflexivity|].
      apply checkMember_after_delete.
    + intros x. destruct (conversations.has_id (Conversation._id c) x);
        reflexivity.
Qed.

(** X22.  cancelOwner by the Split's owner on a client's PAID Order,
    the Split having seats taken, the client sitting in its
    conversation and the provider granting the refund, answers the
    success envelope with that Order, its status OWNER_CANCELED, and the
    refund.  Afterwards the stored Order of that id is OWNER_CANCELED
    and every other Order is as it was; the Split's [numSeats] is down
    and its [placesLeft] up by the Order's seats; the client is struck
    from the participants of the conversation; and exactly one refund
    has been added at the provider, of the first charge, with the
    transfer and the platform fee reversed. *)
Theorem cancelOwner_refunds_with_fee ctx split client w o s c charge :
  (OrderDataSource.live_order split client w).1 = Ok (Some o) ->
  Order.owner o = Context._id ctx ->
  Order.status o = OrderStatusType.PAID ->
  Store.splits (World.store w) !! split = Some s ->
  Split.numSeats s <> 0%Z ->
  List.find (fun c => bool_decide (Conversation.split c = split))
    (Store.conversations (World.store w)) = Some c ->
  conversations.checkMember c client = true ->
  refundable (Order.paymentIntent o) charge (World.gateway w) ->
  exists o' w',
    OrderDataSource.cancelOwner ctx split client w
    = (Ok (CancelOrderResponse.mk 200 true None (Some o')
             (Some (Refund.mk charge true true))), w')
    /\ Order._id o' = Order._id o
    /\ Order.status o' = OrderStatusType.OWNER_CANCELED
    /\ (forall x, In x (Store.orders (World.store w')) ->
                  Order._id x = Order._id o ->
                  Order.status x = OrderStatusType.OWNER_CANCELED)
    /\ (exists x, In x (Store.orders (World.store w'))
                  /\ Order._id x = Order._id o
                  /\ Order.status x = OrderStatusType.OWNER_CANCELED)
    /\ (forall x, In x (Store.orders (World.store w)) ->
                  Order._id x <> Order._id o ->
                  In x (Store.orders (World.store w')))
    /\ (exists s',
          Store.splits (World.store w') !! split = Some s'
          /\ Split.numSeats s' = (Split.numSeats s - Order.numSeats o)%Z
          /\ Split.placesLeft s' = (Split.placesLeft s + Order.numSeats o)%Z)
    /\ (exists c',
          List.find (fun c => bool_decide (Conversation.split c = split))
            (Store.conversations (World.store w')) = Some c'
          /\ Conversation.participants c'
             = List.filter (fun p => negb (bool_decide (p.1 = client)))
                 (Conversation.participants c)
          /\ conversations.checkMember c' client = false)
    /\ Gateway.refunds (World.gateway w')
       = (Gateway.refunds (World.gateway w) ++ [Refund.mk charge true true])%list
    /\ Gateway.intents (World.gateway w') = Gateway.intents (World.gateway w).
Proof.
  intros Ho Hown Hst Hs Hn Hc Hm Hr.
  destruct (live_order_found _ _ _ _ Ho) as (Hsp & Hcl & _).
  pose proof (live_order_stored _ _ _ _ Ho) as Hin.
  destruct (cancelOwner_run ctx split client w o s c charge
              Ho Hown Hst Hs Hn Hc Hm Hr) as (w' & Hrun & Hstore & Hg).
  subst split client.
  destruct (cancelled_store_effects OrderStatusType.OWNER_CANCELED o s c
              (World.store w) Hin Hs Hc)
    as (Hmark & (x & Hx & Hxid & _ & _ & _ & _ & Hxst) & Hother & _
        & (s' & Hs' & Hseats & Hleft & _) & _ & Hconv).
  rewrite <- Hstore in Hmark, Hx, Hother, Hs', Hconv.
  exists (Order.with_status OrderStatusType.OWNER_CANCELED o), w'.
  split; [exact Hrun|]. split; [reflexivity|]. split; [reflexivity|].
  split; [exact Hmark|]. split; [exists x; auto|]. split; [exact Hother|].
  split; [exists s'; auto|]. split; [exact Hconv|].
  rewrite Hg. split; reflexivity.
Qed.

(** On the joined sample: the Order 500 ends OWNER_CANCELED, the Split
    is back at one seat taken and three places left, the owner alone
    remains in the conversation, and the refund reverses the fee. *)
Lemma cancelOwner_refunds_with_fee_witness :
  exists o' w',
    OrderDataSource.cancelOwner (Context.mk 10 UserRole.USER) 1 20
      Sample.joined_world
    = (Ok (CancelOrderResponse.mk 200 true None (Some o')
             (Some (Refund.mk "ch_1" true true))), w')
    /\ Order._id o' = 500
    /\ Order.status o' = OrderStatusType.OWNER_CANCELED
    /\ (fun x => (Order._id x, Order.status x))
         <$> Store.orders (World.store w')
       = [(500, OrderStatusType.OWNER_CANCELED)]
    /\ (fun s => (Split.numSeats s, Split.placesLeft s))
         <$> Store.splits (World.store w') !! 1
       = Some (1%Z, 3%Z)
    /\ Conversation.participants <$> Store.conversations (World.store w')
       = [[(10, Role.full)]]
    /\ Gateway.refunds (World.gateway w') = [Refund.mk "ch_1" true true].
Proof.
  destruct (cancelOwner_refunds_with_fee (Context.mk 10 UserRole.USER) 1 20
              Sample.joined_world Sample.paid_order Sample.joined_split
              Sample.joined_room "ch_1")
    as (o' & w' & Hrun & Hid & Hst & _ & _ & _ & _ & _ & Hg & _);
    try (vm_compute; reflexivity).
  - vm_compute. discriminate.
  - exists Sample.paid_intent, []. repeat split; vm_compute; reflexivity.
  - exists o', w'. split; [exact Hrun|]. split; [exact Hid|].
    split; [exact Hst|].
    assert (Hw : w' = (OrderDataSource.cancelOwner (Context.mk 10 UserRole.USER)
                         1 20 Sample.joined_world).2)
      by (rewrite Hrun; reflexivity).
    rewrite Hw. repeat split; vm_compute; reflexivity.
Defined.

(** X23.  cancelClient on the caller's PAID Order, under the same
    conditions, answers the success envelope with that Order, its
    status CLIENT_CANCELED, and the refund.  The stored Order, the
    Split's counters and the conversation change as for the owner's
    cancellation, and exactly one refund has been added at the
    provider, of the first charge, with the transfer reversed and the
    platform fee kept. *)
Theorem cancelClient_refunds_without_fee ctx split w o s c charge :
  (OrderDataSource.live_order split (Context._id ctx) w).1 = Ok (Some o) ->
  Order.status o = OrderStatusType.PAID ->
  Store.splits (World.store w) !! split = Some s ->
  Split.numSeats s <> 0%Z ->
  List.find (fun c => bool_decide (Conversation.split c = split))
    (Store.conversations (World.store w)) = Some c ->
  conversations.checkMember c (Context._id ctx) = true ->
  refundable (Order.paymentIntent o) charge (World.gateway w) ->
  exists o' w',
    OrderDataSource.cancelClient ctx split w
    = (Ok (CancelOrderResponse.mk 200 true None (Some o')
             (Some (Refund.mk charge true false))), w')
    /\ Order._id o' = Order._id o
    /\ Order.status o' = OrderStatusType.CLIENT_CANCELED
    /\ (forall x, In x (Store.orders (World.store w')) ->
                  Order._id x = Order._id o ->
                  Order.status x = OrderStatusType.CLIENT_CANCELED)
    /\ (exists x, In x (Store.orders (World.store w'))
                  /\ Order._id x = Order._id o
                  /\ Order.status x = OrderStatusType.CLIENT_CANCELED)
    /\ (forall x, In x (Store.orders (World.store w)) ->
                  Order._id x <> Order._id o ->
                  In x (Store.orders (World.store w')))
    /\ (exists s',
          Store.splits (World.store w') !! split = Some s'
          /\ Split.numSeats s' = (Split.numSeats s - Order.numSeats o)%Z
          /\ Split.placesLeft s' = (Split.placesLeft s + Order.numSeats o)%Z)
    /\ (exists c',
          List.find (fun c => bool_decide (Conversation.split c = split))
            (Store.conversations (World.store w')) = Some c'
          /\ Conversation.participants c'
             = List.filter
                 (fun p => negb (bool_decide (p.1 = Context._id ctx)))
                 (Conversation.participants c)
          /\ conversations.checkMember c' (Context._id ctx) = false)
    /\ Gateway.refunds (World.gateway w')
       = (Gateway.refunds (World.gateway w) ++ [Refund.mk charge true false])%list
    /\ Gateway.intents (World.gateway w') = Gateway.intents (World.gateway w).
Proof.
  intros Ho Hst Hs Hn Hc Hm Hr.
  destruct (live_order_found _ _ _ _ Ho) as (Hsp & Hcl & _).
  pose proof (live_order_stored _ _ _ _ Ho) as Hin.
  destruct (cancelClient_run ctx split w o s c charge
              Ho Hst Hs Hn Hc Hm Hr) as (w' & Hrun & Hstore & Hg).
  subst split. rewrite <- Hcl in *.
  destruct (cancelled_store_effects OrderStatusType.CLIENT_CANCELED o s c
              (World.store w) Hin Hs Hc)
    as (Hmark & (x & Hx & Hxid & _ & _ & _ & _ & Hxst) & Hother & _
        & (s' & Hs' & Hseats & Hleft & _) & _ & Hconv).
  rewrite <- Hstore in Hmark, Hx, Hother, Hs', Hconv.
  exists (Order.with_status OrderStatusType.CLIENT_CANCELED o), w'.
  split; [exact Hrun|]. split; [reflexivity|]. split; [reflexivity|].
  split; [exact Hmark|]. split; [exists x; auto|]. split; [exact Hother|].
  split; [exists s'; auto|]. split; [exact Hconv|].
  rewrite Hg. split; reflexivity.
Qed.

(** On the joined sample: the Order 500 ends CLIENT_CANCELED, seats and
    membership are released, and the refund keeps the fee. *)
Lemma cancelClient_refunds_without_fee_witness :
  exists o' w',
    OrderDataSource.cancelClient (Context.mk 20 UserRole.USER) 1
      Sample.joined_world
    = (Ok (CancelOrderResponse.mk 200 true None (Some o')
             (Some (Refund.mk "ch_1" true false))), w')
    /\ Order._id o' = 500
    /\ Order.status o' = OrderStatusType.CLIENT_CANCELED
    /\ (fun x => (Order._id x, Order.status x))
         <$> Store.orders (World.store w')
       = [(500, OrderStatusType.CLIENT_CANCELED)]
    /\ (fun s => (Split.numSeats s, Split.placesLeft s))
         <$> Store.splits (World.store w') !! 1
       = Some (1%Z, 3%Z)
    /\ Conversation.participants <$> Store.conversations (World.store w')
       = [[(10, Role.full)]]
    /\ Gateway.refunds (World.gateway w') = [Refund.mk "ch_1" true false].
Proof.
  destruct (cancelClient_refunds_without_fee (Context.mk 20 UserRole.USER) 1
              Sample.joined_world Sample.paid_order Sample.joined_split
              Sample.joined_room "ch_1")
    as (o' & w' & Hrun & Hid & Hst & _ & _ & _ & _ & _ & Hg & _);
    try (vm_compute; reflexivity).
  - vm_compute. discriminate.
  - exists Sample.paid_intent, []. repeat split; vm_compute; reflexivity.
  - exists o', w'. split; [exact Hrun|]. split; [exact Hid|].
    split; [exact Hst|].
    assert (Hw : w' = (OrderDataSource.cancelClient (Context.mk 20 UserRole.USER)
                         1 Sample.joined_world).2)
      by (rewrite Hrun; reflexivity).
    rewrite Hw. repeat split; vm_compute; reflexivity.
Defined.

(** X24.  When the owner's cancellation of a PAID Order gets as far as
    the refund and the provider refuses it, cancelOwner answers the
    failure envelope with the provider's message, and the collections
    and the provider are as before: the exit is rolled back. *)
Theorem cancelOwner_refused_refund_rolls_back ctx split client w o s c e :
  (OrderDataSource.live_order split client w).1 = Ok (Some o) ->
  Order.owner o = Context._id ctx ->
  Order.status o = OrderStatusType.PAID ->
  Store.splits (World.store w) !! split = Some s ->
  Split.numSeats s <> 0%Z ->
  List.find (fun c => bool_decide (Conversation.split c = split))
    (Store.conversations (World.store w)) = Some c ->
  conversations.checkMember c client = true ->
  (StripeService.refund (Order.paymentIntent o) true w).1 = Throw e ->
  exists w',
    OrderDataSource.cancelOwner ctx split client w
    = (Ok (CancelOrderResponse.mk 501 false (Some (message e)) None None), w')
    /\ World.store w' = World.store w
    /\ World.gateway w' = World.gateway w.
Proof.
  intros Ho Hown Hst Hs Hn Hc Hm Hr.
  open_cancel Ho.
  rewrite Hown, Hst.
  rewrite !bool_decide_eq_true_2 by reflexivity.
  change (negb true) with false. cbv beta iota.
  unfold withTransaction. cbv beta iota zeta.
  match goal with
  | |- context [SplitDataSource.exit ?a ?n ?cl ?t ?w1] =>
      destruct (exit_run a n cl t w1 s c Hs Hn Hc Hm) as [msgs ->]
  end.
  cbv beta iota.
  match goal with
  | |- context [StripeService.refund ?a ?f ?w1] =>
      rewrite (refund_refused a f w1 e)
        by (rewrite <- Hr; apply refund_reads_the_gateway; reflexivity)
  end.
  cbv beta iota. unfold OrderDataSource.cancel_envelope, ret.
  eexists. split; [reflexivity|]. project. split; reflexivity.
Qed.

Lemma cancelOwner_refused_refund_rolls_back_witness :
  exists w',
    OrderDataSource.cancelOwner (Context.mk 10 UserRole.USER) 1 20
      Scenario.refusing_world
    = (Ok (CancelOrderResponse.mk 501 false
             (Some "Charge ch_1 has already been refunded.") None None), w')
    /\ World.store w' = Sample.joined_store
    /\ World.gateway w' = Scenario.refusing_gateway.
Proof.
  apply (cancelOwner_refused_refund_rolls_back (Context.mk 10 UserRole.USER)
           1 20 Scenario.refusing_world Sample.paid_order Sample.joined_split
           Sample.joined_room (Error "Charge ch_1 has already been refunded."));
    try (vm_compute; reflexivity).
  vm_compute. discriminate.
Defined.

(** X25.  When the client's cancellation of a PAID Order gets as far
    as the refund and the provider refuses it, cancelClient answers the
    failure envelope with the provider's message, and the collections
    and the provider are as before: the new status and the exit are
    rolled back. *)
Theorem cancelClient_refused_refund_rolls_back ctx split w o s c e :
  (OrderDataSource.live_order split (Context._id ctx) w).1 = Ok (Some o) ->
  Order.status o = OrderStatusType.PAID ->
  Store.splits (World.store w) !! split = Some s ->
  Split.numSeats s <> 0%Z ->
  List.find (fun c => bool_decide (Conversation.split c = split))
    (Store.conversations (World.store w)) = Some c ->
  conversations.checkMember c (Context._id ctx) = true ->
  (StripeService.refund (Order.paymentIntent o) false w).1 = Throw e ->
  exists w',
    OrderDataSource.cancelClient ctx split w
    = (Ok (CancelOrderResponse.mk 501 false (Some (message e)) None None), w')
    /\ World.store w' = World.store w
    /\ World.gateway w' = World.gateway w.
Proof.
  intros Ho Hst Hs Hn Hc Hm Hr.
  destruct (live_order_found _ _ _ _ Ho) as (Hsp & Hcl & _).
  open_cancel Ho.
  rewrite Hst.
  rewrite !bool_decide_eq_true_2 by reflexivity.
  change (negb true) with false. cbv beta iota.
  unfold withTransaction. cbv beta iota zeta.
  unfold OrderDataSource.save_order_status, write. cbv beta iota.
  change (Order.numSeats (Order.with_status OrderStatusType.CLIENT_CANCELED o))
    with (Order.numSeats o).
  change (Order.client (Order.with_status OrderStatusType.CLIENT_CANCELED o))
    with (Order.client o).
  change (Order.paymentIntent (Order.with_status OrderStatusType.CLIENT_CANCELED o))
    with (Order.paymentIntent o).
  rewrite Hcl.
  match goal with
  | |- context [SplitDataSource.exit ?a ?n ?cl ?t ?w1] =>
      destruct (exit_run a n cl t w1 s c Hs Hn Hc Hm) as [msgs ->]
  end.
  cbv beta iota.
  match goal with
  | |- context [StripeService.refund ?a ?f ?w1] =>
      rewrite (refund_refused a f w1 e)
        by (rewrite <- Hr; apply refund_reads_the_gateway; reflexivity)
  end.
  cbv beta iota. unfold OrderDataSource.cancel_envelope, ret.
  eexists. split; [reflexivity|]. project. split; reflexivity.
Qed.

Lemma cancelClient_refused_refund_rolls_back_witness :
  exists w',
    OrderDataSource.cancelClient (Context.mk 20 UserRole.USER) 1
      Scenario.refusing_world
    = (Ok (CancelOrderResponse.mk 501 false
             (Some "Charge ch_1 has already been refunded.") None None), w')
    /\ World.store w' = Sample.joined_store
    /\ World.gateway w' = Scenario.refusing_gateway.
Proof.
  apply (cancelClient_refused_refund_rolls_back (Context.mk 20 UserRole.USER)
           1 Scenario.refusing_world Sample.paid_order Sample.joined_split
           Sample.joined_room (Error "Charge ch_1 has already been refunded."));
    try (vm_compute; reflexivity).
  vm_compute. discriminate.
Defined.

(** X26.  cancelOwner answers the failure envelope and changes nothing
    when the client has no Order on the Split that is not cancelled
    already, when the caller does not own the Order's Split, and when
    the Order is not PAID. *)
Theorem cancelOwner_rejections ctx split client w :
  ((OrderDataSource.live_order split client w).1 = Ok None ->
   OrderDataSource.cancelOwner ctx split client w
   = (Ok (CancelOrderResponse.mk 501 false
            (Some "Can't find Order with provided id") None None), w))
  /\ (forall o,
        (OrderDataSource.live_order split client w).1 = Ok (Some o) ->
        Order.owner o <> Context._id ctx ->
        OrderDataSource.cancelOwner ctx split client w
        = (Ok (CancelOrderResponse.mk 501 false
                 (Some "Only the Split Owner can cancel Order as Owner")
                 None None), w))
  /\ (forall o,
        (OrderDataSource.live_order split client w).1 = Ok (Some o) ->
        Order.owner o = Context._id ctx ->
        Order.status o <> OrderStatusType.PAID ->
        OrderDataSource.cancelOwner ctx split client w
        = (Ok (CancelOrderResponse.mk 501 false
                 (Some "Can't cancel Order at this stage") None None), w)).
Proof.
  split; [|split].
  - intros Ho. open_cancel Ho. reflexivity.
  - intros o Ho Hown. open_cancel Ho.
    rewrite (bool_decide_eq_false_2 _ Hown). reflexivity.
  - intros o Ho Hown Hst. open_cancel Ho.
    rewrite (bool_decide_eq_true_2 _ Hown).
    rewrite (bool_decide_eq_false_2 _ Hst). reflexivity.
Qed.

Lemma cancelOwner_rejections_witness :
  OrderDataSource.cancelOwner (Context.mk 30 UserRole.USER) 1 20
    Sample.joined_world
  = (Ok (CancelOrderResponse.mk 501 false
           (Some "Only the Split Owner can cancel Order as Owner") None None),
     Sample.joined_world).
Proof.
  destruct (cancelOwner_rejections (Context.mk 30 UserRole.USER) 1 20
              Sample.joined_world) as (_ & H & _).
  apply (H Sample.paid_order).
  - vm_compute. reflexivity.
  - vm_compute. discriminate.
Defined.

(** X27.  cancelClient answers the failure envelope and changes
    nothing when the caller has no Order on the Split that is not
    cancelled already, and when the Order is not PAID; the message then
    names the Order's status. *)
Theorem cancelClient_rejections ctx split w :
  ((OrderDataSource.live_order split (Context._id ctx) w).1 = Ok None ->
   OrderDataSource.cancelClient ctx split w
   = (Ok (CancelOrderResponse.mk 501 false
            (Some "Can't find your Order for this Split") None None), w))
  /\ (forall o,
        (OrderDataSource.live_order split (Context._id ctx) w).1 = Ok (Some o) ->
        Order.status o <> OrderStatusType.PAID ->
        OrderDataSource.cancelClient ctx split w
        = (Ok (CancelOrderResponse.mk 501 false
                 (Some ("Can't cancel Order at this stage: "
                        ++ OrderStatusType.value (Order.status o)))
                 None None), w)).
Proof.
  split.
  - intros Ho. open_cancel Ho. reflexivity.
  - intros o Ho Hst. open_cancel Ho.
    rewrite (bool_decide_eq_false_2 _ Hst). reflexivity.
Qed.

Lemma cancelClient_rejections_witness :
  OrderDataSource.cancelClient (Context.mk 30 UserRole.USER) 1
    Sample.pending_world
  = (Ok (CancelOrderResponse.mk 501 false
           (Some "Can't cancel Order at this stage: payment_pending") None None),
     Sample.pending_world).
Proof.
  destruct (cancelClient_rejections (Context.mk 30 UserRole.USER) 1
              Sample.pending_world) as (_ & H).
  apply (H Sample.pending_order).
  - vm_compute. reflexivity.
  - discriminate.
Defined.

(** ** The address update *)

Lemma update_first_none p f os :
  List.find p os = None -> OrderDataSource.update_first p f os = os.
Proof.
  induction os as [|o os IH]; simpl; [reflexivity|].
  destruct (p o); [discriminate|]. intros H. rewrite IH by exact H.
  reflexivity.
Qed.

Lemma update_first_others p f os o :
  In o os -> p o = false -> In o (OrderDataSource.update_first p f os).
Proof.
  induction os as [|x os IH]; simpl; [tauto|].
  intros [->|Hin] Hp.
  - rewrite Hp. left. reflexivity.
  - destruct (p x); right; auto.
Qed.

Lemma update_first_erased p f (g : Order.t -> Order.t) os :
  (forall o, g (f o) = g o) ->
  List.map g (OrderDataSource.update_first p f os) = List.map g os.
Proof.
  intros Hg. induction os as [|x os IH]; simpl; [reflexivity|].
  destruct (p x); simpl; [rewrite Hg|rewrite IH]; reflexivity.
Qed.

Lemma update_first_found p f os o :
  (forall o, p (f o) = p o) ->
  List.find p os = Some o ->
  List.find p (OrderDataSource.update_first p f os) = Some (f o).
Proof.
  intros Hp. induction os as [|x os IH]; simpl; [discriminate|].
  destruct (p x) eqn:E.
  - intros [= <-]. simpl. rewrite Hp, E. reflexivity.
  - intros H. simpl. rewrite E. apply IH. exact H.
Qed.

(** X28.  updateOrder always answers the success envelope, with the
    caller's Order of that id after the change or [null] when there is
    none.  Only the shipping address of that one Order can change:
    every other Order is kept, all Orders keep every other field, and
    Splits, conversations, provider and messages are untouched; when
    the caller has no such Order the collections are as before. *)
Theorem updateOrder_changes_the_own_address_only ctx _id a w :
  exists response w',
    OrderDataSource.update ctx _id a w = (Ok response, w')
    /\ OrderResponse.code response = 200%Z
    /\ OrderResponse.success response = true
    /\ OrderResponse.order response
       = (match a with
          | Some a => Order.with_shippingAddress a
          | None => fun o => o
          end)
         <$> List.find (own_order ctx _id) (Store.orders (World.store w))
    /\ List.map (Order.with_shippingAddress 0) (Store.orders (World.store w'))
       = List.map (Order.with_shippingAddress 0) (Store.orders (World.store w))
    /\ (forall o, In o (Store.orders (World.store w)) ->
                  own_order ctx _id o = false ->
                  In o (Store.orders (World.store w')))
    /\ (List.find (own_order ctx _id) (Store.orders (World.store w)) = None ->
        World.store w' = World.store w)
    /\ Store.splits (World.store w') = Store.splits (World.store w)
    /\ Store.conversations (World.store w')
       = Store.conversations (World.store w)
    /\ World.gateway w' = World.gateway w
    /\ World.messages w' = World.messages w.
Proof.
  unfold OrderDataSource.update, write_nosession, bind, gets, ret.
  cbv beta iota zeta. fold (own_order ctx _id).
  eexists _, _. split; [reflexivity|]. project.
  split; [reflexivity|]. split; [reflexivity|].
  set (change := fun o => match a with
                          | Some a0 => Order.with_shippingAddress a0 o
                          | None => o
                          end).
  split; [|split; [|split; [|split]]].
  - simpl. destruct (List.find (own_order ctx _id)
                       (Store.orders (World.store w))) as [o|] eqn:E.
    + rewrite (update_first_found _ change _ o); [|intros x|exact E].
      * simpl. unfold change. destruct a; reflexivity.
      * unfold change. destruct a; reflexivity.
    + rewrite update_first_none by exact E. rewrite E. reflexivity.
  - apply update_first_erased. intros o. unfold change.
    destruct a; reflexivity.
  - intros o Hin Hp. apply update_first_others; assumption.
  - intros E. unfold Store.with_orders.
    rewrite update_first_none by exact E.
    destruct (World.store w); reflexivity.
  - repeat split.
Qed.

(** ** Updating a Split *)

Section UpdateSplit.

Variable toFormat : DateTime -> string.



End UpdateSplit.


